(** * PytorchAulas: the training notebook and the Dataset/DataLoader notebook

    The notebooks are sequences of script cells that call PyTorch,
    torchvision, numpy and matplotlib.  The cells are embedded as programs
    over a signature of framework calls; the framework itself is a handler
    of those calls.  Results about the order of calls and about error
    propagation hold for every handler; results about devices, shapes and
    values are stated for [torch], a model of the documented behaviour of
    the calls the notebooks make.  Floating-point numbers are idealised as
    exact rationals. *)

From Stdlib Require Import Ascii String List ZArith QArith Qround Lia Lqa Bool Arith.
Import ListNotations.
Local Open Scope nat_scope.

(** ** Python exceptions and results *)

Inductive exn : Type :=
| TypeError (msg : string)
| RuntimeError (msg : string)
| ValueError (msg : string)
| IndexError (msg : string)
| ZeroDivisionError
| StopIteration
| AssertionError (msg : string).

Inductive result (A : Type) : Type :=
| Ok (a : A)
| Err (e : exn).
Arguments Ok {A} a.
Arguments Err {A} e.

Fixpoint rmap {A B} (f : A -> result B) (l : list A) : result (list B) :=
  match l with
  | [] => Ok []
  | a :: l' =>
      match f a with
      | Ok b => match rmap f l' with
                | Ok bs => Ok (b :: bs)
                | Err e => Err e
                end
      | Err e => Err e
      end
  end.

(** ** Python values that reach [print] *)

Inductive pyval : Type :=
| PInt (z : Z)
| PFloat (q : Q)
| PStr (s : string)
| PBool (b : bool).

(** ** Tensors, arrays and images *)

Inductive device : Type := CPU | CUDA.

Inductive dtype : Type := Float32 | Int64 | BoolT.

Definition device_eqb (a b : device) : bool :=
  match a, b with
  | CPU, CPU | CUDA, CUDA => true
  | _, _ => false
  end.

Definition dtype_eqb (a b : dtype) : bool :=
  match a, b with
  | Float32, Float32 | Int64, Int64 | BoolT, BoolT => true
  | _, _ => false
  end.

(** A tensor: where it lives, its element type, its shape and its elements
    in row-major order.  [t_requires_grad] says whether autograd recorded
    how the tensor was computed. *)
Record tensor : Type := mkTensor {
  t_device : device;
  t_dtype : dtype;
  t_shape : list nat;
  t_data : list Q;
  t_requires_grad : bool
}.

(** A numpy array lives in host memory. *)
Record ndarray : Type := mkArray {
  a_shape : list nat;
  a_data : list Q
}.

(** A decoded PIL image: height, width, and the RGB bytes in H x W x C order. *)
Record pil_image : Type := mkImage {
  pil_h : nat;
  pil_w : nat;
  pil_px : list Z
}.

Definition numel (shape : list nat) : nat := fold_right Nat.mul 1 shape.

Fixpoint shape_eqb (a b : list nat) : bool :=
  match a, b with
  | [], [] => true
  | x :: a', y :: b' => (x =? y) && shape_eqb a' b'
  | _, _ => false
  end.

Definition with_data (t : tensor) (sh : list nat) (d : list Q) : tensor :=
  mkTensor (t_device t) (t_dtype t) sh d (t_requires_grad t).

Fixpoint mapi_from {A B} (i : nat) (f : nat -> A -> B) (l : list A) : list B :=
  match l with
  | [] => []
  | a :: l' => f i a :: mapi_from (S i) f l'
  end.

Definition mapi {A B} (f : nat -> A -> B) (l : list A) : list B := mapi_from 0 f l.

(** Consecutive chunks of at most [n] elements, the last one possibly
    shorter (DataLoader's default [drop_last=False]). *)
Fixpoint chunks_fuel {A} (n fuel : nat) (l : list A) : list (list A) :=
  match fuel with
  | 0 => []
  | S fuel' =>
      match l with
      | [] => []
      | _ :: _ => firstn n l :: chunks_fuel n fuel' (skipn n l)
      end
  end.

Definition chunks {A} (n : nat) (l : list A) : list (list A) :=
  chunks_fuel n (length l) l.

(** ** Index arithmetic on row-major data *)

(** Coordinates of the flat index [i] in an array of shape [shape]. *)
Fixpoint unravel (shape : list nat) (i : nat) : list nat :=
  match shape with
  | [] => []
  | _ :: rest => (i / numel rest) :: unravel rest (i mod numel rest)
  end.

(** Flat index of the coordinates [coords] in an array of shape [shape]. *)
Fixpoint ravel (shape coords : list nat) : nat :=
  match shape, coords with
  | _ :: rest, c :: cs => c * numel rest + ravel rest cs
  | _, _ => 0
  end.

Definition qnth (l : list Q) (i : nat) : Q := nth i l 0%Q.

Fixpoint is_permutation_of_range (n : nat) (axes : list nat) : bool :=
  match n with
  | 0 => true
  | S n' => existsb (Nat.eqb n') axes && is_permutation_of_range n' axes
  end.

(** Data of the array whose axis [p] is the source's axis [nth p axes]. *)
Definition permute_data (shape axes : list nat) (data : list Q) : list Q :=
  let out_shape := map (fun a => nth a shape 0) axes in
  map (fun o =>
         let oc := unravel out_shape o in
         let src := map (fun m =>
                           match find (fun pa => snd pa =? m) (combine oc axes) with
                           | Some (c, _) => c
                           | None => 0
                           end) (seq 0 (length shape)) in
         qnth data (ravel shape src))
      (seq 0 (numel out_shape)).

(** H x W x C bytes to C x H x W, as [ToTensor] lays a picture out. *)
Definition hwc_to_chw {A} (d : A) (c hw : nat) (l : list A) : list A :=
  flat_map (fun ch => map (fun p => nth (p * c + ch) l d) (seq 0 hw)) (seq 0 c).

(** ** torchvision.transforms *)

#[warnings="-register-all"] Inductive transform_t : Type :=
| ToTensor
| Normalize (mean std : list Q)
| Compose (ts : list transform_t).

Inductive sample_val : Type :=
| Pil (img : pil_image)
| Ten (t : tensor).

(** [ToTensor]: a PIL picture becomes a float tensor C x H x W with values
    in [0, 1]. *)
Definition to_tensor (v : sample_val) : result sample_val :=
  match v with
  | Pil img =>
      Ok (Ten (mkTensor CPU Float32 [3; pil_h img; pil_w img]
                 (hwc_to_chw 0%Q 3 (pil_h img * pil_w img)
                    (map (fun p => inject_Z p / 255)%Q (pil_px img)))
                 false))
  | Ten _ => Err (TypeError "pic should be PIL Image or ndarray")
  end.

Definition normalize_value (m s x : Q) : Q := ((x - m) / s)%Q.

(** The last three dimensions of a shape: channels, height, width. *)
Definition chw_of (shape : list nat) : option (nat * nat * nat) :=
  match rev shape with
  | w :: h :: c :: _ => Some (c, h, w)
  | _ => None
  end.

Definition channel_stat (stats : list Q) (ch : nat) : Q :=
  match stats with
  | [s] => s
  | _ => qnth stats ch
  end.

(** [Normalize(mean, std)]: per channel, [(x - mean[c]) / std[c]]. *)
Definition normalize (mean std : list Q) (v : sample_val) : result sample_val :=
  match v with
  | Pil _ => Err (TypeError "img should be Tensor Image")
  | Ten t =>
      if negb (dtype_eqb (t_dtype t) Float32)
      then Err (TypeError "Input tensor should be a float tensor")
      else
        match chw_of (t_shape t) with
        | None => Err (ValueError "Expected tensor to be a tensor image of size (..., C, H, W)")
        | Some (c, h, w) =>
            if existsb (fun s => Qeq_bool s 0) std
            then Err (ValueError "std evaluated to zero, leading to division by zero")
            else if negb (((length mean =? c) || (length mean =? 1))
                          && ((length std =? c) || (length std =? 1)))
            then Err (RuntimeError "The size of tensor a must match the size of tensor b")
            else
              Ok (Ten (with_data t (t_shape t)
                         (mapi (fun i x =>
                                  let ch := (i / (h * w)) mod c in
                                  normalize_value (channel_stat mean ch) (channel_stat std ch) x)
                               (t_data t))))
        end
  end.

Fixpoint apply_transform (tr : transform_t) (v : sample_val) : result sample_val :=
  match tr with
  | ToTensor => to_tensor v
  | Normalize mean std => normalize mean std v
  | Compose ts =>
      (fix go (ts : list transform_t) (v : sample_val) : result sample_val :=
         match ts with
         | [] => Ok v
         | t :: ts' =>
             match apply_transform t v with
             | Ok v' => go ts' v'
             | Err e => Err e
             end
         end) ts v
  end.

(** ** Tensor operations the cells call *)

Definition cuda_msg : string :=
  "can't convert cuda:0 device type tensor to numpy. Use Tensor.cpu() to copy the tensor to host memory first.".

(** Why a machine has no accelerator for torch: the installed torch was
    built without CUDA, or it was built with CUDA and finds no driver, or
    it finds a driver and no device. *)
Inductive cuda_fault : Type := NotCompiled | NoDriver | NoDevice.

(** What torch raises when it is asked for the accelerator there. *)
Definition no_cuda (f : cuda_fault) : exn :=
  match f with
  | NotCompiled => AssertionError "Torch not compiled with CUDA enabled"
  | NoDriver => RuntimeError "Found no NVIDIA driver on your system"
  | NoDevice => RuntimeError "No CUDA GPUs are available"
  end.

(** [t.to(device)] *)
Definition t_to (cuda_available : bool) (fault : cuda_fault) (t : tensor) (d : device)
  : result tensor :=
  match d with
  | CPU => Ok (mkTensor CPU (t_dtype t) (t_shape t) (t_data t) (t_requires_grad t))
  | CUDA =>
      if cuda_available
      then Ok (mkTensor CUDA (t_dtype t) (t_shape t) (t_data t) (t_requires_grad t))
      else Err (no_cuda fault)
  end.

(** [t / q]: true division, the result is a float tensor. *)
Definition t_div_scalar (t : tensor) (q : Q) : tensor :=
  mkTensor (t_device t) Float32 (t_shape t)
    (map (fun x => x / q)%Q (t_data t)) (t_requires_grad t).

(** [t + q] *)
Definition t_add_scalar (t : tensor) (q : Q) : tensor :=
  mkTensor (t_device t) Float32 (t_shape t)
    (map (fun x => x + q)%Q (t_data t)) (t_requires_grad t).

(** [t.numpy()]: only a host tensor outside autograd converts. *)
Definition t_numpy (t : tensor) : result ndarray :=
  match t_device t with
  | CUDA => Err (TypeError cuda_msg)
  | CPU =>
      if t_requires_grad t
      then Err (RuntimeError "Can't call numpy() on Tensor that requires grad. Use tensor.detach().numpy() instead.")
      else Ok (mkArray (t_shape t) (t_data t))
  end.

(** [np.transpose(a, axes)] *)
Definition np_transpose (a : ndarray) (axes : list nat) : result ndarray :=
  if (length axes =? length (a_shape a))
     && is_permutation_of_range (length axes) axes
  then Ok (mkArray (map (fun ax => nth ax (a_shape a) 0) axes)
             (permute_data (a_shape a) axes (a_data a)))
  else Err (ValueError "axes don't match array").

(** [plt.imshow(a)] accepts M x N, M x N x 3 and M x N x 4 arrays. *)
Definition imshow_accepts (shape : list nat) : bool :=
  match shape with
  | [_; _] => true
  | [_; _; c] => (c =? 3) || (c =? 4)
  | _ => false
  end.

(** [torchvision.utils.make_grid(t)] with the defaults [nrow=8],
    [padding=2]: the shape of the grid. *)
Definition make_grid_shape (shape : list nat) : result (list nat) :=
  match shape with
  | [h; w] => Ok [3; h; w]
  | [c; h; w] => Ok [if c =? 1 then 3 else c; h; w]
  | [n; c; h; w] =>
      let c' := if c =? 1 then 3 else c in
      if n =? 1 then Ok [c'; h; w]
      else if n =? 0 then Err ZeroDivisionError
      else
        let xmaps := Nat.min 8 n in
        let ymaps := (n + xmaps - 1) / xmaps in
        Ok [c'; (h + 2) * ymaps + 2; (w + 2) * xmaps + 2]
  | [] => Err (IndexError "Dimension specified as 0 but tensor has no dimensions")
  | [n] => if n =? 1 then Ok [] else Err (IndexError "Dimension out of range")
  | n :: rest =>
      if n =? 1 then Ok rest
      else Err (RuntimeError "The size of tensor a must match the size of tensor b")
  end.

(** [nn.Conv2d(cin, cout, k)] applied to an input of shape [shape]
    (stride 1, no padding). *)
Definition conv2d_shape (cin cout k : nat) (shape : list nat) : result (list nat) :=
  let out c h w (wrap : list nat -> list nat) :=
    if negb (c =? cin)
    then Err (RuntimeError "expected input to have the layer's number of channels")
    else if (h <? k) || (w <? k)
    then Err (RuntimeError "Kernel size can't be greater than actual input size")
    else Ok (wrap [cout; h - k + 1; w - k + 1]) in
  match shape with
  | [c; h; w] => out c h w (fun s => s)
  | [n; c; h; w] => out c h w (fun s => n :: s)
  | _ => Err (RuntimeError "Expected 3D (unbatched) or 4D (batched) input to conv2d")
  end.

(** [nn.MaxPool2d(k, stride)] applied to an input of shape [shape]. *)
Definition max_pool2d_shape (k stride : nat) (shape : list nat) : result (list nat) :=
  let out h w (wrap : list nat -> list nat) :=
    if (stride =? 0) || (k =? 0)
    then Err (RuntimeError "stride should not be zero")
    else if (h <? k) || (w <? k)
    then Err (RuntimeError "Output size is too small")
    else Ok (wrap [(h - k) / stride + 1; (w - k) / stride + 1]) in
  match shape with
  | [c; h; w] => out h w (fun s => c :: s)
  | [n; c; h; w] => out h w (fun s => n :: c :: s)
  | _ => Err (RuntimeError "non-empty 3D or 4D (batch mode) tensor expected for input")
  end.

(** [nn.Linear(fin, fout)] applied to an input of shape [shape]: the last
    dimension is replaced. *)
Definition linear_shape (fin fout : nat) (shape : list nat) : result (list nat) :=
  match rev shape with
  | [] => Err (RuntimeError "both arguments to matmul need to be at least 1D")
  | last :: front =>
      if last =? fin then Ok (rev (fout :: front))
      else Err (RuntimeError "mat1 and mat2 shapes cannot be multiplied")
  end.

(** [t.view(dims)]: at most one dimension may be [-1] and is inferred. *)
Definition view_shape (n : nat) (dims : list Z) : result (list nat) :=
  if existsb (fun d => (d <? -1)%Z) dims
  then Err (RuntimeError "invalid shape dimension")
  else
    let known := filter (fun d => negb (d =? -1)%Z) dims in
    let p := numel (map Z.to_nat known) in
    match length dims - length known with
    | 0 => if p =? n then Ok (map Z.to_nat dims)
           else Err (RuntimeError "shape is invalid for input size")
    | 1 =>
        if p =? 0
        then Err (RuntimeError "cannot reshape tensor of 0 elements: the unspecified dimension size -1 can be any value and is ambiguous")
        else if n mod p =? 0
        then Ok (map (fun d => if (d =? -1)%Z then n / p else Z.to_nat d) dims)
        else Err (RuntimeError "shape is invalid for input size")
    | _ => Err (RuntimeError "only one dimension can be inferred")
    end.

Definition t_view (t : tensor) (dims : list Z) : result tensor :=
  match view_shape (numel (t_shape t)) dims with
  | Ok sh => Ok (with_data t sh (t_data t))
  | Err e => Err e
  end.

Definition relu_value (x : Q) : Q := if Qle_bool 0 x then x else 0%Q.

(** [F.relu(t)] *)
Definition t_relu (t : tensor) : tensor :=
  with_data t (t_shape t) (map relu_value (t_data t)).

(** Index of the first maximal element, with the maximum so far. *)
Fixpoint argmax_from (best_i : nat) (best : Q) (i : nat) (l : list Q) : nat * Q :=
  match l with
  | [] => (best_i, best)
  | x :: l' =>
      if Qle_bool x best then argmax_from best_i best (S i) l'
      else argmax_from i x (S i) l'
  end.

Definition argmax (l : list Q) : nat :=
  match l with
  | [] => 0
  | x :: l' => fst (argmax_from 0 x 1 l')
  end.

Definition maximum (l : list Q) : Q :=
  match l with
  | [] => 0%Q
  | x :: l' => snd (argmax_from 0 x 1 l')
  end.

(** The slices along one dimension of data of shape [pre ++ m :: post],
    where [n = numel pre] and [r = numel post]: one list of [m] elements for
    each index of the other dimensions. *)
Definition slices_along (n m r : nat) (data : list Q) : list (list Q) :=
  flat_map (fun i =>
              map (fun j => map (fun k => qnth data (i * m * r + k * r + j)) (seq 0 m))
                  (seq 0 r))
           (seq 0 n).

(** [torch.max(t, dim)]: the maxima along [dim] and their indices. *)
Definition t_max (t : tensor) (dim : nat) : result (tensor * tensor) :=
  let pre := firstn dim (t_shape t) in
  match skipn dim (t_shape t) with
  | m :: post =>
      if (m =? 0) && negb (numel (pre ++ post) =? 0)
      then Err (IndexError "max(): Expected reduction dim to have non-zero size")
      else
        let cols := slices_along (numel pre) m (numel post) (t_data t) in
        Ok (mkTensor (t_device t) (t_dtype t) (pre ++ post) (map maximum cols)
              (t_requires_grad t),
            mkTensor (t_device t) Int64 (pre ++ post)
              (map (fun c => inject_Z (Z.of_nat (argmax c))) cols) false)
  | [] => Err (IndexError "Dimension out of range")
  end.

(** Broadcasting of two shapes, aligned at their last dimensions. *)
Fixpoint broadcast_rev (a b : list nat) : option (list nat) :=
  match a, b with
  | [], _ => Some b
  | _, [] => Some a
  | x :: a', y :: b' =>
      match broadcast_rev a' b' with
      | None => None
      | Some s =>
          if x =? y then Some (x :: s)
          else if x =? 1 then Some (y :: s)
          else if y =? 1 then Some (x :: s)
          else None
      end
  end.

Definition broadcast_shape (a b : list nat) : option (list nat) :=
  option_map (@rev nat) (broadcast_rev (rev a) (rev b)).

(** The element of [data], of shape [shape], that the coordinates [oc] of
    the broadcast result read. *)
Definition broadcast_read (shape : list nat) (data : list Q) (oc : list nat) : Q :=
  let oc' := skipn (length oc - length shape) oc in
  qnth data (ravel shape (map (fun cd => if snd cd =? 1 then 0 else fst cd)
                              (combine oc' shape))).

(** [a == b], elementwise. *)
Definition t_eq (a b : tensor) : result tensor :=
  if negb (device_eqb (t_device a) (t_device b))
  then Err (RuntimeError "Expected all tensors to be on the same device")
  else
    match broadcast_shape (t_shape a) (t_shape b) with
    | None => Err (RuntimeError "The size of tensor a must match the size of tensor b")
    | Some sh =>
        Ok (mkTensor (t_device a) BoolT sh
              (map (fun o =>
                      let oc := unravel sh o in
                      if Qeq_bool (broadcast_read (t_shape a) (t_data a) oc)
                                  (broadcast_read (t_shape b) (t_data b) oc)
                      then 1%Q else 0%Q)
                   (seq 0 (numel sh)))
              false)
    end.

Definition qsum (l : list Q) : Q := fold_right Qplus 0%Q l.

(** [t.sum()]: a 0-dimensional tensor; booleans and integers sum to Int64. *)
Definition t_sum (t : tensor) : tensor :=
  mkTensor (t_device t)
    (match t_dtype t with Float32 => Float32 | _ => Int64 end)
    [] [qsum (t_data t)] (t_requires_grad t).

(** [t.item()] *)
Definition t_item (t : tensor) : result Q :=
  if numel (t_shape t) =? 1 then Ok (qnth (t_data t) 0)
  else Err (RuntimeError "a Tensor with more than one element cannot be converted to Scalar").

(** [t.size(dim)] *)
Definition t_size (t : tensor) (dim : nat) : result nat :=
  match nth_error (t_shape t) dim with
  | Some n => Ok n
  | None => Err (IndexError "Dimension out of range")
  end.

(** [t[j]] *)
Definition t_getitem (t : tensor) (j : nat) : result tensor :=
  match t_shape t with
  | [] => Err (IndexError "invalid index of a 0-dim tensor")
  | n :: rest =>
      if j <? n
      then Ok (with_data t rest (firstn (numel rest) (skipn (j * numel rest) (t_data t))))
      else Err (IndexError "index is out of bounds for dimension 0")
  end.

(** [t.__index__()], what indexing a tuple with a tensor uses. *)
Definition t_index (t : tensor) : result Z :=
  match t_dtype t with
  | Float32 => Err (TypeError "only integer tensors of a single element can be converted to an index")
  | _ =>
      if numel (t_shape t) =? 1 then Ok (Qfloor (qnth (t_data t) 0))
      else Err (TypeError "only integer tensors of a single element can be converted to an index")
  end.

(** ** Framework objects *)

(** Modules hold handles into the framework's parameter store: a Python
    module and the optimizer built from its [parameters()] refer to the
    same tensors. *)
Record Conv2d : Type := mkConv2d {
  conv_in : nat; conv_out : nat; conv_k : nat;
  conv_weight : nat; conv_bias : nat
}.

Record MaxPool2d : Type := mkMaxPool2d { pool_k : nat; pool_stride : nat }.

Record Linear : Type := mkLinear {
  lin_in : nat; lin_out : nat;
  lin_weight : nat; lin_bias : nat
}.

Record SGD : Type := mkSGD {
  sgd_params : list nat; sgd_lr : Q; sgd_momentum : Q
}.

Record dataset : Type := mkDataset {
  ds_samples : list (pil_image * nat);
  ds_transform : transform_t
}.

Record dataloader : Type := mkDataLoader {
  dl_dataset : dataset;
  dl_batch_size : nat;
  dl_shuffle : bool;
  dl_num_workers : nat
}.

Definition batch : Type := (tensor * tensor)%type.

(** ** The calls the notebooks make *)

Inductive call : Type :=
(* torchvision.datasets, torch.utils.data *)
| CIFAR10 (root : string) (train download : bool) (tr : transform_t)
| DataLoader (ds : dataset) (batch_size : nat) (shuffle : bool) (num_workers : nat)
| IterLoader (dl : dataloader)
| LoaderFirst (dl : dataloader)
(* devices *)
| TorchDevice (name : string)
| CudaIsAvailable
| To (t : tensor) (d : device)
| ModuleTo (params : list nat) (d : device)
(* tensors *)
| DivScalar (t : tensor) (q : Q)
| AddScalar (t : tensor) (q : Q)
| Numpy (t : tensor)
| GetItem (t : tensor) (j : nat)
| TensorIndex (t : tensor)
| DataAttr (t : tensor)
| Max (t : tensor) (dim : nat)
| Size (t : tensor) (dim : nat)
| Eq (a b : tensor)
| Sum (t : tensor)
| Item (t : tensor)
| View (t : tensor) (dims : list Z)
| Relu (t : tensor)
(* numpy, matplotlib, torchvision.utils *)
| NpTranspose (a : ndarray) (axes : list nat)
| PltImshow (a : ndarray)
| MakeGrid (t : tensor)
(* torch.nn *)
| NewConv2d (cin cout k : nat)
| NewMaxPool2d (k stride : nat)
| NewLinear (fin fout : nat)
| Conv2dCall (l : Conv2d) (x : tensor)
| MaxPool2dCall (l : MaxPool2d) (x : tensor)
| LinearCall (l : Linear) (x : tensor)
| CrossEntropy (outputs labels : tensor)
| Backward (loss : tensor)
(* torch.optim *)
| NewSGD (params : list nat) (lr momentum : Q)
| ZeroGrad (opt : SGD)
| OptStep (opt : SGD)
(* the builtin print *)
| Print (fmt : string) (args : list pyval).

Definition resp (c : call) : Type :=
  match c with
  | CIFAR10 _ _ _ _ => dataset
  | DataLoader _ _ _ _ => dataloader
  | IterLoader _ => list batch
  | LoaderFirst _ => batch
  | TorchDevice _ => device
  | CudaIsAvailable => bool
  | To _ _ => tensor
  | ModuleTo _ _ => unit
  | DivScalar _ _ | AddScalar _ _ => tensor
  | Numpy _ => ndarray
  | GetItem _ _ => tensor
  | TensorIndex _ => Z
  | DataAttr _ => tensor
  | Max _ _ => (tensor * tensor)%type
  | Size _ _ => nat
  | Eq _ _ => tensor
  | Sum _ => tensor
  | Item _ => Q
  | View _ _ => tensor
  | Relu _ => tensor
  | NpTranspose _ _ => ndarray
  | PltImshow _ => unit
  | MakeGrid _ => tensor
  | NewConv2d _ _ _ => Conv2d
  | NewMaxPool2d _ _ => MaxPool2d
  | NewLinear _ _ => Linear
  | Conv2dCall _ _ | MaxPool2dCall _ _ | LinearCall _ _ => tensor
  | CrossEntropy _ _ => tensor
  | Backward _ => unit
  | NewSGD _ _ _ => SGD
  | ZeroGrad _ | OptStep _ => unit
  | Print _ _ => unit
  end.

(** [print] is Python's own; every other call is served by the framework
    and the libraries around it. *)
Definition is_framework_call (c : call) : bool :=
  match c with
  | Print _ _ => false
  | _ => true
  end.

(** ** Programs *)

(** A cell is a tree of calls.  [NoGrad] is the block
    [with torch.no_grad(): body].  [Try] is the statement
    [try: body / except BaseException as e: on_error e]: the handler runs
    when the body raises, and what it answers or raises takes the place of
    the body's outcome.  No cell writes a [try]; Python itself runs the
    body of a generator expression inside one (see [generator]). *)
Inductive prog : Type -> Type :=
| Ret {A : Type} (a : A) : prog A
| Throw {A : Type} (e : exn) : prog A
| Vis {A : Type} (c : call) (k : resp c -> prog A) : prog A
| NoGrad {A B : Type} (body : prog B) (k : B -> prog A) : prog A
| Try {A B : Type} (body : prog B) (on_error : exn -> prog B) (k : B -> prog A) : prog A.

Fixpoint bind {A B : Type} (m : prog A) : (A -> prog B) -> prog B :=
  match m in prog A0 return (A0 -> prog B) -> prog B with
  | Ret a => fun f => f a
  | Throw e => fun _ => Throw e
  | Vis c k => fun f => Vis c (fun r => bind (k r) f)
  | NoGrad body k => fun f => NoGrad body (fun b => bind (k b) f)
  | Try body on_error k => fun f => Try body on_error (fun b => bind (k b) f)
  end.

Arguments bind {A B} & m _.

Definition trigger (c : call) : prog (resp c) := Vis c (fun r => Ret r).

Declare Scope prog_scope.
Delimit Scope prog_scope with prog.
Notation "x <- m ;; k" := (bind m (fun x => k))
  (at level 61, m at next level, right associativity) : prog_scope.
Notation "' p <- m ;; k" := (bind m (fun x => match x with p => k end))
  (at level 61, p pattern, m at next level, right associativity) : prog_scope.
Notation "m ;; k" := (bind m (fun _ => k))
  (at level 61, right associativity) : prog_scope.

(** [for x in l: body x acc], threading the variables the body assigns. *)
Fixpoint for_each {X S : Type} (l : list X) (body : X -> S -> prog S) (s : S) : prog S :=
  match l with
  | [] => Ret s
  | x :: l' => bind (body x s) (for_each l' body)
  end.

(** [enumerate(l, start)] *)
Fixpoint enumerate_from {X : Type} (start : nat) (l : list X) : list (nat * X) :=
  match l with
  | [] => []
  | x :: l' => (start, x) :: enumerate_from (S start) l'
  end.

(** [[f(x) for x in l]] *)
Fixpoint comprehension {X Y : Type} (l : list X) (f : X -> prog Y) : prog (list Y) :=
  match l with
  | [] => Ret []
  | x :: l' => bind (f x) (fun y => bind (comprehension l' f) (fun ys => Ret (y :: ys)))
  end.

(** What leaves the body of a generator when the body raises [e]
    (PEP 479): a [StopIteration] leaves it as a RuntimeError, every other
    exception as it is. *)
Definition pep479 (e : exn) : exn :=
  match e with
  | StopIteration => RuntimeError "generator raised StopIteration"
  | _ => e
  end.

(** [(f(x) for x in l)], consumed to its end by the caller ([str.join]
    here): the elements are computed in order inside the generator's
    frame. *)
Definition generator {X Y : Type} (l : list X) (f : X -> prog Y) : prog (list Y) :=
  Try (comprehension l f) (fun e => Throw (pep479 e)) (fun ys => Ret ys).

Arguments for_each {X S} & l body s.
Arguments comprehension {X Y} & l f.
Arguments generator {X Y} & l f.

(** ** Handlers and runs *)

Record handler (S : Type) : Type := mkHandler {
  handle : forall c : call, S -> result (resp c) * S;
  grad_enabled : S -> bool;
  set_grad_enabled : bool -> S -> S
}.
Arguments handle {S} h c s.
Arguments grad_enabled {S} h s.
Arguments set_grad_enabled {S} h b s.

(** What a run leaves behind: every call with its outcome, and the limits
    of each [no_grad] block. *)
Inductive entry : Type :=
| Called (c : call) (r : result (resp c))
| EnterNoGrad
| ExitNoGrad.


Definition entry_call (en : entry) : option call :=
  match en with
  | Called c _ => Some c
  | _ => None
  end.

Fixpoint run {S A : Type} (h : handler S) (p : prog A) (s : S)
  : result A * S * list entry :=
  match p with
  | Ret a => (Ok a, s, [])
  | Throw e => (Err e, s, [])
  | Vis c k =>
      match handle h c s with
      | (Ok v, s1) =>
          let '(r, s2, tr) := run h (k v) s1 in
          (r, s2, Called c (Ok v) :: tr)
      | (Err e, s1) => (Err e, s1, [Called c (Err e)])
      end
  | NoGrad body k =>
      let prev := grad_enabled h s in
      let '(rb, s1, t1) := run h body (set_grad_enabled h false s) in
      let s2 := set_grad_enabled h prev s1 in
      match rb with
      | Ok b =>
          let '(r, s3, t2) := run h (k b) s2 in
          (r, s3, EnterNoGrad :: t1 ++ ExitNoGrad :: t2)
      | Err e => (Err e, s2, EnterNoGrad :: t1 ++ [ExitNoGrad])
      end
  | Try body on_error k =>
      let '(rb, s1, t1) := run h body s in
      match rb with
      | Ok b =>
          let '(r, s2, t2) := run h (k b) s1 in
          (r, s2, t1 ++ t2)
      | Err e =>
          let '(rh, s2, t2) := run h (on_error e) s1 in
          match rh with
          | Ok b =>
              let '(r, s3, t3) := run h (k b) s2 in
              (r, s3, t1 ++ t2 ++ t3)
          | Err e' => (Err e', s2, t1 ++ t2)
          end
      end
  end.

Definition outcome {S A : Type} (x : result A * S * list entry) : result A := fst (fst x).
Definition final {S A : Type} (x : result A * S * list entry) : S := snd (fst x).
Definition trace {S A : Type} (x : result A * S * list entry) : list entry := snd x.

(** The framework calls of a trace, in order. *)
Definition framework_calls (tr : list entry) : list entry :=
  filter (fun en => match entry_call en with
                    | Some c => is_framework_call c
                    | None => false
                    end) tr.

(** ** The framework's state *)

(** The numeric kernels, the random initialisation and the shuffling are
    the framework's business; the model takes them as given. *)
Class Kernels : Type := {
  init_kernel : nat -> list nat -> list Q;
  conv2d_kernel : tensor -> tensor -> tensor -> list Q;
  max_pool2d_kernel : nat -> nat -> tensor -> list Q;
  linear_kernel : tensor -> tensor -> tensor -> list Q;
  cross_entropy_kernel : tensor -> tensor -> Q;
  autograd_kernel : list tensor -> tensor -> nat -> list Q;
  make_grid_kernel : tensor -> list Q;
  shuffle_kernel : nat -> nat -> list nat
}.

(** A parameter with its [.grad] and the optimizer's momentum buffer. *)
Record slot : Type := mkSlot {
  p_value : tensor;
  p_grad : option (list Q);
  p_buf : option (list Q)
}.

(** [w_cuda] is [torch.cuda.is_available()]; where it is false,
    [w_cuda_fault] says why. *)
Record world : Type := mkWorld {
  w_cuda : bool;
  w_cuda_fault : cuda_fault;
  w_grad_mode : bool;
  w_store : list slot;
  w_rng : nat;
  w_files : bool -> option (list (pil_image * nat));
  w_stdout : list (string * list pyval);
  w_figure : list ndarray
}.

Definition set_store (st : list slot) (w : world) : world :=
  mkWorld (w_cuda w) (w_cuda_fault w) (w_grad_mode w) st (w_rng w) (w_files w)
    (w_stdout w) (w_figure w).

Definition set_rng (n : nat) (w : world) : world :=
  mkWorld (w_cuda w) (w_cuda_fault w) (w_grad_mode w) (w_store w) n (w_files w)
    (w_stdout w) (w_figure w).

Definition set_grad_mode (b : bool) (w : world) : world :=
  mkWorld (w_cuda w) (w_cuda_fault w) b (w_store w) (w_rng w) (w_files w)
    (w_stdout w) (w_figure w).

Definition write_stdout (fmt : string) (args : list pyval) (w : world) : world :=
  mkWorld (w_cuda w) (w_cuda_fault w) (w_grad_mode w) (w_store w) (w_rng w) (w_files w)
    (w_stdout w ++ [(fmt, args)]) (w_figure w).

Definition show_figure (a : ndarray) (w : world) : world :=
  mkWorld (w_cuda w) (w_cuda_fault w) (w_grad_mode w) (w_store w) (w_rng w) (w_files w)
    (w_stdout w) (w_figure w ++ [a]).

(** Update of the slot at a handle; a handle outside the store updates
    nothing. *)
Fixpoint update_slot (h : nat) (f : slot -> slot) (st : list slot) : list slot :=
  match st, h with
  | [], _ => []
  | s :: st', 0 => f s :: st'
  | s :: st', S h' => s :: update_slot h' f st'
  end.

Definition update_slots (hs : list nat) (f : slot -> slot) (st : list slot) : list slot :=
  fold_left (fun acc h => update_slot h f acc) hs st.

Definition param (w : world) (h : nat) : option tensor :=
  option_map p_value (nth_error (w_store w) h).

Section Torch.
Context {K : Kernels}.

(** A new parameter of shape [shape]: a host tensor that requires grad. *)
Definition new_param (w : world) (shape : list nat) : nat * world :=
  (length (w_store w),
   set_rng (S (w_rng w))
     (set_store (w_store w ++
                   [mkSlot (mkTensor CPU Float32 shape (init_kernel (w_rng w) shape) true)
                      None None]) w)).

(** The order in which one pass of a loader visits its dataset. *)
Definition loader_order (dl : dataloader) (w : world) : list nat :=
  let n := length (ds_samples (dl_dataset dl)) in
  if dl_shuffle dl then shuffle_kernel (w_rng w) n else seq 0 n.

(** [dataset[i]]: the picture goes through the dataset's transform. *)
Definition dataset_getitem (ds : dataset) (i : nat) : result (tensor * nat) :=
  match nth_error (ds_samples ds) i with
  | None => Err (IndexError "list index out of range")
  | Some (img, label) =>
      match apply_transform (ds_transform ds) (Pil img) with
      | Ok (Ten t) => Ok (t, label)
      | Ok (Pil _) => Err (TypeError "default_collate: batch must contain tensors, numpy arrays, numbers, dicts or lists")
      | Err e => Err e
      end
  end.

(** The default collate function: samples stacked into one batch. *)
Definition collate (samples : list (tensor * nat)) : result batch :=
  match samples with
  | [] => Err (IndexError "list index out of range")
  | (t0, _) :: _ =>
      if forallb (fun s => shape_eqb (t_shape (fst s)) (t_shape t0)) samples
      then Ok (mkTensor CPU Float32 (length samples :: t_shape t0)
                 (flat_map (fun s => t_data (fst s)) samples) false,
               mkTensor CPU Int64 [length samples]
                 (map (fun s => inject_Z (Z.of_nat (snd s))) samples) false)
      else Err (RuntimeError "stack expects each tensor to be equal size")
  end.

Definition load_batch (ds : dataset) (idxs : list nat) : result batch :=
  match rmap (dataset_getitem ds) idxs with
  | Ok samples => collate samples
  | Err e => Err e
  end.

Definition advance_rng (dl : dataloader) (w : world) : world :=
  if dl_shuffle dl then set_rng (S (w_rng w)) w else w.

(** What a layer raises when its input has not the type of its
    parameters, and when it is not on their device.  A convolution compares
    the tensor types, which name the device too, and has one message for
    both; a linear layer's matrix product checks the two apart.  (The
    messages are PyTorch's without the types and devices they go on to
    name.) *)
Definition conv_type_error : exn :=
  RuntimeError "Input type and weight type should be the same".

Definition linear_dtype_error : exn :=
  RuntimeError "mat1 and mat2 must have the same dtype".

Definition linear_device_error : exn :=
  RuntimeError "Expected all tensors to be on the same device".

(** A layer's output requires grad when autograd is recording and a
    parameter or the input does. *)
Definition layer_call (w : world) (hw hb : nat) (x : tensor)
    (dtype_error device_error : exn)
    (shape : result (list nat)) (kernel : tensor -> tensor -> tensor -> list Q)
  : result tensor :=
  match param w hw, param w hb with
  | Some wt, Some bs =>
      if negb (dtype_eqb (t_dtype x) Float32)
      then Err dtype_error
      else if negb (device_eqb (t_device x) (t_device wt)
                    && device_eqb (t_device x) (t_device bs))
      then Err device_error
      else
        match shape with
        | Ok sh =>
            Ok (mkTensor (t_device x) Float32 sh (kernel wt bs x)
                  (w_grad_mode w
                   && (t_requires_grad wt || t_requires_grad bs || t_requires_grad x)))
        | Err e => Err e
        end
  | _, _ => Err (RuntimeError "parameter is not registered")
  end.

Definition track (w : world) (t : tensor) : tensor :=
  mkTensor (t_device t) (t_dtype t) (t_shape t) (t_data t)
    (w_grad_mode w && t_requires_grad t).

(** [criterion(outputs, labels)] for class-index targets. *)
Definition cross_entropy (w : world) (outputs labels : tensor) : result tensor :=
  if negb (device_eqb (t_device outputs) (t_device labels))
  then Err (RuntimeError "Expected all tensors to be on the same device")
  else if negb (dtype_eqb (t_dtype outputs) Float32 && dtype_eqb (t_dtype labels) Int64)
  then Err (RuntimeError "expected scalar type Long for the target and a floating point input")
  else
    match t_shape outputs, t_shape labels with
    | [n; c], [n'] =>
        if negb (n =? n')
        then Err (ValueError "Expected input batch_size to match target batch_size")
        else if forallb (fun l => Qle_bool 0 l && negb (Qle_bool (inject_Z (Z.of_nat c)) l))
                        (firstn n (t_data labels))
        then Ok (mkTensor (t_device outputs) Float32 []
                   [cross_entropy_kernel outputs labels]
                   (w_grad_mode w && t_requires_grad outputs))
        else Err (IndexError "Target is out of bounds")
    | _, _ => Err (RuntimeError "size mismatch between the input and the target")
    end.

Definition qmap2 (f : Q -> Q -> Q) (a b : list Q) : list Q :=
  map (fun ab => f (fst ab) (snd ab)) (combine a b).

(** [loss.backward()] adds the gradient of the loss to every parameter's
    [.grad]. *)
Definition accumulate_grads (w : world) (loss : tensor) : list slot :=
  let values := map p_value (w_store w) in
  mapi (fun h s =>
          let g := autograd_kernel values loss h in
          mkSlot (p_value s)
            (Some (match p_grad s with
                   | None => g
                   | Some g0 => qmap2 Qplus g0 g
                   end))
            (p_buf s))
       (w_store w).

(** One step of SGD with momentum on a parameter that has a gradient. *)
Definition sgd_update (opt : SGD) (s : slot) : slot :=
  match p_grad s with
  | None => s
  | Some g =>
      let buf := match p_buf s with
                 | None => g
                 | Some b => qmap2 (fun bi gi => sgd_momentum opt * bi + gi)%Q b g
                 end in
      mkSlot (with_data (p_value s) (t_shape (p_value s))
                (qmap2 (fun pi bi => pi - sgd_lr opt * bi)%Q (t_data (p_value s)) buf))
        (p_grad s) (Some buf)
  end.

Definition move_param (d : device) (s : slot) : slot :=
  mkSlot (mkTensor d (t_dtype (p_value s)) (t_shape (p_value s)) (t_data (p_value s))
            (t_requires_grad (p_value s)))
    (p_grad s) (p_buf s).

Definition pure_call {A} (r : result A) (w : world) : result A * world := (r, w).

(** The model of PyTorch: what every call answers and how it changes
    the framework's state. *)
Definition torch_handle (c : call) (w : world) : result (resp c) * world :=
  match c return result (resp c) * world with
  | CIFAR10 _ train download tr =>
      match w_files w train with
      | Some samples =>
          (Ok (mkDataset samples tr),
           if download then write_stdout "Files already downloaded and verified" [] w else w)
      | None => (Err (RuntimeError "Dataset not found or corrupted"), w)
      end
  | DataLoader ds bs shuffle workers =>
      if shuffle && (length (ds_samples ds) =? 0)
      then (Err (ValueError "num_samples should be a positive integer value, but got num_samples=0"), w)
      else if bs =? 0
      then (Err (ValueError "batch_size should be a positive integer value"), w)
      else (Ok (mkDataLoader ds bs shuffle workers), w)
  | IterLoader dl =>
      (rmap (load_batch (dl_dataset dl)) (chunks (dl_batch_size dl) (loader_order dl w)),
       advance_rng dl w)
  | LoaderFirst dl =>
      (match chunks (dl_batch_size dl) (loader_order dl w) with
       | [] => Err StopIteration
       | idxs :: _ => load_batch (dl_dataset dl) idxs
       end,
       advance_rng dl w)
  | TorchDevice name =>
      if String.eqb name "cuda" then (Ok CUDA, w)
      else if String.eqb name "cpu" then (Ok CPU, w)
      else (Err (RuntimeError "Expected one of cpu, cuda, ... device type at start of device string"), w)
  | CudaIsAvailable => (Ok (w_cuda w), w)
  | To t d => pure_call (t_to (w_cuda w) (w_cuda_fault w) t d) w
  | ModuleTo params d =>
      match d with
      | CUDA =>
          if w_cuda w then (Ok tt, set_store (update_slots params (move_param CUDA) (w_store w)) w)
          else (Err (no_cuda (w_cuda_fault w)), w)
      | CPU => (Ok tt, set_store (update_slots params (move_param CPU) (w_store w)) w)
      end
  | DivScalar t q => (Ok (track w (t_div_scalar t q)), w)
  | AddScalar t q => (Ok (track w (t_add_scalar t q)), w)
  | Numpy t => pure_call (t_numpy t) w
  | GetItem t j => pure_call (t_getitem t j) w
  | TensorIndex t => pure_call (t_index t) w
  | DataAttr t =>
      (Ok (mkTensor (t_device t) (t_dtype t) (t_shape t) (t_data t) false), w)
  | Max t dim => pure_call (t_max t dim) w
  | Size t dim => pure_call (t_size t dim) w
  | Eq a b => pure_call (t_eq a b) w
  | Sum t => (Ok (track w (t_sum t)), w)
  | Item t => pure_call (t_item t) w
  | View t dims => pure_call (t_view t dims) w
  | Relu t => (Ok (track w (t_relu t)), w)
  | NpTranspose a axes => pure_call (np_transpose a axes) w
  | PltImshow a =>
      if imshow_accepts (a_shape a) then (Ok tt, show_figure a w)
      else (Err (TypeError "Invalid shape for image data"), w)
  | MakeGrid t =>
      (match make_grid_shape (t_shape t) with
       | Ok sh => Ok (mkTensor (t_device t) (t_dtype t) sh (make_grid_kernel t) false)
       | Err e => Err e
       end, w)
  | NewConv2d cin cout k =>
      let (hw, w1) := new_param w [cout; cin; k; k] in
      let (hb, w2) := new_param w1 [cout] in
      (Ok (mkConv2d cin cout k hw hb), w2)
  | NewMaxPool2d k stride => (Ok (mkMaxPool2d k stride), w)
  | NewLinear fin fout =>
      let (hw, w1) := new_param w [fout; fin] in
      let (hb, w2) := new_param w1 [fout] in
      (Ok (mkLinear fin fout hw hb), w2)
  | Conv2dCall l x =>
      (layer_call w (conv_weight l) (conv_bias l) x conv_type_error conv_type_error
         (conv2d_shape (conv_in l) (conv_out l) (conv_k l) (t_shape x)) conv2d_kernel, w)
  | MaxPool2dCall l x =>
      (match max_pool2d_shape (pool_k l) (pool_stride l) (t_shape x) with
       | Ok sh => Ok (track w (with_data x sh (max_pool2d_kernel (pool_k l) (pool_stride l) x)))
       | Err e => Err e
       end, w)
  | LinearCall l x =>
      (layer_call w (lin_weight l) (lin_bias l) x linear_dtype_error linear_device_error
         (linear_shape (lin_in l) (lin_out l) (t_shape x)) linear_kernel, w)
  | CrossEntropy outputs labels => pure_call (cross_entropy w outputs labels) w
  | Backward loss =>
      if negb (t_requires_grad loss)
      then (Err (RuntimeError "element 0 of tensors does not require grad and does not have a grad_fn"), w)
      else if negb (numel (t_shape loss) =? 1)
      then (Err (RuntimeError "grad can be implicitly created only for scalar outputs"), w)
      else (Ok tt, set_store (accumulate_grads w loss) w)
  | NewSGD params lr momentum =>
      match params with
      | [] => (Err (ValueError "optimizer got an empty parameter list"), w)
      | _ :: _ =>
          if negb (Qle_bool 0 lr) then (Err (ValueError "Invalid learning rate"), w)
          else if negb (Qle_bool 0 momentum) then (Err (ValueError "Invalid momentum value"), w)
          else (Ok (mkSGD params lr momentum), w)
      end
  | ZeroGrad opt =>
      (Ok tt,
       set_store (update_slots (sgd_params opt)
                    (fun s => mkSlot (p_value s) None (p_buf s)) (w_store w)) w)
  | OptStep opt =>
      (Ok tt, set_store (update_slots (sgd_params opt) (sgd_update opt) (w_store w)) w)
  | Print fmt args => (Ok tt, write_stdout fmt args w)
  end.

Definition torch : handler world :=
  mkHandler world torch_handle w_grad_mode set_grad_mode.

End Torch.

(** ** Python helpers the cells rely on *)

(** [next(iter(l))] for a Python list. *)
Definition next_of_list {X : Type} (l : list X) : prog X :=
  match l with
  | [] => Throw StopIteration
  | x :: _ => Ret x
  end.

(** [t[i]] for a tuple and a Python integer: negative indices count from
    the end. *)
Definition tuple_getitem (t : list string) (i : Z) : prog string :=
  let n := Z.of_nat (length t) in
  let i' := if (i <? 0)%Z then (i + n)%Z else i in
  if ((0 <=? i') && (i' <? n))%Z
  then Ret (nth (Z.to_nat i') t EmptyString)
  else Throw (IndexError "tuple index out of range").

Fixpoint spaces (n : nat) : string :=
  match n with
  | 0 => EmptyString
  | S n' => String " "%char (spaces n')
  end.

(** ['%5s' % s] *)
Definition percent_5s (s : string) : string :=
  (spaces (5 - String.length s) ++ s)%string.

(** [a / b] for Python numbers. *)
Definition true_div (a b : Q) : prog Q :=
  if Qeq_bool b 0 then Throw ZeroDivisionError else Ret (a / b)%Q.

Local Open Scope prog_scope.

(** ** The training notebook *)

Module TrainingNotebook.

Definition transform : transform_t :=
  Compose [ToTensor; Normalize [0.5; 0.5; 0.5]%Q [0.5; 0.5; 0.5]%Q].

Definition classes : list string :=
  ["plane"; "car"; "bird"; "cat"; "deer"; "dog"; "frog"; "horse"; "ship"; "truck"]%string.

(** The datasets and their loaders. *)
Definition data_cell : prog (dataset * dataloader * dataset * dataloader) :=
  trainset <- trigger (CIFAR10 "./data" true true transform) ;;
  trainloader <- trigger (DataLoader trainset 4 true 2) ;;
  testset <- trigger (CIFAR10 "./data" false true transform) ;;
  testloader <- trigger (DataLoader testset 4 false 2) ;;
  Ret (trainset, trainloader, testset, testloader).

Definition device_cell : prog device := trigger (TorchDevice "cuda").

(** [[(inputs.to(device), labels.to(device)) for inputs, labels in loader]].
    One pass over the loader is one call that answers with its batches. *)
Definition move_batch (dev : device) (b : batch) : prog batch :=
  inputs <- trigger (To (fst b) dev) ;;
  labels <- trigger (To (snd b) dev) ;;
  Ret (inputs, labels).

Definition transfer (dev : device) (loader : dataloader) : prog (list batch) :=
  batches <- trigger (IterLoader loader) ;;
  comprehension batches (move_batch dev).

Definition transfer_cell (dev : device) (trainloader testloader : dataloader)
  : prog (list batch * list batch) :=
  trainloader' <- transfer dev trainloader ;;
  testloader' <- transfer dev testloader ;;
  Ret (trainloader', testloader').

Definition imshow (img : tensor) : prog unit :=
  img <- trigger (DivScalar img 2) ;;
  img <- trigger (AddScalar img 0.5) ;;
  npimg <- trigger (Numpy img) ;;
  a <- trigger (NpTranspose npimg [1; 2; 0]) ;;
  trigger (PltImshow a).

Definition label_name (labels : tensor) (j : nat) : prog string :=
  lj <- trigger (GetItem labels j) ;;
  i <- trigger (TensorIndex lj) ;;
  name <- tuple_getitem classes i ;;
  Ret (percent_5s name).

Definition show_cell (trainloader : list batch) : prog unit :=
  b <- next_of_list trainloader ;;
  let images := fst b in
  let labels := snd b in
  grid <- trigger (MakeGrid images) ;;
  imshow grid ;;
  names <- generator (seq 0 4) (label_name labels) ;;
  trigger (Print "%s" [PStr (String.concat " " names)]).

Record Net : Type := mkNet {
  conv1 : Conv2d;
  pool : MaxPool2d;
  conv2 : Conv2d;
  fc1 : Linear;
  fc2 : Linear;
  fc3 : Linear
}.

Definition Net_init : prog Net :=
  conv1 <- trigger (NewConv2d 3 6 5) ;;
  pool <- trigger (NewMaxPool2d 2 2) ;;
  conv2 <- trigger (NewConv2d 6 16 5) ;;
  fc1 <- trigger (NewLinear (16 * 5 * 5) 120) ;;
  fc2 <- trigger (NewLinear 120 84) ;;
  fc3 <- trigger (NewLinear 84 10) ;;
  Ret (mkNet conv1 pool conv2 fc1 fc2 fc3).

Definition Net_forward (self : Net) (x : tensor) : prog tensor :=
  x <- trigger (Conv2dCall (conv1 self) x) ;;
  x <- trigger (Relu x) ;;
  x <- trigger (MaxPool2dCall (pool self) x) ;;
  x <- trigger (Conv2dCall (conv2 self) x) ;;
  x <- trigger (Relu x) ;;
  x <- trigger (MaxPool2dCall (pool self) x) ;;
  x <- trigger (View x [-1; 16 * 5 * 5]%Z) ;;
  x <- trigger (LinearCall (fc1 self) x) ;;
  x <- trigger (Relu x) ;;
  x <- trigger (LinearCall (fc2 self) x) ;;
  x <- trigger (Relu x) ;;
  x <- trigger (LinearCall (fc3 self) x) ;;
  Ret x.

(** [net.parameters()]: the parameters of the registered submodules, in
    the order of registration. *)
Definition Net_parameters (self : Net) : list nat :=
  [conv_weight (conv1 self); conv_bias (conv1 self);
   conv_weight (conv2 self); conv_bias (conv2 self);
   lin_weight (fc1 self); lin_bias (fc1 self);
   lin_weight (fc2 self); lin_bias (fc2 self);
   lin_weight (fc3 self); lin_bias (fc3 self)].

Definition net_cell : prog Net :=
  net <- Net_init ;;
  trigger (ModuleTo (Net_parameters net) CUDA) ;;
  Ret net.

(** [criterion] is stateless; [criterion(outputs, labels)] is the call
    [CrossEntropy]. *)
Definition optimizer_cell (net : Net) : prog SGD :=
  trigger (NewSGD (Net_parameters net) 0.001 0.9).


(** The body of the inner loop; it answers the new [running_loss]. *)
Definition training_step (net : Net) (optimizer : SGD) (epoch : nat)
    (idata : nat * batch) (running_loss : Q) : prog Q :=
  let i := fst idata in
  let inputs := fst (snd idata) in
  let labels := snd (snd idata) in
  trigger (ZeroGrad optimizer) ;;
  outputs <- Net_forward net inputs ;;
  loss <- trigger (CrossEntropy outputs labels) ;;
  trigger (Backward loss) ;;
  trigger (OptStep optimizer) ;;
  x <- trigger (Item loss) ;;
  let running_loss := (running_loss + x)%Q in
  if i mod 2000 =? 1999
  then trigger (Print "[%d, %5d] loss: %.3f"
                  [PInt (Z.of_nat (epoch + 1)); PInt (Z.of_nat (i + 1));
                   PFloat (running_loss / 2000)]) ;;
       Ret 0%Q
  else Ret running_loss.

Definition training_epoch (net : Net) (optimizer : SGD) (trainloader : list batch)
    (epoch : nat) (_ : unit) : prog unit :=
  for_each (enumerate_from 0 trainloader) (training_step net optimizer epoch) 0%Q ;;
  Ret tt.

Definition training_cell (net : Net) (optimizer : SGD) (trainloader : list batch)
  : prog unit :=
  for_each (seq 0 2) (training_epoch net optimizer trainloader) tt ;;
  trigger (Print "Finished Training" []).

(** The body of the evaluation loop on [(correct, total)]. *)
Definition eval_step (net : Net) (data : batch) (ct : Q * nat) : prog (Q * nat) :=
  let images := fst data in
  let labels := snd data in
  outputs <- Net_forward net images ;;
  d <- trigger (DataAttr outputs) ;;
  mx <- trigger (Max d 1) ;;
  let predicted := snd mx in
  n <- trigger (Size labels 0) ;;
  let total := snd ct + n in
  e <- trigger (Eq predicted labels) ;;
  s <- trigger (Sum e) ;;
  x <- trigger (Item s) ;;
  Ret ((fst ct + x)%Q, total).

Definition eval_cell (net : Net) (testloader : list batch) : prog unit :=
  ct <- NoGrad (for_each testloader (eval_step net) (0%Q, 0)) (fun ct => Ret ct) ;;
  acc <- true_div (100 * fst ct) (inject_Z (Z.of_nat (snd ct))) ;;
  trigger (Print "Accuracy of the network on the 10000 test images: %d %%" [PFloat acc]).

(** *** What a run of the notebook leaves in the trace *)

(** The calls of one forward pass on [x] that answers [out]. *)
Definition forward_calls (net : Net) (x out : tensor) (tr : list entry) : Prop :=
  exists a1 a2 a3 a4 a5 a6 a7 a8 a9 a10 a11 : tensor,
    tr = [Called (Conv2dCall (conv1 net) x) (Ok a1);
          Called (Relu a1) (Ok a2);
          Called (MaxPool2dCall (pool net) a2) (Ok a3);
          Called (Conv2dCall (conv2 net) a3) (Ok a4);
          Called (Relu a4) (Ok a5);
          Called (MaxPool2dCall (pool net) a5) (Ok a6);
          Called (View a6 [-1; 16 * 5 * 5]%Z) (Ok a7);
          Called (LinearCall (fc1 net) a7) (Ok a8);
          Called (Relu a8) (Ok a9);
          Called (LinearCall (fc2 net) a9) (Ok a10);
          Called (Relu a10) (Ok a11);
          Called (LinearCall (fc3 net) a11) (Ok out)].

(** The framework calls of one batch: gradients zeroed, forward pass,
    loss, backward pass, optimizer step, and the reading of the loss for
    the report. *)
Definition step_calls (net : Net) (opt : SGD) (b : batch) (tr : list entry) : Prop :=
  exists (outputs loss : tensor) (x : Q) (ftr : list entry),
    forward_calls net (fst b) outputs ftr /\
    tr = Called (ZeroGrad opt) (Ok tt) :: ftr ++
         [Called (CrossEntropy outputs (snd b)) (Ok loss);
          Called (Backward loss) (Ok tt);
          Called (OptStep opt) (Ok tt);
          Called (Item loss) (Ok x)].

(** The framework calls of one batch with the five training calls only. *)
Definition five_step_calls (net : Net) (opt : SGD) (b : batch) (tr : list entry) : Prop :=
  exists (outputs loss : tensor) (ftr : list entry),
    forward_calls net (fst b) outputs ftr /\
    tr = Called (ZeroGrad opt) (Ok tt) :: ftr ++
         [Called (CrossEntropy outputs (snd b)) (Ok loss);
          Called (Backward loss) (Ok tt);
          Called (OptStep opt) (Ok tt)].

(** One pass over the loader: the calls of every batch, in the loader's
    order. *)
Definition epoch_calls (step : batch -> list entry -> Prop) (loader : list batch)
    (tr : list entry) : Prop :=
  exists chunks : list (list entry), Forall2 step loader chunks /\ tr = concat chunks.

(** Two passes, one after the other. *)
Definition training_calls (step : batch -> list entry -> Prop) (loader : list batch)
    (tr : list entry) : Prop :=
  exists e1 e2 : list entry,
    epoch_calls step loader e1 /\ epoch_calls step loader e2 /\ tr = e1 ++ e2.

(** *** The network in the framework's state *)

(** The sizes [Net.__init__] gives its layers. *)
Definition layer_sizes (net : Net) : list nat :=
  [conv_in (conv1 net); conv_out (conv1 net); conv_k (conv1 net);
   pool_k (pool net); pool_stride (pool net);
   conv_in (conv2 net); conv_out (conv2 net); conv_k (conv2 net);
   lin_in (fc1 net); lin_out (fc1 net);
   lin_in (fc2 net); lin_out (fc2 net);
   lin_in (fc3 net); lin_out (fc3 net)].

Definition Net_layout (net : Net) : Prop :=
  layer_sizes net = [3; 6; 5; 2; 2; 6; 16; 5; 16 * 5 * 5; 120; 120; 84; 84; 10].

(** Every parameter of the network is in the store, on device [d]. *)
Definition resident (w : world) (net : Net) (d : device) : Prop :=
  Forall (fun hd => exists t, param w hd = Some t /\ t_device t = d) (Net_parameters net).

(** A float tensor of shape [sh] on device [d]. *)
Definition float_on (d : device) (sh : list nat) (t : tensor) : Prop :=
  t_device t = d /\ t_dtype t = Float32 /\ t_shape t = sh.

(** The layers of the forward pass that own parameters, in call order. *)
Inductive layer : Type :=
| ConvLayer (l : Conv2d)
| LinearLayer (l : Linear).

Definition parameterized_layers (tr : list entry) : list layer :=
  flat_map (fun en => match entry_call en with
                      | Some (Conv2dCall l _) => [ConvLayer l]
                      | Some (LinearCall l _) => [LinearLayer l]
                      | _ => []
                      end) tr.

End TrainingNotebook.

(** ** The Dataset and DataLoader notebook *)

Module DatasetNotebook.

Definition transform : transform_t :=
  Compose [ToTensor; Normalize [0.5; 0.5; 0.5]%Q [0.5; 0.5; 0.5]%Q].



Definition classes : list string :=
  ["plane"; "car"; "bird"; "cat"; "deer"; "dog"; "frog"; "horse"; "ship"; "truck"]%string.

Definition imshow (img : tensor) : prog unit :=
  img <- trigger (DivScalar img 2) ;;
  img <- trigger (AddScalar img 0.5) ;;
  npimg <- trigger (Numpy img) ;;
  a <- trigger (NpTranspose npimg [1; 2; 0]) ;;
  trigger (PltImshow a).

Definition label_name (labels : tensor) (j : nat) : prog string :=
  lj <- trigger (GetItem labels j) ;;
  i <- trigger (TensorIndex lj) ;;
  name <- tuple_getitem classes i ;;
  Ret (percent_5s name).

(** Here [trainloader] is still the DataLoader: [next(iter(trainloader))]
    asks it for its first batch. *)
Definition show_cell (trainloader : dataloader) : prog unit :=
  b <- trigger (LoaderFirst trainloader) ;;
  let images := fst b in
  let labels := snd b in
  grid <- trigger (MakeGrid images) ;;
  imshow grid ;;
  names <- generator (seq 0 4) (label_name labels) ;;
  trigger (Print "%s" [PStr (String.concat " " names)]).

End DatasetNotebook.

(** ** Properties of runs *)







(** Programs without a handler, all of whose calls satisfy [P], whatever
    the answers. *)
Inductive only_calls (P : call -> Prop) : forall A : Type, prog A -> Prop :=
| only_ret A (a : A) : only_calls P A (Ret a)
| only_throw A (e : exn) : only_calls P A (Throw e)
| only_vis A (c : call) (k : resp c -> prog A) :
    P c -> (forall r, only_calls P A (k r)) -> only_calls P A (Vis c k)
| only_no_grad A B (body : prog B) (k : B -> prog A) :
    only_calls P B body -> (forall b, only_calls P A (k b)) ->
    only_calls P A (NoGrad body k).
Arguments only_calls P {A} p.

Definition entry_satisfies (P : call -> Prop) (en : entry) : Prop :=
  match en with
  | Called c _ => P c
  | _ => True
  end.

(** The calls of the forward pass and of the counting in the evaluation
    loop. *)
Definition is_forward_call (c : call) : bool :=
  match c with
  | Conv2dCall _ _ | MaxPool2dCall _ _ | LinearCall _ _ | Relu _ | View _ _ => true
  | _ => false
  end.

Definition is_counting_call (c : call) : bool :=
  match c with
  | DataAttr _ | Max _ _ | Size _ _ | Eq _ _ | Sum _ | Item _ => true
  | _ => false
  end.

(** The calls the evaluation cell is made of: they read, compare and
    count, and [print]. *)
Definition reads_only (c : call) : Prop :=
  is_forward_call c || is_counting_call c || negb (is_framework_call c) = true.

Definition updates_parameters (c : call) : bool :=
  match c with
  | Backward _ | OptStep _ | ZeroGrad _ | ModuleTo _ _
  | NewConv2d _ _ _ | NewLinear _ _ => true
  | _ => false
  end.

(** The image of a tensor, and of a batch, under [.to(device)] for the
    accelerator. *)
Definition to_cuda (t : tensor) : tensor :=
  mkTensor CUDA (t_dtype t) (t_shape t) (t_data t) (t_requires_grad t).

Definition batch_to_cuda (b : batch) : batch := (to_cuda (fst b), to_cuda (snd b)).

Definition on_cuda (b : batch) : Prop :=
  t_device (fst b) = CUDA /\ t_device (snd b) = CUDA.

(** *** What the evaluation counts *)

(** The logits of sample [i] in outputs of shape [n; m]. *)
Definition logits_row (m : nat) (out : tensor) (i : nat) : list Q :=
  map (fun k => qnth (t_data out) (i * m + k)) (seq 0 m).

(** Sample [i] of a batch is a hit when the argmax of its ten logits is
    its label. *)
Definition sample_hit (out : tensor) (labels : list nat) (i : nat) : bool :=
  argmax (logits_row 10 out i) =? nth i labels 0.

Definition batch_hits (out : tensor) (labels : list nat) : nat :=
  length (filter (sample_hit out labels) (seq 0 (length labels))).

(** The class indices a label tensor holds. *)
Definition labels_of (t : tensor) : list nat :=
  map (fun q => Z.to_nat (Qfloor q)) (t_data t).

Definition class_index (l : nat) : Q := inject_Z (Z.of_nat l).

(** A batch as the loaders serve it, on device [d]: [n] float pictures of
    3 x 32 x 32 and their [n] class indices. *)
Definition labelled_batch (d : device) (b : batch) : Prop :=
  exists (n : nat) (ls : list nat),
    TrainingNotebook.float_on d [n; 3; 32; 32] (fst b) /\
    t_device (snd b) = d /\ t_shape (snd b) = [n] /\
    t_data (snd b) = map class_index ls /\ length ls = n.

Definition labelled_batchb (d : device) (b : batch) : bool :=
  device_eqb (t_device (fst b)) d && dtype_eqb (t_dtype (fst b)) Float32
  && shape_eqb (t_shape (fst b)) [length (t_data (snd b)); 3; 32; 32]
  && device_eqb (t_device (snd b)) d
  && shape_eqb (t_shape (snd b)) [length (t_data (snd b))]
  && forallb (fun q => (Qnum q =? Z.of_nat (Z.to_nat (Qfloor q)))%Z
                       && (Qden q =? 1)%positive)
             (t_data (snd b)).

Definition total_labels (loader : list batch) : nat :=
  list_sum (map (fun b => length (t_data (snd b))) loader).

Section EvaluationSpec.
Context {K : Kernels}.

(** The outputs of the network on a batch of pictures, under [no_grad]. *)
Definition net_logits (w : world) (net : TrainingNotebook.Net) (images : tensor)
  : result tensor :=
  outcome (run torch (TrainingNotebook.Net_forward net images) (set_grad_mode false w)).

(** The samples of the loader that the network classifies right. *)
Definition total_hits (w : world) (net : TrainingNotebook.Net) (loader : list batch) : nat :=
  list_sum (map (fun b => match net_logits w net (fst b) with
                          | Ok out => batch_hits out (labels_of (snd b))
                          | Err _ => 0
                          end) loader).

End EvaluationSpec.

(** ** A small instance of the framework *)

Definition zeros (n : nat) : list Q := repeat 0%Q n.

Definition shape_or_empty (r : result (list nat)) : list nat :=
  match r with
  | Ok sh => sh
  | Err _ => []
  end.

(** Kernels that answer data of the right size: zeros everywhere, except
    that a linear layer scores class [r mod fout] highest on row [r]. *)
Definition toy_kernels : Kernels := {|
  init_kernel := fun _ shape => zeros (numel shape);
  conv2d_kernel := fun wt _ x =>
    match t_shape wt with
    | [cout; cin; k; _] =>
        zeros (numel (shape_or_empty (conv2d_shape cin cout k (t_shape x))))
    | _ => []
    end;
  max_pool2d_kernel := fun k stride x =>
    zeros (numel (shape_or_empty (max_pool2d_shape k stride (t_shape x))));
  linear_kernel := fun wt _ x =>
    match t_shape wt with
    | [fout; fin] =>
        flat_map (fun r => map (fun j => if j =? r mod fout then 1%Q else 0%Q) (seq 0 fout))
                 (seq 0 (numel (t_shape x) / fin))
    | _ => []
    end;
  cross_entropy_kernel := fun _ _ => 0%Q;
  autograd_kernel := fun values _ h =>
    match nth_error values h with
    | Some t => zeros (numel (t_shape t))
    | None => []
    end;
  make_grid_kernel := fun t =>
    zeros (numel (shape_or_empty (make_grid_shape (t_shape t))));
  shuffle_kernel := fun _ n => rev (seq 0 n)
|}.

Definition toy_torch : handler world := @torch toy_kernels.

Definition ex_image (v : Z) : pil_image := mkImage 32 32 (repeat v (32 * 32 * 3)).

(** Five training pictures and four test pictures. *)
Definition ex_files (train : bool) : option (list (pil_image * nat)) :=
  if train
  then Some [(ex_image 0, 0); (ex_image 51, 5); (ex_image 102, 2); (ex_image 255, 3);
             (ex_image 7, 9)]
  else Some [(ex_image 10, 0); (ex_image 20, 5); (ex_image 30, 2); (ex_image 40, 3)].

(** A machine with an accelerator and the CIFAR-10 files on disk. *)
Definition ex_world : world := mkWorld true NoDriver true [] 0 ex_files [] [].

(** The loaders after the device-transfer cell. *)
Definition ex_transfer : prog (list batch * list batch) :=
  d <- TrainingNotebook.data_cell ;;
  dev <- TrainingNotebook.device_cell ;;
  TrainingNotebook.transfer_cell dev (snd (fst (fst d))) (snd d).

Definition ex_loaders : list batch * list batch :=
  match outcome (run toy_torch ex_transfer ex_world) with
  | Ok ls => ls
  | Err _ => ([], [])
  end.

(** The network and the optimizer that the cells build in [ex_world]. *)
Definition ex_net : TrainingNotebook.Net :=
  TrainingNotebook.mkNet (mkConv2d 3 6 5 0 1) (mkMaxPool2d 2 2) (mkConv2d 6 16 5 2 3)
    (mkLinear 400 120 4 5) (mkLinear 120 84 6 7) (mkLinear 84 10 8 9).

Definition ex_opt : SGD := mkSGD [0; 1; 2; 3; 4; 5; 6; 7; 8; 9] 0.001 0.9.

Definition ex_setup : prog SGD :=
  net <- TrainingNotebook.net_cell ;;
  TrainingNotebook.optimizer_cell net.

Definition ex_ready : world := final (run toy_torch ex_setup ex_world).

Definition residentb (w : world) (net : TrainingNotebook.Net) (d : device) : bool :=
  forallb (fun hd => match param w hd with
                     | Some t => device_eqb (t_device t) d
                     | None => false
                     end)
          (TrainingNotebook.Net_parameters net).

(** Two float pictures of 32 x 32 and two of 33 x 33 on the accelerator. *)
Definition ex_images : tensor :=
  mkTensor CUDA Float32 [2; 3; 32; 32] (zeros (2 * 3 * 32 * 32)) false.

Definition ex_wide_images : tensor :=
  mkTensor CUDA Float32 [2; 3; 33; 33] (zeros (2 * 3 * 33 * 33)) false.

(** A small float picture and what the pipeline's [Normalize] makes of it. *)
Definition ex_pixels : tensor :=
  mkTensor CPU Float32 [3; 1; 2] [0; 0.5; 1; 0.25; 0.75; 0.2]%Q false.

Definition ex_normalized : tensor :=
  with_data ex_pixels [3; 1; 2] (map (normalize_value 0.5 0.5) (t_data ex_pixels)).

(** What the data cell answers in [ex_world]. *)
Definition ex_trainset : dataset :=
  mkDataset [(ex_image 0, 0); (ex_image 51, 5); (ex_image 102, 2); (ex_image 255, 3);
             (ex_image 7, 9)] TrainingNotebook.transform.

Definition ex_testset : dataset :=
  mkDataset [(ex_image 10, 0); (ex_image 20, 5); (ex_image 30, 2); (ex_image 40, 3)]
    TrainingNotebook.transform.

Definition ex_trainloader : dataloader := mkDataLoader ex_trainset 4 true 2.

Definition ex_testloader : dataloader := mkDataLoader ex_testset 4 false 2.

(** A loader of four pictures of 1 x 1 on a machine without accelerator. *)
Definition ex_small_loader : dataloader :=
  mkDataLoader
    (mkDataset [(mkImage 1 1 [255; 0; 0]%Z, 1); (mkImage 1 1 [0; 255; 0]%Z, 4);
                (mkImage 1 1 [0; 0; 255]%Z, 3); (mkImage 1 1 [9; 9; 9]%Z, 2)]
       DatasetNotebook.transform)
    4 true 2.

Definition ex_small_world : world :=
  mkWorld false NotCompiled true [] 0 (fun _ => None) [] [].

(** ** What the cells print, store and show *)

(** *** What the training loop reports *)

(** The lines a run printed, in order. *)
Definition printed (tr : list entry) : list (string * list pyval) :=
  flat_map (fun en => match entry_call en with
                      | Some (Print fmt args) => [(fmt, args)]
                      | _ => []
                      end) tr.

(** The values the [item()] calls of a run answered, in order. *)
Definition losses_read (tr : list entry) : list Q :=
  flat_map (fun en =>
              match en with
              | Called c r =>
                  match c return result (resp c) -> list Q with
                  | Item _ => fun r => match r with
                                       | Ok x => [x]
                                       | Err _ => []
                                       end
                  | _ => fun _ => []
                  end r
              | _ => []
              end) tr.

(** The report after batch [i] (counted from 0) of an epoch. *)
Definition loss_line (epoch i : nat) (running_loss : Q) : string * list pyval :=
  ("[%d, %5d] loss: %.3f"%string,
   [PInt (Z.of_nat (epoch + 1)); PInt (Z.of_nat (i + 1)); PFloat (running_loss / 2000)]).

(** The reports of an epoch whose batches had the losses [items]: one line
    for each full window of [period] batches, with the sum of the window's
    losses, added from the left to 0. *)
Definition window (period k : nat) (items : list Q) : list Q :=
  firstn period (skipn (period * k) items).

Definition epoch_report (period epoch : nat) (items : list Q) : list (string * list pyval) :=
  map (fun k => loss_line epoch (period * k + (period - 1))
                  (fold_left Qplus (window period k items) 0%Q))
      (seq 0 (length items / period)).

(** The reports as the loop makes them, batch by batch: [i] is the index
    of the next batch and [running] the loss summed so far. *)
Fixpoint reports_from (period epoch i : nat) (running : Q) (items : list Q)
  : list (string * list pyval) :=
  match items with
  | [] => []
  | x :: rest =>
      if i mod period =? period - 1
      then loss_line epoch i (running + x) :: reports_from period epoch (S i) 0%Q rest
      else reports_from period epoch (S i) (running + x)%Q rest
  end.

(** *** A framework that answers every call at once *)

Definition blank : tensor := mkTensor CPU Float32 [] [] false.

(** Every call completes; [item()] answers 1. *)
Definition stub_answer (c : call) : resp c :=
  match c return resp c with
  | CIFAR10 _ _ _ tr => mkDataset [] tr
  | DataLoader ds bs shuffle workers => mkDataLoader ds bs shuffle workers
  | IterLoader _ => []
  | LoaderFirst _ => (blank, blank)
  | TorchDevice _ => CUDA
  | CudaIsAvailable => true
  | To t _ => t
  | ModuleTo _ _ => tt
  | DivScalar t _ | AddScalar t _ => t
  | Numpy t => mkArray (t_shape t) (t_data t)
  | GetItem t _ => t
  | TensorIndex _ => 0%Z
  | DataAttr t => t
  | Max t _ => (t, t)
  | Size _ _ => 0
  | Eq a _ => a
  | Sum t => t
  | Item _ => 1%Q
  | View t _ => t
  | Relu t => t
  | NpTranspose a _ => a
  | PltImshow _ => tt
  | MakeGrid t => t
  | NewConv2d cin cout k => mkConv2d cin cout k 0 0
  | NewMaxPool2d k stride => mkMaxPool2d k stride
  | NewLinear fin fout => mkLinear fin fout 0 0
  | Conv2dCall _ x | MaxPool2dCall _ x | LinearCall _ x => x
  | CrossEntropy outputs _ => outputs
  | Backward _ => tt
  | NewSGD params lr momentum => mkSGD params lr momentum
  | ZeroGrad _ | OptStep _ => tt
  | Print _ _ => tt
  end.

Definition stub : handler unit :=
  mkHandler unit (fun c s => (Ok (stub_answer c), s)) (fun _ => true) (fun _ s => s).


(** A loader of 2000 batches. *)
Definition ex_long_loader : list batch := repeat (blank, blank) 2000.

(** *** The parameters in the store *)

(** Where a parameter lives, its type and its shape. *)
Definition slot_layout (s : slot) : device * dtype * list nat :=
  (t_device (p_value s), t_dtype (p_value s), t_shape (p_value s)).

Definition store_layout (w : world) : list (device * dtype * list nat) :=
  map slot_layout (w_store w).

(** The calls the training cell is made of. *)
Definition is_training_call (c : call) : bool :=
  match c with
  | ZeroGrad _ | CrossEntropy _ _ | Backward _ | OptStep _ | Item _ | Print _ _ => true
  | _ => is_forward_call c
  end.

(** In a trace: every tensor a layer, a pooling, an activation or the loss
    answered is outside autograd. *)
Definition answers_without_grad (en : entry) : Prop :=
  match en with
  | Called c r =>
      match c return result (resp c) -> Prop with
      | Conv2dCall _ _ | MaxPool2dCall _ _ | LinearCall _ _ | Relu _
      | CrossEntropy _ _ =>
          fun r => match r with
                   | Ok y => t_requires_grad y = false
                   | Err _ => True
                   end
      | _ => fun _ => True
      end r
  | _ => True
  end.

(** The layouts of the ten parameters of the network on device [d], in
    the order of [net.parameters()]. *)
Definition net_layouts (d : device) : list (device * dtype * list nat) :=
  map (fun sh => (d, Float32, sh))
      [[6; 3; 5; 5]; [6]; [16; 6; 5; 5]; [16]; [120; 400]; [120]; [84; 120]; [84];
       [10; 84]; [10]].

(** *** Batches for the cell that shows pictures *)

(** The first batch a loader serves, when it serves one. *)
Definition first_batch {K : Kernels} (dl : dataloader) (w : world) : batch :=
  match fst (handle torch (LoaderFirst dl) w) with
  | Ok b => b
  | Err _ => (blank, blank)
  end.

(** Two float pictures of 32 x 32 on the host. *)
Definition ex_host_images : tensor :=
  mkTensor CPU Float32 [2; 3; 32; 32] (zeros (2 * 3 * 32 * 32)) false.

(** A loader over two pictures of 1 x 1: its only batch has two samples. *)
Definition ex_pair_loader : dataloader :=
  mkDataLoader
    (mkDataset [(mkImage 1 1 [255; 0; 0]%Z, 1); (mkImage 1 1 [0; 255; 0]%Z, 4)]
       DatasetNotebook.transform)
    4 true 2.

(** *** Networks that can be trained *)

(** Every parameter of the network is in the store, on device [d], and
    autograd follows it. *)
Definition trainable (w : world) (net : TrainingNotebook.Net) (d : device) : Prop :=
  Forall (fun hd => exists t, param w hd = Some t /\ t_device t = d /\
                              t_requires_grad t = true)
         (TrainingNotebook.Net_parameters net).

Definition trainableb (w : world) (net : TrainingNotebook.Net) (d : device) : bool :=
  forallb (fun hd => match param w hd with
                     | Some t => device_eqb (t_device t) d && t_requires_grad t
                     | None => false
                     end)
          (TrainingNotebook.Net_parameters net).

(** Where a parameter lives and whether autograd follows it. *)
Definition slot_tracking (s : slot) : device * bool :=
  (t_device (p_value s), t_requires_grad (p_value s)).

(** The labels of a batch are integers that name one of the ten classes. *)
Definition class_labels (b : batch) : bool :=
  dtype_eqb (t_dtype (snd b)) Int64
  && forallb (fun l => l <? 10) (labels_of (snd b)).

(** * Programs and their runs *)

Lemma run_bind {S A B : Type} (h : handler S) (m : prog A) (f : A -> prog B) (s : S) :
  run h (bind m f) s =
  match run h m s with
  | (Ok a, s1, t1) => let '(r, s2, t2) := run h (f a) s1 in (r, s2, t1 ++ t2)
  | (Err e, s1, t1) => (Err e, s1, t1)
  end.
Proof.
  revert B f s.
  induction m as [A a | A e | A c k IH | A B0 body IHbody k IH
                  | A B0 body IHbody on_error IHerr k IH]; intros B f s; simpl.
  - destruct (run h (f a) s) as [[r s2] t2]; reflexivity.
  - reflexivity.
  - destruct (handle h c s) as [[v | e] s1]; [| reflexivity].
    rewrite IH.
    destruct (run h (k v) s1) as [[[a | e] s2] t1]; [| reflexivity].
    destruct (run h (f a) s2) as [[r s3] t2]; reflexivity.
  - destruct (run h body (set_grad_enabled h false s)) as [[[b | e] s1] t1]; [| reflexivity].
    rewrite IH.
    destruct (run h (k b) (set_grad_enabled h (grad_enabled h s) s1)) as [[[a | e] s2] t2].
    + destruct (run h (f a) s2) as [[r s3] t3].
      simpl. rewrite <- app_assoc. reflexivity.
    + reflexivity.
  - destruct (run h body s) as [[[b | e] s1] t1].
    + rewrite IH.
      destruct (run h (k b) s1) as [[[a | e] s2] t2]; [| reflexivity].
      destruct (run h (f a) s2) as [[r s3] t3].
      rewrite <- app_assoc. reflexivity.
    + destruct (run h (on_error e) s1) as [[[b | e'] s2] t2]; [| reflexivity].
      rewrite IH.
      destruct (run h (k b) s2) as [[[a | e'] s3] t3]; [| reflexivity].
      destruct (run h (f a) s3) as [[r s4] t4].
      rewrite <- !app_assoc. reflexivity.
Qed.

Lemma run_trigger {S : Type} (h : handler S) (c : call) (s : S) :
  run h (trigger c) s =
  match handle h c s with
  | (Ok v, s1) => (Ok v, s1, [Called c (Ok v)])
  | (Err e, s1) => (Err e, s1, [Called c (Err e)])
  end.
Proof.
  unfold trigger; simpl.
  destruct (handle h c s) as [[v | e] s1]; reflexivity.
Qed.

Lemma run_generator {S X Y : Type} (h : handler S) (l : list X) (f : X -> prog Y) (s : S) :
  run h (generator l f) s =
  match run h (comprehension l f) s with
  | (Ok ys, s1, t1) => (Ok ys, s1, t1)
  | (Err e, s1, t1) => (Err (pep479 e), s1, t1)
  end.
Proof.
  unfold generator. cbn [run].
  destruct (run h (comprehension l f) s) as [[[ys | e] s1] t1]; cbn [run];
    rewrite app_nil_r; reflexivity.
Qed.








(** ** Programs built from given calls *)

Lemma only_calls_bind (P : call -> Prop) {A B : Type} (m : prog A) (f : A -> prog B) :
  only_calls P m -> (forall a, only_calls P (f a)) -> only_calls P (bind m f).
Proof.
  intros Hm Hf. induction Hm; simpl; try constructor; auto.
Qed.

Lemma only_calls_trigger (P : call -> Prop) (c : call) :
  P c -> only_calls P (trigger c).
Proof. intros H. unfold trigger. constructor; [assumption | constructor]. Qed.

Lemma only_calls_for_each (P : call -> Prop) {X S : Type} (l : list X)
    (body : X -> S -> prog S) (s : S) :
  (forall x s', only_calls P (body x s')) -> only_calls P (for_each l body s).
Proof.
  intros Hb. revert s. induction l as [| x l IH]; intros s; simpl.
  - constructor.
  - apply only_calls_bind; auto.
Qed.

Lemma only_calls_weaken (P Q : call -> Prop) {A : Type} (p : prog A) :
  (forall c, P c -> Q c) -> only_calls P p -> only_calls Q p.
Proof. intros HPQ Hp. induction Hp; constructor; auto. Qed.

Lemma only_calls_trace (P : call -> Prop) {S A : Type} (h : handler S) (p : prog A) :
  only_calls P p -> forall s, Forall (entry_satisfies P) (trace (run h p s)).
Proof.
  intros Hp. unfold trace.
  induction Hp as [A a | A e | A c k Hc Hk IH | A B body k Hbody IHbody Hk IH];
    intros s; simpl.
  - constructor.
  - constructor.
  - destruct (handle h c s) as [[v | e] s1].
    + specialize (IH v s1). destruct (run h (k v) s1) as [[r s2] tr]; simpl in *.
      constructor; assumption.
    + repeat constructor. assumption.
  - specialize (IHbody (set_grad_enabled h false s)).
    destruct (run h body (set_grad_enabled h false s)) as [[[b | e] s1] t1]; simpl in *.
    + specialize (IH b (set_grad_enabled h (grad_enabled h s) s1)).
      destruct (run h (k b) (set_grad_enabled h (grad_enabled h s) s1)) as [[r s3] t2];
        simpl in *.
      constructor; [exact I |]. apply Forall_app; split; [assumption |].
      constructor; [exact I | assumption].
    + constructor; [exact I |]. apply Forall_app; split; [assumption |].
      repeat constructor.
Qed.

(** ** The training loop *)

Section TrainingLoop.
Import TrainingNotebook.
Context {S : Type} (h : handler S).

Lemma framework_calls_app (t1 t2 : list entry) :
  framework_calls (t1 ++ t2) = framework_calls t1 ++ framework_calls t2.
Proof. apply filter_app. Qed.

Lemma run_forward_calls (net : Net) (x : tensor) (s : S) :
  match run h (Net_forward net x) s with
  | (Ok out, _, tr) => forward_calls net x out tr
  | (Err _, _, _) => True
  end.
Proof.
  unfold Net_forward.
  repeat (rewrite run_bind, run_trigger;
          match goal with
          | |- context [handle h ?c ?s0] =>
              destruct (handle h c s0) as [[? | ?] ?]; [| exact I]
          end).
  simpl. unfold forward_calls. do 11 eexists. reflexivity.
Qed.

Lemma forward_calls_framework (net : Net) (x out : tensor) (tr : list entry) :
  forward_calls net x out tr -> framework_calls tr = tr.
Proof.
  intros (a1 & a2 & a3 & a4 & a5 & a6 & a7 & a8 & a9 & a10 & a11 & ->). reflexivity.
Qed.

Lemma framework_calls_around (en : entry) (ftr post : list entry) :
  framework_calls ftr = ftr ->
  framework_calls (en :: ftr ++ post) =
  framework_calls [en] ++ ftr ++ framework_calls post.
Proof.
  intros H. change (en :: ftr ++ post) with ([en] ++ ftr ++ post).
  rewrite !framework_calls_app, H. reflexivity.
Qed.

Lemma run_training_step (net : Net) (opt : SGD) (epoch i : nat) (b : batch)
    (running_loss : Q) (s : S) :
  match run h (training_step net opt epoch (i, b) running_loss) s with
  | (Ok _, _, tr) => step_calls net opt b (framework_calls tr)
  | (Err _, _, _) => True
  end.
Proof.
  unfold training_step. cbn [fst snd].
  rewrite run_bind, run_trigger.
  destruct (handle h (ZeroGrad opt) s) as [[[] | ?] s1]; [| exact I].
  rewrite run_bind.
  pose proof (run_forward_calls net (fst b) s1) as Hf.
  destruct (run h (Net_forward net (fst b)) s1) as [[[outputs | ?] s2] ftr]; [| exact I].
  rewrite run_bind, run_trigger.
  destruct (handle h (CrossEntropy outputs (snd b)) s2) as [[loss | ?] s3]; [| exact I].
  rewrite run_bind, run_trigger.
  destruct (handle h (Backward loss) s3) as [[[] | ?] s4]; [| exact I].
  rewrite run_bind, run_trigger.
  destruct (handle h (OptStep opt) s4) as [[[] | ?] s5]; [| exact I].
  rewrite run_bind, run_trigger.
  destruct (handle h (Item loss) s5) as [[x | ?] s6]; [| exact I].
  pose proof (forward_calls_framework _ _ _ _ Hf) as Hftr.
  destruct (i mod 2000 =? 1999).
  - rewrite run_bind, run_trigger.
    match goal with
    | |- context [handle h ?c ?s0] => destruct (handle h c s0) as [[[] | ?] s7]; [| exact I]
    end.
    cbn [run app].
    exists outputs, loss, x, ftr. split; [assumption |].
    rewrite (framework_calls_around _ _ _ Hftr). reflexivity.
  - cbn [run app].
    exists outputs, loss, x, ftr. split; [assumption |].
    rewrite (framework_calls_around _ _ _ Hftr). reflexivity.
Qed.

Lemma run_training_batches (net : Net) (opt : SGD) (epoch : nat) (loader : list batch) :
  forall (start : nat) (running_loss : Q) (s : S),
    match run h (for_each (enumerate_from start loader)
                   (training_step net opt epoch) running_loss) s with
    | (Ok _, _, tr) => epoch_calls (step_calls net opt) loader (framework_calls tr)
    | (Err _, _, _) => True
    end.
Proof.
  induction loader as [| b loader IH]; intros start running_loss s.
  - simpl. exists []. split; [constructor | reflexivity].
  - cbn [enumerate_from for_each]. rewrite run_bind.
    pose proof (run_training_step net opt epoch start b running_loss s) as Hb.
    destruct (run h (training_step net opt epoch (start, b) running_loss) s)
      as [[[rl | ?] s1] t1]; [| exact I].
    specialize (IH (Datatypes.S start) rl s1).
    destruct (run h (for_each (enumerate_from (Datatypes.S start) loader)
                       (training_step net opt epoch) rl) s1)
      as [[[rl' | ?] s2] t2]; [| exact I].
    destruct IH as (chunks & Hchunks & Ht2).
    exists (framework_calls t1 :: chunks). split.
    + constructor; assumption.
    + rewrite framework_calls_app, Ht2. reflexivity.
Qed.

Lemma run_training_epoch (net : Net) (opt : SGD) (loader : list batch) (epoch : nat) (s : S) :
  match run h (training_epoch net opt loader epoch tt) s with
  | (Ok _, _, tr) => epoch_calls (step_calls net opt) loader (framework_calls tr)
  | (Err _, _, _) => True
  end.
Proof.
  unfold training_epoch. rewrite run_bind.
  pose proof (run_training_batches net opt epoch loader 0 0%Q s) as H.
  destruct (run h (for_each (enumerate_from 0 loader) (training_step net opt epoch) 0%Q) s)
    as [[[rl | ?] s1] t1]; [| exact I].
  cbn [run]. rewrite app_nil_r. assumption.
Qed.

Lemma run_training_cell (net : Net) (opt : SGD) (loader : list batch) (s : S) :
  match run h (training_cell net opt loader) s with
  | (Ok _, _, tr) => training_calls (step_calls net opt) loader (framework_calls tr)
  | (Err _, _, _) => True
  end.
Proof.
  unfold training_cell. cbn [seq for_each]. rewrite !run_bind.
  pose proof (run_training_epoch net opt loader 0 s) as H0.
  destruct (run h (training_epoch net opt loader 0 tt) s) as [[[[] | ?] s1] t1]; [| exact I].
  rewrite run_bind.
  pose proof (run_training_epoch net opt loader 1 s1) as H1.
  destruct (run h (training_epoch net opt loader 1 tt) s1) as [[[[] | ?] s2] t2]; [| exact I].
  cbn [run trigger].
  destruct (handle h (Print "Finished Training" []) s2) as [[[] | ?] s3]; [| exact I].
  exists (framework_calls t1), (framework_calls t2).
  repeat split; try assumption.
  rewrite !framework_calls_app. cbn. rewrite !app_nil_r. reflexivity.
Qed.

End TrainingLoop.

Example ex_setup_builds :
  TrainingNotebook.Net_parameters ex_net = sgd_params ex_opt /\
  outcome (run toy_torch TrainingNotebook.net_cell ex_world) = Ok ex_net /\
  outcome (run toy_torch ex_setup ex_world) = Ok ex_opt.
Proof. vm_compute. repeat split. Qed.

Section TrainingClaims.
Import TrainingNotebook.

(** C1, as amended: a training run that completes makes two passes over
    the loader, each over every batch in the loader's order, and for every
    batch the framework calls are, in this order: zero the gradients, the
    forward pass on the batch inputs, the cross-entropy loss of the outputs
    against the batch labels, backward on the loss, one optimizer step, and
    one reading of the loss value ([loss.item()]) for the running report. *)
Theorem training_loop_calls :
  forall (S : Type) (h : handler S) (s : S) (net : Net) (opt : SGD) (loader : list batch),
    outcome (run h (training_cell net opt loader) s) = Ok tt ->
    training_calls (step_calls net opt) loader
      (framework_calls (trace (run h (training_cell net opt loader) s))).
Proof.
  intros S h s net opt loader Hok.
  pose proof (run_training_cell h net opt loader s) as H.
  unfold outcome, trace in *.
  destruct (run h (training_cell net opt loader) s) as [[[[] | e] s'] tr]; simpl in *.
  - assumption.
  - discriminate.
Qed.

Lemma training_loop_calls_witness :
  outcome (run toy_torch (training_cell ex_net ex_opt (fst ex_loaders)) ex_ready) = Ok tt /\
  training_calls (step_calls ex_net ex_opt) (fst ex_loaders)
    (framework_calls
       (trace (run toy_torch (training_cell ex_net ex_opt (fst ex_loaders)) ex_ready))).
Proof.
  split.
  - vm_compute. reflexivity.
  - apply (training_loop_calls world toy_torch ex_ready ex_net ex_opt (fst ex_loaders)).
    vm_compute. reflexivity.
Defined.

Lemma forward_calls_length (net : Net) (x out : tensor) (tr : list entry) :
  forward_calls net x out tr -> length tr = 12.
Proof.
  intros (a1 & a2 & a3 & a4 & a5 & a6 & a7 & a8 & a9 & a10 & a11 & ->). reflexivity.
Qed.

Lemma five_step_calls_length (net : Net) (opt : SGD) (loader : list batch)
    (chunks : list (list entry)) :
  Forall2 (five_step_calls net opt) loader chunks ->
  length (concat chunks) = 16 * length loader.
Proof.
  induction 1 as [| b chunk loader chunks Hb _ IH]; [reflexivity |].
  destruct Hb as (outputs & loss & ftr & Hf & ->).
  cbn [concat]. rewrite length_app, IH. cbn [length].
  rewrite length_app, (forward_calls_length _ _ _ _ Hf). cbn [length]. lia.
Qed.

Lemma five_training_calls_length (net : Net) (opt : SGD) (loader : list batch)
    (tr : list entry) :
  training_calls (five_step_calls net opt) loader tr -> length tr = 32 * length loader.
Proof.
  intros (e1 & e2 & (c1 & H1 & ->) & (c2 & H2 & ->) & ->).
  rewrite length_app, !(five_step_calls_length net opt loader) by assumption. lia.
Qed.

(** C1 as stated fails: on a completed run over a loader of two batches
    the framework calls are not two passes of the five training calls,
    because every batch also reads [loss.item()]. *)
Lemma training_loop_five_calls_counterexample :
  outcome (run toy_torch (training_cell ex_net ex_opt (fst ex_loaders)) ex_ready) = Ok tt /\
  ~ training_calls (five_step_calls ex_net ex_opt) (fst ex_loaders)
      (framework_calls
         (trace (run toy_torch (training_cell ex_net ex_opt (fst ex_loaders)) ex_ready))).
Proof.
  split.
  - vm_compute. reflexivity.
  - intros H. apply five_training_calls_length in H.
    vm_compute in H. discriminate.
Qed.

End TrainingClaims.

(** ** Failure handling *)
















(** The exception of [numpy()] on an accelerator tensor reaches the top of
    the cell that shows the first batch. *)
Example show_cell_raises_numpy_error :
  let r := run toy_torch (TrainingNotebook.show_cell (fst ex_loaders)) ex_ready in
  outcome r = Err (TypeError cuda_msg) /\
  exists t, last (trace r) EnterNoGrad = Called (Numpy t) (Err (TypeError cuda_msg)).
Proof.
  vm_compute. split; [reflexivity | eexists; reflexivity].
Qed.

(** ** The evaluation loop *)

Section Evaluation.
Import TrainingNotebook.
Context {K : Kernels}.

Lemma reads_only_keeps_store (c : call) (w : world) :
  reads_only c -> w_store (snd (torch_handle c w)) = w_store w.
Proof.
  unfold reads_only.
  destruct c; simpl; intros H; try discriminate H; try reflexivity;
    repeat match goal with
           | |- context [match ?x with _ => _ end] => destruct x; simpl
           end; reflexivity.
Qed.

Lemma reads_only_no_update (c : call) : reads_only c -> updates_parameters c = false.
Proof. unfold reads_only. destruct c; simpl; intros H; try discriminate H; reflexivity. Qed.

Lemma torch_run_keeps_store {A : Type} (p : prog A) :
  only_calls reads_only p -> forall w, w_store (final (run torch p w)) = w_store w.
Proof.
  intros Hp. unfold final.
  induction Hp as [A a | A e | A c k Hc Hk IH | A B body k Hbody IHbody Hk IH];
    intros w; simpl.
  - reflexivity.
  - reflexivity.
  - pose proof (reads_only_keeps_store c w Hc) as Hs.
    destruct (torch_handle c w) as [[v | e] w1]; simpl in *; [| assumption].
    specialize (IH v w1). destruct (run torch (k v) w1) as [[r w2] tr]; simpl in *.
    congruence.
  - specialize (IHbody (set_grad_mode false w)).
    destruct (run torch body (set_grad_mode false w)) as [[[b | e] w1] t1]; simpl in *.
    + specialize (IH b (set_grad_mode (w_grad_mode w) w1)).
      destruct (run torch (k b) (set_grad_mode (w_grad_mode w) w1)) as [[r w3] t2];
        simpl in *.
      congruence.
    + assumption.
Qed.

Lemma forward_reads_only (net : Net) (x : tensor) :
  only_calls (fun c => is_forward_call c = true) (Net_forward net x).
Proof.
  unfold Net_forward.
  repeat (apply only_calls_bind; [apply only_calls_trigger; reflexivity | intros ?]).
  constructor.
Qed.

Lemma eval_step_reads_only (net : Net) (b : batch) (ct : Q * nat) :
  only_calls (fun c => is_forward_call c || is_counting_call c = true) (eval_step net b ct).
Proof.
  unfold eval_step.
  apply only_calls_bind.
  - apply (only_calls_weaken (fun c => is_forward_call c = true)).
    + intros c ->. reflexivity.
    + apply forward_reads_only.
  - intros ?.
    repeat (apply only_calls_bind; [apply only_calls_trigger; reflexivity | intros ?]).
    constructor.
Qed.

Lemma eval_loop_reads_only (net : Net) (loader : list batch) (ct : Q * nat) :
  only_calls (fun c => is_forward_call c || is_counting_call c = true)
    (for_each loader (eval_step net) ct).
Proof. apply only_calls_for_each. intros; apply eval_step_reads_only. Qed.

Lemma eval_cell_reads_only (net : Net) (loader : list batch) :
  only_calls reads_only (eval_cell net loader).
Proof.
  unfold eval_cell. cbn [bind]. constructor.
  - apply (only_calls_weaken (fun c => is_forward_call c || is_counting_call c = true)).
    + unfold reads_only. intros c ->. reflexivity.
    + apply eval_loop_reads_only.
  - intros ct. cbn [bind]. unfold true_div.
    destruct (Qeq_bool (inject_Z (Z.of_nat (snd ct))) 0); cbn [bind].
    + constructor.
    + exact (only_calls_trigger reads_only (Print _ _) eq_refl).
Qed.

Lemma run_eval_trace {S : Type} (h : handler S) (net : Net) (loader : list batch) (s : S) :
  exists body rest : list entry,
    trace (run h (eval_cell net loader) s) = EnterNoGrad :: body ++ ExitNoGrad :: rest /\
    Forall (entry_satisfies (fun c => is_forward_call c || is_counting_call c = true)) body /\
    framework_calls rest = [].
Proof.
  unfold eval_cell, trace. cbn [bind run].
  pose proof (only_calls_trace _ h _ (eval_loop_reads_only net loader (0%Q, 0))
                (set_grad_enabled h false s)) as Hb.
  unfold trace in Hb.
  destruct (run h (for_each loader (eval_step net) (0%Q, 0)) (set_grad_enabled h false s))
    as [[[ct | e] s1] t1]; cbn [snd] in *.
  - unfold true_div.
    destruct (Qeq_bool (inject_Z (Z.of_nat (snd ct))) 0); cbn [bind run trigger].
    + exists t1, []. repeat split; assumption.
    + match goal with
      | |- context [handle h ?c ?s0] => destruct (handle h c s0) as [[[] | ?] ?]
      end; cbn [snd]; eexists t1, [_]; repeat split; assumption.
  - exists t1, []. repeat split; assumption.
Qed.

(** C9: the evaluation cell leaves the framework's parameter store as it
    found it, so every parameter of the network (with its gradient and its
    momentum buffer) is unchanged; every call of the loop is made inside
    the [no_grad] block and is a forward call or a comparing and counting
    call; no call of the cell is a backward pass or an optimizer step. *)
Theorem evaluation_leaves_parameters :
  forall (w : world) (net : Net) (testloader : list batch),
    w_store (final (run torch (eval_cell net testloader) w)) = w_store w /\
    (forall handle_, param (final (run torch (eval_cell net testloader) w)) handle_
                     = param w handle_) /\
    Forall (entry_satisfies (fun c => updates_parameters c = false))
      (trace (run torch (eval_cell net testloader) w)) /\
    exists body rest : list entry,
      trace (run torch (eval_cell net testloader) w)
      = EnterNoGrad :: body ++ ExitNoGrad :: rest /\
      Forall (entry_satisfies (fun c => is_forward_call c || is_counting_call c = true)) body /\
      framework_calls rest = [].
Proof.
  intros w net testloader.
  pose proof (torch_run_keeps_store _ (eval_cell_reads_only net testloader) w) as Hs.
  split; [assumption |]. split.
  - intros handle_. unfold param. rewrite Hs. reflexivity.
  - split.
    + apply only_calls_trace.
      apply (only_calls_weaken reads_only); [apply reads_only_no_update |].
      apply eval_cell_reads_only.
    + apply run_eval_trace.
Qed.

End Evaluation.

(** ** The forward pass in the framework *)

Section Forward.
Import TrainingNotebook.
Context {K : Kernels}.

Lemma device_eqb_refl (d : device) : device_eqb d d = true.
Proof. destruct d; reflexivity. Qed.

Lemma layer_call_float (w : world) (hw hb : nat) (x : tensor) (d : device)
    (te de : exn) (sh sh' : list nat) (kernel : tensor -> tensor -> tensor -> list Q) :
  (exists t, param w hw = Some t /\ t_device t = d) ->
  (exists t, param w hb = Some t /\ t_device t = d) ->
  float_on d sh x ->
  exists y, layer_call w hw hb x te de (Ok sh') kernel = Ok y /\ float_on d sh' y.
Proof.
  intros (wt & Hwt & Hdw) (bs & Hbs & Hdb) (Hd & Ht & Hs).
  unfold layer_call. rewrite Hwt, Hbs, Ht, Hdw, Hdb, Hd, device_eqb_refl. cbn.
  eexists. split; [reflexivity |]. repeat split.
Qed.

Lemma view_shape_flatten (n : nat) :
  view_shape (numel [n; 16; 5; 5]) [-1; 16 * 5 * 5]%Z = Ok [n; 400].
Proof.
  unfold view_shape.
  replace (numel [n; 16; 5; 5]) with (n * 400) by (cbn [numel fold_right]; lia).
  cbn -[Nat.modulo Nat.div Nat.mul].
  change (400 * 1) with 400.
  rewrite Nat.Div0.mod_mul. cbn -[Nat.div Nat.mul].
  rewrite Nat.div_mul by discriminate. reflexivity.
Qed.

Lemma conv_call_float (w : world) (l : Conv2d) (x : tensor) (d : device)
    (n c hh ww : nat) :
  (exists t, param w (conv_weight l) = Some t /\ t_device t = d) ->
  (exists t, param w (conv_bias l) = Some t /\ t_device t = d) ->
  float_on d [n; c; hh; ww] x ->
  c = conv_in l -> conv_k l <= hh -> conv_k l <= ww ->
  exists y, torch_handle (Conv2dCall l x) w = (Ok y, w) /\
            float_on d [n; conv_out l; hh - conv_k l + 1; ww - conv_k l + 1] y.
Proof.
  intros Hw Hb Hx Hc Hh Hww. cbn [torch_handle].
  assert (Hsh : conv2d_shape (conv_in l) (conv_out l) (conv_k l) (t_shape x)
                = Ok [n; conv_out l; hh - conv_k l + 1; ww - conv_k l + 1]).
  { destruct Hx as (_ & _ & ->). unfold conv2d_shape. subst c.
    rewrite Nat.eqb_refl. cbn [negb].
    destruct (Nat.ltb_spec hh (conv_k l)); [lia |].
    destruct (Nat.ltb_spec ww (conv_k l)); [lia |]. reflexivity. }
  rewrite Hsh.
  destruct (layer_call_float w _ _ x d conv_type_error conv_type_error _
              [n; conv_out l; hh - conv_k l + 1; ww - conv_k l + 1]
              conv2d_kernel Hw Hb Hx) as (y & Hy & Gy).
  exists y. rewrite Hy. split; [reflexivity | exact Gy].
Qed.

Lemma linear_call_float (w : world) (l : Linear) (x : tensor) (d : device) (n f : nat) :
  (exists t, param w (lin_weight l) = Some t /\ t_device t = d) ->
  (exists t, param w (lin_bias l) = Some t /\ t_device t = d) ->
  float_on d [n; f] x ->
  f = lin_in l ->
  exists y, torch_handle (LinearCall l x) w = (Ok y, w) /\ float_on d [n; lin_out l] y.
Proof.
  intros Hw Hb Hx Hf. cbn [torch_handle].
  assert (Hsh : linear_shape (lin_in l) (lin_out l) (t_shape x) = Ok [n; lin_out l]).
  { destruct Hx as (_ & _ & ->). unfold linear_shape. subst f. cbn [rev app].
    rewrite Nat.eqb_refl. reflexivity. }
  rewrite Hsh.
  destruct (layer_call_float w _ _ x d linear_dtype_error linear_device_error _
              [n; lin_out l] linear_kernel Hw Hb Hx)
    as (y & Hy & Gy).
  exists y. rewrite Hy. split; [reflexivity | exact Gy].
Qed.

Lemma relu_call_float (w : world) (x : tensor) (d : device) (sh : list nat) :
  float_on d sh x ->
  exists y, torch_handle (Relu x) w = (Ok y, w) /\ float_on d sh y.
Proof.
  intros (Hd & Ht & Hs). eexists. split; [reflexivity |]. repeat split; assumption.
Qed.

Lemma pool_call_float (w : world) (l : MaxPool2d) (x : tensor) (d : device)
    (n c hh ww : nat) :
  float_on d [n; c; hh; ww] x ->
  pool_k l = 2 -> pool_stride l = 2 -> 2 <= hh -> 2 <= ww ->
  exists y, torch_handle (MaxPool2dCall l x) w = (Ok y, w) /\
            float_on d [n; c; (hh - 2) / 2 + 1; (ww - 2) / 2 + 1] y.
Proof.
  intros (Hd & Ht & Hs) Hk Hst Hh Hw. cbn [torch_handle].
  rewrite Hs, Hk, Hst. unfold max_pool2d_shape. cbn [Nat.eqb orb].
  destruct (Nat.ltb_spec hh 2); [lia |].
  destruct (Nat.ltb_spec ww 2); [lia |]. cbn [orb].
  eexists. split; [reflexivity |]. repeat split; assumption.
Qed.

Lemma view_call_float (w : world) (x : tensor) (d : device) (n : nat) :
  float_on d [n; 16; 5; 5] x ->
  exists y, torch_handle (View x [-1; 16 * 5 * 5]%Z) w = (Ok y, w) /\
            float_on d [n; 400] y.
Proof.
  intros (Hd & Ht & Hs). cbn [torch_handle]. unfold pure_call, t_view.
  rewrite Hs, view_shape_flatten.
  eexists. split; [reflexivity |]. repeat split; assumption.
Qed.

Ltac torch_step E :=
  rewrite run_bind, run_trigger;
  change (handle torch ?c ?w0) with (torch_handle c w0);
  rewrite E; cbv beta iota.

Lemma torch_forward (w : world) (net : Net) (x : tensor) (d : device) (n : nat) :
  Net_layout net -> resident w net d -> float_on d [n; 3; 32; 32] x ->
  exists (y : tensor) (tr : list entry),
    run torch (Net_forward net x) w = (Ok y, w, tr) /\
    float_on d [n; 10] y /\
    forward_calls net x y tr /\
    exists a b : tensor,
      In (Called (View a [-1; 16 * 5 * 5]%Z) (Ok b)) tr /\
      t_shape a = [n; 16; 5; 5] /\ t_shape b = [n; 400].
Proof.
  intros Hlay Hres Hx.
  unfold Net_layout, layer_sizes in Hlay.
  injection Hlay as Hci1 Hco1 Hck1 Hpk Hps Hci2 Hco2 Hck2 Hfi1 Hfo1 Hfi2 Hfo2 Hfi3 Hfo3.
  unfold resident, Net_parameters in Hres.
  repeat match goal with
         | H : Forall _ (_ :: _) |- _ => inversion H; subst; clear H
         end.
  destruct (conv_call_float w (conv1 net) x d n 3 32 32)
    as (a1 & E1 & G1); try assumption; try (symmetry; assumption);
    try (rewrite Hck1; lia).
  rewrite Hco1, Hck1 in G1. change (float_on d [n; 6; 28; 28] a1) in G1.
  destruct (relu_call_float w a1 d _ G1) as (a2 & E2 & G2).
  destruct (pool_call_float w (pool net) a2 d _ _ _ _ G2)
    as (a3 & E3 & G3); try assumption; try lia.
  change (float_on d [n; 6; 14; 14] a3) in G3.
  destruct (conv_call_float w (conv2 net) a3 d n 6 14 14)
    as (a4 & E4 & G4); try assumption; try (symmetry; assumption);
    try (rewrite Hck2; lia).
  rewrite Hco2, Hck2 in G4. change (float_on d [n; 16; 10; 10] a4) in G4.
  destruct (relu_call_float w a4 d _ G4) as (a5 & E5 & G5).
  destruct (pool_call_float w (pool net) a5 d _ _ _ _ G5)
    as (a6 & E6 & G6); try assumption; try lia.
  change (float_on d [n; 16; 5; 5] a6) in G6.
  destruct (view_call_float w a6 d n G6) as (a7 & E7 & G7).
  destruct (linear_call_float w (fc1 net) a7 d n 400)
    as (a8 & E8 & G8); try assumption; try (symmetry; assumption).
  rewrite Hfo1 in G8.
  destruct (relu_call_float w a8 d _ G8) as (a9 & E9 & G9).
  destruct (linear_call_float w (fc2 net) a9 d n 120)
    as (a10 & E10 & G10); try assumption; try (symmetry; assumption).
  rewrite Hfo2 in G10.
  destruct (relu_call_float w a10 d _ G10) as (a11 & E11 & G11).
  destruct (linear_call_float w (fc3 net) a11 d n 84)
    as (y & E12 & G12); try assumption; try (symmetry; assumption).
  rewrite Hfo3 in G12.
  exists y. eexists. split; [| split; [exact G12 | split]].
  - unfold Net_forward.
    torch_step E1. torch_step E2. torch_step E3. torch_step E4.
    torch_step E5. torch_step E6. torch_step E7. torch_step E8.
    torch_step E9. torch_step E10. torch_step E11. torch_step E12.
    cbn [run app]. reflexivity.
  - exists a1, a2, a3, a4, a5, a6, a7, a8, a9, a10, a11. reflexivity.
  - exists a6, a7. split; [| split].
    + cbn. do 6 right. left. reflexivity.
    + destruct G6 as (_ & _ & ->). reflexivity.
    + destruct G7 as (_ & _ & ->). reflexivity.
Qed.

End Forward.

(** ** The network *)

Section Network.
Import TrainingNotebook.

Lemma device_eqb_eq (a b : device) : device_eqb a b = true -> a = b.
Proof. destruct a, b; simpl; congruence. Qed.

Lemma residentb_resident (w : world) (net : Net) (d : device) :
  residentb w net d = true -> resident w net d.
Proof.
  unfold residentb, resident. rewrite forallb_forall, Forall_forall.
  intros H hd Hin. specialize (H hd Hin).
  destruct (param w hd) as [t |]; [| discriminate].
  exists t. split; [reflexivity | apply device_eqb_eq; assumption].
Qed.

Lemma Net_init_layout {K : Kernels} (w0 : world) (net : Net) :
  outcome (run torch Net_init w0) = Ok net -> Net_layout net.
Proof.
  unfold Net_init, outcome. cbn. intros H. injection H as <-. reflexivity.
Qed.

(** C10, as amended: on every float input of shape N x 3 x 32 x 32 that
    lives where the parameters live, [Net.forward] answers a tensor of
    shape N x 10; the feature map that enters the reshape has shape
    N x 16 x 5 x 5, that is 16 * 5 * 5 elements per sample, the view
    succeeds and keeps the batch size N. *)
Theorem forward_shape_on_images :
  forall (K : Kernels) (w0 w : world) (net : Net) (x : tensor) (d : device) (n : nat),
    outcome (run torch Net_init w0) = Ok net ->
    resident w net d ->
    float_on d [n; 3; 32; 32] x ->
    exists (y : tensor) (tr : list entry),
      run torch (Net_forward net x) w = (Ok y, w, tr) /\
      t_shape y = [n; 10] /\
      forward_calls net x y tr /\
      exists a b : tensor,
        In (Called (View a [-1; 16 * 5 * 5]%Z) (Ok b)) tr /\
        t_shape a = [n; 16; 5; 5] /\ numel [16; 5; 5] = 16 * 5 * 5 /\
        t_shape b = [n; 16 * 5 * 5].
Proof.
  intros K w0 w net x d n Hinit Hres Hx.
  destruct (torch_forward w net x d n (Net_init_layout w0 net Hinit) Hres Hx)
    as (y & tr & Hrun & (_ & _ & Hy) & Hcalls & a & b & Hin & Ha & Hb).
  exists y, tr. repeat split; try assumption.
  exists a, b. repeat split; assumption.
Qed.

Lemma forward_shape_on_images_witness :
  exists (y : tensor) (tr : list entry),
    run toy_torch (Net_forward ex_net ex_images) ex_ready = (Ok y, ex_ready, tr) /\
    t_shape y = [2; 10] /\
    forward_calls ex_net ex_images y tr /\
    exists a b : tensor,
      In (Called (View a [-1; 16 * 5 * 5]%Z) (Ok b)) tr /\
      t_shape a = [2; 16; 5; 5] /\ numel [16; 5; 5] = 16 * 5 * 5 /\
      t_shape b = [2; 16 * 5 * 5].
Proof.
  apply (forward_shape_on_images toy_kernels ex_world ex_ready ex_net ex_images CUDA 2).
  - vm_compute. reflexivity.
  - apply residentb_resident. vm_compute. reflexivity.
  - repeat split.
Defined.

(** C10 as stated fails in its "only": the forward pass is just as well
    defined on pictures of 33 x 33, which are not of shape N x 3 x 32 x 32. *)
Lemma forward_accepts_wider_images_counterexample :
  (forall n, t_shape ex_wide_images <> [n; 3; 32; 32]) /\
  exists y : tensor,
    outcome (run toy_torch (Net_forward ex_net ex_wide_images) ex_ready) = Ok y /\
    t_shape y = [2; 10].
Proof.
  split.
  - intros n H. discriminate H.
  - eexists. split; vm_compute; reflexivity.
Qed.

Lemma run_init_calls {S : Type} (h : handler S) (s : S) :
  match run h Net_init s with
  | (Ok net, _, tr) =>
      map entry_call tr =
      [Some (NewConv2d 3 6 5); Some (NewMaxPool2d 2 2); Some (NewConv2d 6 16 5);
       Some (NewLinear (16 * 5 * 5) 120); Some (NewLinear 120 84); Some (NewLinear 84 10)]
  | (Err _, _, _) => True
  end.
Proof.
  unfold Net_init.
  repeat (rewrite run_bind, run_trigger;
          match goal with
          | |- context [handle h ?c ?s0] =>
              destruct (handle h c s0) as [[? | ?] ?]; [| exact I]
          end).
  reflexivity.
Qed.

Lemma forward_calls_layers (net : Net) (x out : tensor) (tr : list entry) :
  forward_calls net x out tr ->
  parameterized_layers tr =
  [ConvLayer (conv1 net); ConvLayer (conv2 net);
   LinearLayer (fc1 net); LinearLayer (fc2 net); LinearLayer (fc3 net)].
Proof.
  intros (a1 & a2 & a3 & a4 & a5 & a6 & a7 & a8 & a9 & a10 & a11 & ->). reflexivity.
Qed.

(** C4: the network is built from six library modules, of which five own
    parameters (two convolutions and three fully-connected layers), and a
    forward pass that completes is the fixed composition conv1, ReLU,
    pool, conv2, ReLU, pool, view, fc1, ReLU, fc2, ReLU, fc3: every call is
    a library layer, activation, pooling or reshape, and the layers with
    parameters that it calls are exactly those five, once each. *)
Theorem network_is_five_library_layers :
  forall (S : Type) (h : handler S) (s0 s : S) (net : Net) (x out : tensor),
    outcome (run h Net_init s0) = Ok net ->
    outcome (run h (Net_forward net x) s) = Ok out ->
    map entry_call (trace (run h Net_init s0)) =
      [Some (NewConv2d 3 6 5); Some (NewMaxPool2d 2 2); Some (NewConv2d 6 16 5);
       Some (NewLinear (16 * 5 * 5) 120); Some (NewLinear 120 84); Some (NewLinear 84 10)] /\
    forward_calls net x out (trace (run h (Net_forward net x) s)) /\
    Forall (entry_satisfies (fun c => is_forward_call c = true))
      (trace (run h (Net_forward net x) s)) /\
    parameterized_layers (trace (run h (Net_forward net x) s)) =
      [ConvLayer (conv1 net); ConvLayer (conv2 net);
       LinearLayer (fc1 net); LinearLayer (fc2 net); LinearLayer (fc3 net)].
Proof.
  intros S h s0 s net x out Hinit Hfwd.
  pose proof (run_init_calls h s0) as Hi.
  pose proof (run_forward_calls h net x s) as Hf.
  pose proof (only_calls_trace _ h _ (forward_reads_only net x) s) as Ho.
  unfold outcome, trace in *.
  destruct (run h Net_init s0) as [[[net' | ?] ?] tri]; [| discriminate].
  destruct (run h (Net_forward net x) s) as [[[out' | ?] ?] trf]; [| discriminate].
  cbn [fst snd] in *. injection Hfwd as ->.
  repeat split; try assumption.
  apply (forward_calls_layers net x out); assumption.
Qed.

Lemma network_is_five_library_layers_witness :
  map entry_call (trace (run toy_torch Net_init ex_world)) =
    [Some (NewConv2d 3 6 5); Some (NewMaxPool2d 2 2); Some (NewConv2d 6 16 5);
     Some (NewLinear (16 * 5 * 5) 120); Some (NewLinear 120 84); Some (NewLinear 84 10)] /\
  (exists out : tensor,
      outcome (run toy_torch (Net_forward ex_net ex_images) ex_ready) = Ok out /\
      forward_calls ex_net ex_images out
        (trace (run toy_torch (Net_forward ex_net ex_images) ex_ready))) /\
  parameterized_layers (trace (run toy_torch (Net_forward ex_net ex_images) ex_ready)) =
    [ConvLayer (conv1 ex_net); ConvLayer (conv2 ex_net);
     LinearLayer (fc1 ex_net); LinearLayer (fc2 ex_net); LinearLayer (fc3 ex_net)].
Proof.
  assert (Hinit : outcome (run toy_torch Net_init ex_world) = Ok ex_net)
    by (vm_compute; reflexivity).
  assert (Hfwd : exists out,
             outcome (run toy_torch (Net_forward ex_net ex_images) ex_ready) = Ok out)
    by (eexists; vm_compute; reflexivity).
  destruct Hfwd as (out & Hfwd).
  destruct (network_is_five_library_layers world toy_torch ex_world ex_ready
              ex_net ex_images out Hinit Hfwd) as (H1 & H2 & _ & H4).
  split; [exact H1 |]. split; [| exact H4].
  exists out. split; assumption.
Defined.

End Network.

(** ** Normalisation and its inverse *)

Section Normalisation.
Import TrainingNotebook.
Local Open Scope Q_scope.

Lemma channel_stat_half (ch : nat) :
  (ch < 3)%nat -> channel_stat [0.5; 0.5; 0.5] ch = 0.5.
Proof.
  intros H. destruct ch as [| [| [| ch]]]; try reflexivity. lia.
Qed.

Lemma mapi_from_normalize_half (k : nat) (data : list Q) :
  forall i : nat,
    mapi_from i
      (fun j x => normalize_value (channel_stat [0.5; 0.5; 0.5] ((j / k) mod 3))
                    (channel_stat [0.5; 0.5; 0.5] ((j / k) mod 3)) x) data
    = map (normalize_value 0.5 0.5) data.
Proof.
  induction data as [| x data IH]; intros i; cbn [mapi_from map]; [reflexivity |].
  rewrite IH, channel_stat_half by (apply Nat.mod_upper_bound; discriminate).
  reflexivity.
Qed.

(** On a tensor the notebooks' [Normalize] maps every element [x] to
    [(x - 0.5) / 0.5]. *)
Lemma normalize_half (t t' : tensor) :
  normalize [0.5; 0.5; 0.5] [0.5; 0.5; 0.5] (Ten t) = Ok (Ten t') ->
  t' = with_data t (t_shape t) (map (normalize_value 0.5 0.5) (t_data t)).
Proof.
  unfold normalize.
  destruct (negb (dtype_eqb (t_dtype t) Float32)); [discriminate |].
  destruct (chw_of (t_shape t)) as [[[c hh] ww] |]; [| discriminate].
  cbn [existsb Qeq_bool orb length].
  change (Qeq_bool 0.5 0) with false. cbn [orb].
  destruct (Nat.eqb_spec 3 c) as [<- |]; cbn [orb andb negb Nat.eqb]; [| discriminate].
  intros H. injection H as <-. unfold mapi.
  rewrite <- (mapi_from_normalize_half (hh * ww) (t_data t) 0). reflexivity.
Qed.

Lemma unnormalize_value (x : Q) : normalize_value 0.5 0.5 x / 2 + 0.5 == x.
Proof. unfold normalize_value. field. Qed.

Lemma unnormalize_data (data : list Q) :
  Forall2 Qeq
    (map (fun x => x + 0.5) (map (fun x => x / 2) (map (normalize_value 0.5 0.5) data)))
    data.
Proof.
  induction data as [| x data IH]; cbn [map]; constructor.
  - apply unnormalize_value.
  - assumption.
Qed.

(** C8: the first line of [imshow] undoes the pipeline's [Normalize]: for
    every value [x], [((x - 0.5) / 0.5) / 2 + 0.5 = x], and on a tensor
    normalised by the pipeline the tensor that [imshow] hands to [numpy()]
    has the shape and, element by element, the values of the original. *)
Theorem imshow_unnormalizes :
  forall (K : Kernels) (w : world) (t t' : tensor),
    normalize [0.5; 0.5; 0.5] [0.5; 0.5; 0.5] (Ten t) = Ok (Ten t') ->
    (forall x : Q, ((x - 0.5) / 0.5) / 2 + 0.5 == x) /\
    exists (u : tensor) (r : result ndarray),
      In (Called (Numpy u) r) (trace (run torch (imshow t') w)) /\
      t_shape u = t_shape t /\
      Forall2 Qeq (t_data u) (t_data t).
Proof.
  intros K w t t' Hn. split.
  - intros x. apply (unnormalize_value x).
  - apply normalize_half in Hn. subst t'.
    unfold imshow, trace.
    rewrite run_bind, run_trigger. change (handle torch ?c ?w0) with (torch_handle c w0).
    cbn [torch_handle]. cbv beta iota.
    rewrite run_bind, run_trigger. change (handle torch ?c ?w0) with (torch_handle c w0).
    cbn [torch_handle]. cbv beta iota.
    rewrite run_bind, run_trigger. change (handle torch ?c ?w0) with (torch_handle c w0).
    match goal with
    | |- context [torch_handle (Numpy ?u) ?w0] =>
        exists u; destruct (torch_handle (Numpy u) w0) as [[a | e] w1] eqn:E
    end.
    + exists (Ok a). split; [| split].
      * destruct (run torch _ w1) as [[r w2] tr]. cbn. right. right. left. reflexivity.
      * reflexivity.
      * apply unnormalize_data.
    + exists (Err e). split; [| split].
      * cbn. right. right. left. reflexivity.
      * reflexivity.
      * apply unnormalize_data.
Qed.

Lemma imshow_unnormalizes_witness :
  (forall x : Q, ((x - 0.5) / 0.5) / 2 + 0.5 == x) /\
  exists (u : tensor) (r : result ndarray),
    In (Called (Numpy u) r) (trace (run toy_torch (imshow ex_normalized) ex_world)) /\
    t_shape u = t_shape ex_pixels /\
    Forall2 Qeq (t_data u) (t_data ex_pixels).
Proof.
  apply (imshow_unnormalizes toy_kernels ex_world ex_pixels ex_normalized).
  vm_compute. reflexivity.
Defined.

(** *** The transform pipeline *)

Lemma normalize_half_ok (t : tensor) (hh ww : nat) :
  t_dtype t = Float32 -> chw_of (t_shape t) = Some (3%nat, hh, ww) ->
  normalize [0.5; 0.5; 0.5] [0.5; 0.5; 0.5] (Ten t)
  = Ok (Ten (with_data t (t_shape t) (map (normalize_value 0.5 0.5) (t_data t)))).
Proof.
  intros Ht Hs. unfold normalize. rewrite Ht, Hs. cbn [dtype_eqb negb].
  cbn [existsb Qeq_bool orb length].
  change (Qeq_bool 0.5 0) with false. cbn [orb andb negb Nat.eqb]. unfold mapi.
  rewrite <- (mapi_from_normalize_half (hh * ww) (t_data t) 0). reflexivity.
Qed.

Lemma Forall2_flat_map {A B C : Type} (R : B -> C -> Prop) (f : A -> list B)
    (g : A -> list C) (l : list A) :
  (forall a, Forall2 R (f a) (g a)) -> Forall2 R (flat_map f l) (flat_map g l).
Proof.
  intros H. induction l as [| a l IH]; cbn [flat_map]; [constructor |].
  apply Forall2_app; [apply H | assumption].
Qed.

Lemma Forall2_map_same {A B C : Type} (R : B -> C -> Prop) (f : A -> B) (g : A -> C)
    (l : list A) :
  (forall a, R (f a) (g a)) -> Forall2 R (map f l) (map g l).
Proof.
  intros H. induction l as [| a l IH]; cbn [map]; constructor; auto.
Qed.

Lemma nth_scaled_byte (px : list Z) (i : nat) :
  nth i (map (fun p => inject_Z p / 255) px) 0 == inject_Z (nth i px 0%Z) / 255.
Proof.
  destruct (Nat.lt_ge_cases i (length px)) as [Hlt | Hge].
  - rewrite (nth_indep _ 0 ((fun p => inject_Z p / 255) 0%Z)) by (rewrite length_map; lia).
    rewrite (map_nth (fun p => inject_Z p / 255)). reflexivity.
  - rewrite !nth_overflow by (rewrite ?length_map; lia). reflexivity.
Qed.

Lemma hwc_to_chw_scaled (c hw : nat) (px : list Z) :
  Forall2 (fun q p => q == inject_Z p / 255)
    (hwc_to_chw 0 c hw (map (fun p => inject_Z p / 255) px))
    (hwc_to_chw 0%Z c hw px).
Proof.
  unfold hwc_to_chw. apply Forall2_flat_map. intros ch.
  apply Forall2_map_same. intros p. apply nth_scaled_byte.
Qed.

Lemma normalize_value_scaled (q : Q) (p : Z) :
  q == inject_Z p / 255 -> normalize_value 0.5 0.5 q == 2 * (inject_Z p / 255) - 1.
Proof. intros H. unfold normalize_value. rewrite H. field. Qed.

Lemma normalize_scaled (qs : list Q) (ps : list Z) :
  Forall2 (fun q p => q == inject_Z p / 255) qs ps ->
  Forall2 (fun y p => y == 2 * (inject_Z p / 255) - 1)
    (map (normalize_value 0.5 0.5) qs) ps.
Proof.
  induction 1 as [| q p qs ps H _ IH]; cbn [map]; constructor.
  - apply normalize_value_scaled; assumption.
  - assumption.
Qed.

(** The pipeline on a picture: a 3 x H x W tensor whose elements are
    [2 * (p / 255) - 1] for the bytes [p] of the picture. *)
Lemma pipeline_on_picture (img : pil_image) :
  exists t : tensor,
    apply_transform transform (Pil img) = Ok (Ten t) /\
    t_shape t = [3%nat; pil_h img; pil_w img] /\
    Forall2 (fun y p => y == 2 * (inject_Z p / 255) - 1) (t_data t)
      (hwc_to_chw 0%Z 3 (pil_h img * pil_w img) (pil_px img)).
Proof.
  unfold transform. cbn [apply_transform to_tensor].
  rewrite (normalize_half_ok _ (pil_h img) (pil_w img)) by reflexivity.
  eexists. split; [reflexivity |]. split; [reflexivity |].
  cbn [t_data with_data]. apply normalize_scaled, hwc_to_chw_scaled.
Qed.

Lemma normalize_value_range (x : Q) :
  0 <= x <= 1 ->
  normalize_value 0.5 0.5 x == 2 * x - 1 /\ -1 <= normalize_value 0.5 0.5 x <= 1.
Proof.
  intros H.
  assert (E : normalize_value 0.5 0.5 x == 2 * x - 1) by (unfold normalize_value; field).
  split; [exact E |]. rewrite E. lra.
Qed.

Lemma torch_data_cell {K : Kernels} (w : world) (trainset testset : dataset)
    (trainloader testloader : dataloader) :
  outcome (run torch data_cell w) = Ok (trainset, trainloader, testset, testloader) ->
  ds_transform trainset = transform /\ ds_transform testset = transform /\
  trainloader = mkDataLoader trainset 4 true 2 /\
  testloader = mkDataLoader testset 4 false 2.
Proof.
  unfold data_cell, outcome. cbn.
  destruct (w_files w true) as [[| sample train] |]; [discriminate | | discriminate]. cbn.
  destruct (w_files w false) as [test |]; [| discriminate]. cbn.
  intros H. injection H as <- <- <- <-. repeat split.
Qed.

Lemma getitem_applies_pipeline (ds : dataset) (i : nat)
    (img : pil_image) (label : nat) :
  ds_transform ds = transform ->
  nth_error (ds_samples ds) i = Some (img, label) ->
  exists t : tensor,
    dataset_getitem ds i = Ok (t, label) /\
    apply_transform transform (Pil img) = Ok (Ten t) /\
    t_shape t = [3%nat; pil_h img; pil_w img] /\
    Forall2 (fun y p => y == 2 * (inject_Z p / 255) - 1) (t_data t)
      (hwc_to_chw 0%Z 3 (pil_h img * pil_w img) (pil_px img)).
Proof.
  intros Htr Hnth. destruct (pipeline_on_picture img) as (t & Hap & Hsh & Hdata).
  exists t. unfold dataset_getitem. rewrite Hnth, Htr, Hap. repeat split; assumption.
Qed.

(** C7: the transform of both notebooks is [ToTensor] followed by
    [Normalize] with means and deviations 0.5; a value [x] in [0, 1] is
    sent to [(x - 0.5) / 0.5 = 2 x - 1], which lies in [-1, 1]; the data
    cell gives this one pipeline to the training set and to the test set,
    and every sample either dataset serves is the picture sent through it:
    a 3 x H x W tensor with [2 (p / 255) - 1] for each byte [p]. *)
Theorem transform_pipeline :
  forall (K : Kernels) (w : world) (trainset testset : dataset)
         (trainloader testloader : dataloader) (x : Q),
    outcome (run torch data_cell w) = Ok (trainset, trainloader, testset, testloader) ->
    0 <= x <= 1 ->
    (transform = Compose [ToTensor; Normalize [0.5; 0.5; 0.5] [0.5; 0.5; 0.5]] /\
     DatasetNotebook.transform = transform) /\
    (normalize_value 0.5 0.5 x == 2 * x - 1 /\ -1 <= normalize_value 0.5 0.5 x <= 1) /\
    (ds_transform trainset = transform /\ ds_transform testset = transform /\
     dl_dataset trainloader = trainset /\ dl_dataset testloader = testset) /\
    forall ds : dataset, In ds [trainset; testset] ->
      forall (i : nat) (img : pil_image) (label : nat),
        nth_error (ds_samples ds) i = Some (img, label) ->
        exists t : tensor,
          dataset_getitem ds i = Ok (t, label) /\
          apply_transform transform (Pil img) = Ok (Ten t) /\
          t_shape t = [3%nat; pil_h img; pil_w img] /\
          Forall2 (fun y p => y == 2 * (inject_Z p / 255) - 1) (t_data t)
            (hwc_to_chw 0%Z 3 (pil_h img * pil_w img) (pil_px img)).
Proof.
  intros K w trainset testset trainloader testloader x Hrun Hx.
  destruct (torch_data_cell w _ _ _ _ Hrun) as (Htr & Hte & -> & ->).
  split; [split; reflexivity |].
  split; [apply normalize_value_range; assumption |].
  split; [repeat split; assumption |].
  intros ds [<- | [<- | []]] i img label Hnth;
    apply getitem_applies_pipeline; assumption.
Qed.

Lemma transform_pipeline_witness :
  (transform = Compose [ToTensor; Normalize [0.5; 0.5; 0.5] [0.5; 0.5; 0.5]] /\
   DatasetNotebook.transform = transform) /\
  (normalize_value 0.5 0.5 0.25 == 2 * 0.25 - 1 /\
   -1 <= normalize_value 0.5 0.5 0.25 <= 1) /\
  (ds_transform ex_trainset = transform /\ ds_transform ex_testset = transform /\
   dl_dataset ex_trainloader = ex_trainset /\ dl_dataset ex_testloader = ex_testset) /\
  forall ds : dataset, In ds [ex_trainset; ex_testset] ->
    forall (i : nat) (img : pil_image) (label : nat),
      nth_error (ds_samples ds) i = Some (img, label) ->
      exists t : tensor,
        dataset_getitem ds i = Ok (t, label) /\
        apply_transform transform (Pil img) = Ok (Ten t) /\
        t_shape t = [3%nat; pil_h img; pil_w img] /\
        Forall2 (fun y p => y == 2 * (inject_Z p / 255) - 1) (t_data t)
          (hwc_to_chw 0%Z 3 (pil_h img * pil_w img) (pil_px img)).
Proof.
  apply (transform_pipeline toy_kernels ex_world ex_trainset ex_testset
           ex_trainloader ex_testloader 0.25).
  - vm_compute. reflexivity.
  - split; vm_compute; discriminate.
Defined.

End Normalisation.

(** ** The device transfer *)

Section Transfer.
Import TrainingNotebook.
Context {K : Kernels}.

Lemma run_transfer_batches (w : world) (bs : list batch) :
  match run torch (comprehension bs (move_batch CUDA)) w with
  | (Ok l, w', _) => l = map batch_to_cuda bs /\ w' = w
  | (Err _, _, _) => True
  end.
Proof.
  induction bs as [| b bs IH]; cbn [comprehension].
  - cbn. split; reflexivity.
  - unfold move_batch at 1. rewrite run_bind, run_bind, run_trigger.
    change (handle torch ?c ?w0) with (torch_handle c w0). cbn [torch_handle].
    unfold pure_call, t_to. destruct (w_cuda w); [| exact I]. cbv beta iota.
    rewrite run_bind, run_trigger.
    change (handle torch ?c ?w0) with (torch_handle c w0). cbn [torch_handle].
    unfold pure_call, t_to. destruct (w_cuda w); cbv beta iota; cbn [run app].
    + rewrite run_bind.
      destruct (run torch (comprehension bs _) w) as [[[l | ?] w'] tr]; [| exact I].
      destruct IH as (-> & ->). cbn [run]. split; reflexivity.
    + exact I.
Qed.

Lemma run_transfer (w : world) (dl : dataloader) :
  match run torch (transfer CUDA dl) w with
  | (Ok l, w', _) =>
      exists served : list batch,
        fst (torch_handle (IterLoader dl) w) = Ok served /\
        l = map batch_to_cuda served /\ w' = advance_rng dl w
  | (Err _, _, _) => True
  end.
Proof.
  unfold transfer. rewrite run_bind, run_trigger.
  change (handle torch ?c ?w0) with (torch_handle c w0). cbn [torch_handle fst].
  destruct (rmap (load_batch (dl_dataset dl))
              (chunks (dl_batch_size dl) (loader_order dl w))) as [served | ?];
    [| exact I].
  pose proof (run_transfer_batches (advance_rng dl w) served) as H.
  destruct (run torch (comprehension served _) (advance_rng dl w))
    as [[[l | ?] w'] tr]; [| exact I].
  destruct H as (-> & ->). exists served. repeat split.
Qed.

Lemma batch_to_cuda_on_cuda (bs : list batch) : Forall on_cuda (map batch_to_cuda bs).
Proof.
  induction bs as [| b bs IH]; cbn [map]; constructor; [split; reflexivity | assumption].
Qed.

(** C3: when the device cell and the transfer cell complete, [trainloader]
    and [testloader] are rebound to the lists of the batches the two
    loaders served, each tensor replaced by its [.to(device)] image on the
    accelerator: as many batches, in the same order, every input and every
    label on CUDA. *)
Theorem transfer_moves_every_batch :
  forall (w : world) (trainloader testloader : dataloader)
         (trainloader' testloader' : list batch),
    outcome (run torch
               (dev <- device_cell ;; transfer_cell dev trainloader testloader) w)
    = Ok (trainloader', testloader') ->
    exists served_train served_test : list batch,
      fst (torch_handle (IterLoader trainloader) w) = Ok served_train /\
      fst (torch_handle (IterLoader testloader) (advance_rng trainloader w))
      = Ok served_test /\
      trainloader' = map batch_to_cuda served_train /\
      testloader' = map batch_to_cuda served_test /\
      length trainloader' = length served_train /\
      length testloader' = length served_test /\
      (forall i b, nth_error served_train i = Some b ->
                   nth_error trainloader' i = Some (batch_to_cuda b)) /\
      (forall i b, nth_error served_test i = Some b ->
                   nth_error testloader' i = Some (batch_to_cuda b)) /\
      Forall on_cuda trainloader' /\ Forall on_cuda testloader'.
Proof.
  intros w trainloader testloader trl tel.
  unfold outcome, device_cell.
  rewrite run_bind, (run_trigger torch (TorchDevice "cuda") w).
  change (handle torch ?c ?w0) with (torch_handle c w0). cbn [torch_handle].
  change (String.eqb "cuda" "cuda") with true. cbv beta iota.
  unfold transfer_cell. rewrite run_bind.
  pose proof (run_transfer w trainloader) as H1.
  destruct (run torch (transfer CUDA trainloader) w) as [[[l1 | ?] w1] t1];
    [| discriminate].
  destruct H1 as (served_train & Hs1 & -> & ->).
  rewrite run_bind.
  pose proof (run_transfer (advance_rng trainloader w) testloader) as H2.
  destruct (run torch (transfer CUDA testloader) (advance_rng trainloader w))
    as [[[l2 | ?] w2] t2]; [| discriminate].
  destruct H2 as (served_test & Hs2 & -> & ->).
  cbn [run fst]. intros H. injection H as <- <-.
  exists served_train, served_test.
  repeat split; try assumption; try apply length_map; try apply batch_to_cuda_on_cuda.
  - intros i b Hb. rewrite nth_error_map, Hb. reflexivity.
  - intros i b Hb. rewrite nth_error_map, Hb. reflexivity.
Qed.

End Transfer.

Lemma transfer_moves_every_batch_witness :
  exists served_train served_test : list batch,
    fst (@torch_handle toy_kernels (IterLoader ex_trainloader) ex_world) = Ok served_train /\
    fst (@torch_handle toy_kernels (IterLoader ex_testloader)
           (advance_rng ex_trainloader ex_world)) = Ok served_test /\
    fst ex_loaders = map batch_to_cuda served_train /\
    snd ex_loaders = map batch_to_cuda served_test /\
    length (fst ex_loaders) = length served_train /\
    length (snd ex_loaders) = length served_test /\
    (forall i b, nth_error served_train i = Some b ->
                 nth_error (fst ex_loaders) i = Some (batch_to_cuda b)) /\
    (forall i b, nth_error served_test i = Some b ->
                 nth_error (snd ex_loaders) i = Some (batch_to_cuda b)) /\
    Forall on_cuda (fst ex_loaders) /\ Forall on_cuda (snd ex_loaders).
Proof.
  apply (@transfer_moves_every_batch toy_kernels ex_world ex_trainloader ex_testloader
           (fst ex_loaders) (snd ex_loaders)).
  vm_compute. reflexivity.
Defined.

(** ** Showing a batch *)

Section Showing.
Context {K : Kernels}.

(** C5 fails on the code: in the training notebook the batches are on the
    accelerator when the cell that shows them runs, and there [imshow]
    never completes.  When the grid can be built, [img.numpy()] raises the
    TypeError the notebook itself records; nothing is displayed and no
    label is printed. *)
Theorem show_cell_fails_on_accelerator :
  forall (w : world) (dt : dtype) (sh : list nat) (data : list Q) (rg : bool)
         (labels : tensor) (rest : list batch),
    let r := run torch
               (TrainingNotebook.show_cell ((mkTensor CUDA dt sh data rg, labels) :: rest)) w in
    match make_grid_shape sh with
    | Ok _ => outcome r = Err (TypeError cuda_msg)
    | Err e => outcome r = Err e
    end /\
    w_stdout (final r) = w_stdout w /\ w_figure (final r) = w_figure w.
Proof.
  intros w dt sh data rg labels rest.
  unfold TrainingNotebook.show_cell, TrainingNotebook.imshow.
  cbn [next_of_list bind fst snd].
  cbv zeta. rewrite run_bind, run_trigger.
  change (handle torch ?c ?w0) with (torch_handle c w0).
  cbn [torch_handle t_shape t_device t_dtype].
  destruct (make_grid_shape sh) as [sh' | e]; cbv beta iota.
  - rewrite !run_bind, run_trigger.
    change (handle torch ?c ?w0) with (torch_handle c w0).
    cbn [torch_handle]. cbv beta iota.
    rewrite !run_bind, run_trigger.
    change (handle torch ?c ?w0) with (torch_handle c w0).
    cbn [torch_handle]. cbv beta iota.
    rewrite !run_bind, run_trigger.
    change (handle torch ?c ?w0) with (torch_handle c w0).
    cbn [torch_handle pure_call t_numpy track t_add_scalar t_div_scalar t_device].
    cbv beta iota. repeat split.
  - repeat split.
Qed.

End Showing.

(** In the Dataset and DataLoader notebook the same cell runs on the host
    batches the loader serves: the grid is displayed and the four labels
    are printed. *)
Example show_cell_succeeds_on_host :
  let r := run toy_torch (DatasetNotebook.show_cell ex_small_loader) ex_small_world in
  outcome r = Ok tt /\
  w_stdout (final r) = [("%s"%string, [PStr " bird   cat  deer   car"])] /\
  map a_shape (w_figure (final r)) = [[5; 14; 3]].
Proof. vm_compute. repeat split. Qed.

(** ** The accuracy *)

Section Accuracy.
Import TrainingNotebook.

Lemma flat_map_singleton {A B : Type} (f : A -> B) (l : list A) :
  flat_map (fun a => [f a]) l = map f l.
Proof. induction l as [| a l IH]; cbn; [reflexivity | rewrite IH; reflexivity]. Qed.

Lemma slices_along_rows (n m : nat) (data : list Q) :
  slices_along n m 1 data =
  map (fun i => map (fun k => qnth data (i * m + k)) (seq 0 m)) (seq 0 n).
Proof.
  unfold slices_along. cbn [seq map]. rewrite flat_map_singleton.
  apply map_ext. intros i. apply map_ext. intros k. f_equal. lia.
Qed.

Lemma broadcast_read_vector (n : nat) (data : list Q) (o : nat) :
  o < n -> broadcast_read [n] data (unravel [n] o) = qnth data o.
Proof.
  intros H. unfold broadcast_read. cbn [unravel numel fold_right length Nat.sub skipn combine map snd fst ravel].
  f_equal. rewrite Nat.div_1_r.
  destruct (Nat.eqb_spec n 1); lia.
Qed.

Lemma class_index_eqb (a b : nat) :
  Qeq_bool (class_index a) (class_index b) = (a =? b).
Proof.
  unfold class_index, Qeq_bool, inject_Z. cbn [Qnum Qden].
  rewrite !Z.mul_1_r.
  destruct (Nat.eqb_spec a b) as [-> | Hne].
  - apply Z.eqb_refl.
  - apply Z.eqb_neq. lia.
Qed.

Lemma qsum_indicator (f : nat -> bool) (l : list nat) :
  (qsum (map (fun o => if f o then 1 else 0) l) == inject_Z (Z.of_nat (length (filter f l))))%Q.
Proof.
  induction l as [| a l IH]; cbn [map qsum fold_right filter].
  - reflexivity.
  - fold (qsum (map (fun o => if f o then 1%Q else 0%Q) l)).
    destruct (f a); cbn [length]; rewrite IH.
    + rewrite Nat2Z.inj_succ, <- Z.add_1_l, inject_Z_plus. reflexivity.
    + lra.
Qed.

Lemma nth_map_seq {A : Type} (f : nat -> A) (n o : nat) (d : A) :
  o < n -> nth o (map f (seq 0 n)) d = f o.
Proof.
  intros H. rewrite (nth_indep _ d (f 0)) by (rewrite length_map, length_seq; assumption).
  rewrite (map_nth f), seq_nth by assumption. reflexivity.
Qed.

Lemma nth_class_index (ls : list nat) (o : nat) :
  o < length ls -> qnth (map class_index ls) o = class_index (nth o ls 0).
Proof.
  intros H. unfold qnth.
  rewrite (nth_indep _ 0%Q (class_index 0)) by (rewrite length_map; assumption).
  apply (map_nth class_index).
Qed.

Lemma labels_of_class_indices (t : tensor) (ls : list nat) :
  t_data t = map class_index ls -> labels_of t = ls.
Proof.
  intros H. unfold labels_of. rewrite H, map_map.
  rewrite <- (map_id ls) at 2. apply map_ext. intros l.
  unfold class_index. rewrite Qfloor_Z. apply Nat2Z.id.
Qed.

Lemma t_max_logits (t : tensor) (n : nat) :
  t_shape t = [n; 10] ->
  exists vals : tensor,
    t_max t 1 = Ok (vals,
                    mkTensor (t_device t) Int64 [n]
                      (map (fun i => class_index (argmax (logits_row 10 t i))) (seq 0 n))
                      false).
Proof.
  intros H. unfold t_max. rewrite H.
  cbn [firstn skipn app Nat.eqb andb numel fold_right].
  rewrite Nat.mul_1_r, slices_along_rows, !map_map.
  eexists. reflexivity.
Qed.

Lemma t_eq_vectors (p labels : tensor) (d : device) (n : nat) :
  t_device p = d -> t_shape p = [n] ->
  t_device labels = d -> t_shape labels = [n] ->
  t_eq p labels =
  Ok (mkTensor d BoolT [n]
        (map (fun o => if Qeq_bool (qnth (t_data p) o) (qnth (t_data labels) o)
                       then 1%Q else 0%Q) (seq 0 n))
        false).
Proof.
  intros Hdp Hsp Hdl Hsl. unfold t_eq.
  rewrite Hdp, Hdl, Hsp, Hsl, device_eqb_refl. cbn [negb].
  unfold broadcast_shape. cbn [rev app broadcast_rev]. rewrite Nat.eqb_refl.
  cbn [option_map rev app numel fold_right]. rewrite Nat.mul_1_r.
  do 2 f_equal. apply map_ext_in. intros o Ho. apply in_seq in Ho.
  rewrite !broadcast_read_vector by lia. reflexivity.
Qed.

Lemma count_matches (out : tensor) (ls : list nat) (n : nat) :
  length ls = n ->
  (qsum (map (fun o =>
               if Qeq_bool
                    (qnth (map (fun i => class_index (argmax (logits_row 10 out i))) (seq 0 n)) o)
                    (qnth (map class_index ls) o)
               then 1 else 0) (seq 0 n))
   == class_index (batch_hits out ls))%Q.
Proof.
  intros Hlen. unfold batch_hits, class_index at 3. rewrite Hlen.
  rewrite <- qsum_indicator.
  rewrite (map_ext_in _ (fun o => if sample_hit out ls o then 1%Q else 0%Q)).
  - reflexivity.
  - intros o Ho. apply in_seq in Ho.
    unfold qnth at 1. rewrite nth_map_seq by lia.
    rewrite nth_class_index by lia. rewrite class_index_eqb. reflexivity.
Qed.

Section EvalRun.
Context {K : Kernels}.

Ltac torch_call :=
  rewrite run_bind, run_trigger;
  change (handle torch ?c ?w0) with (torch_handle c w0);
  cbn [torch_handle pure_call]; cbv beta iota.

Lemma run_eval_step (w0 : world) (net : Net) (b : batch) (ct : Q * nat) (d : device) :
  Net_layout net -> resident w0 net d -> labelled_batch d b ->
  exists (out : tensor) (x : Q) (tr : list entry),
    outcome (run torch (Net_forward net (fst b)) w0) = Ok out /\
    run torch (eval_step net b ct) w0
    = (Ok ((fst ct + x)%Q, snd ct + length (t_data (snd b))), w0, tr) /\
    (x == class_index (batch_hits out (labels_of (snd b))))%Q.
Proof.
  intros Hlay Hres (n & ls & Hx & Hd & Hs & Hdata & Hlen).
  destruct (torch_forward w0 net (fst b) d n Hlay Hres Hx)
    as (y & ftr & Hrun & (Hyd & _ & Hys) & _).
  exists y. unfold eval_step. rewrite run_bind, Hrun. cbv beta iota.
  torch_call.
  destruct (t_max_logits (mkTensor (t_device y) (t_dtype y) (t_shape y) (t_data y) false) n Hys)
    as (vals & Hmax).
  torch_call. rewrite Hmax. cbv beta iota. cbn [snd].
  torch_call. unfold t_size. rewrite Hs. cbn [nth_error]. cbv beta iota.
  torch_call.
  rewrite (t_eq_vectors _ (snd b) d n)
    by (cbn [t_device t_shape]; first [assumption | reflexivity]).
  cbv beta iota.
  torch_call. torch_call.
  cbn [t_item track t_sum t_shape numel fold_right Nat.eqb t_data qnth nth].
  cbv beta iota. cbn [run app].
  eexists. eexists. split; [reflexivity |]. split.
  - rewrite Hdata, length_map, Hlen. reflexivity.
  - rewrite (labels_of_class_indices (snd b) ls Hdata).
    apply (count_matches y ls n Hlen).
Qed.

Lemma class_index_add (a b : nat) :
  (class_index (a + b) == class_index a + class_index b)%Q.
Proof.
  unfold class_index. rewrite Nat2Z.inj_add, inject_Z_plus. reflexivity.
Qed.

Lemma run_eval_loop (w : world) (net : Net) (d : device) (loader : list batch) :
  Net_layout net -> resident w net d -> Forall (labelled_batch d) loader ->
  forall ct : Q * nat,
  exists (c : Q) (tr : list entry),
    run torch (for_each loader (eval_step net) ct) (set_grad_mode false w)
    = (Ok (c, snd ct + total_labels loader), set_grad_mode false w, tr) /\
    (c == fst ct + class_index (total_hits w net loader))%Q.
Proof.
  intros Hlay Hres Hall.
  induction Hall as [| b loader Hb _ IH]; intros ct.
  - cbn [for_each run total_labels map list_sum fold_right].
    exists (fst ct), []. split.
    + rewrite Nat.add_0_r. destruct ct; reflexivity.
    + unfold total_hits. cbn [map list_sum fold_right].
      change (class_index 0) with 0%Q. rewrite Qplus_0_r. reflexivity.
  - cbn [for_each]. rewrite run_bind.
    destruct (run_eval_step (set_grad_mode false w) net b ct d Hlay Hres Hb)
      as (out & x & tr1 & Hout & Hrun & Hx).
    rewrite Hrun. cbv beta iota.
    destruct (IH ((fst ct + x)%Q, snd ct + length (t_data (snd b))))
      as (c & tr2 & Hrun2 & Hc).
    rewrite Hrun2. cbv beta iota.
    exists c, (tr1 ++ tr2). split.
    + cbn [snd total_labels map list_sum fold_right].
      rewrite Nat.add_assoc. reflexivity.
    + rewrite Hc. cbn [fst].
      change (total_hits w net (b :: loader))
        with (match net_logits w net (fst b) with
              | Ok out0 => batch_hits out0 (labels_of (snd b))
              | Err _ => 0
              end + total_hits w net loader).
      unfold net_logits at 1. rewrite Hout, class_index_add, Hx. lra.
Qed.

Lemma class_index_nonzero (n : nat) : n <> 0 -> Qeq_bool (class_index n) 0 = false.
Proof.
  intros H. unfold class_index, Qeq_bool, inject_Z. cbn [Qnum Qden].
  apply Z.eqb_neq. lia.
Qed.

(** C2: when the evaluation cell runs on batches of pictures with their
    class indices, it prints [100 * correct / total], where [correct] is
    the number of samples, over all batches of the test loader, whose
    argmax over the ten logits of the network is the sample's label, and
    [total] is the number of labels of all the batches; every batch is
    counted, each once. *)
Theorem evaluation_accuracy :
  forall (w0 w : world) (net : Net) (testloader : list batch) (d : device),
    outcome (run torch Net_init w0) = Ok net ->
    resident w net d ->
    Forall (labelled_batch d) testloader ->
    total_labels testloader <> 0 ->
    exists acc : Q,
      outcome (run torch (eval_cell net testloader) w) = Ok tt /\
      w_stdout (final (run torch (eval_cell net testloader) w))
      = w_stdout w ++
        [("Accuracy of the network on the 10000 test images: %d %%"%string, [PFloat acc])] /\
      (acc == 100 * inject_Z (Z.of_nat (total_hits w net testloader))
              / inject_Z (Z.of_nat (total_labels testloader)))%Q.
Proof.
  intros w0 w net testloader d Hinit Hres Hall Htotal.
  destruct (run_eval_loop w net d testloader (Net_init_layout w0 net Hinit) Hres Hall
              (0%Q, 0)) as (c & tr & Hrun & Hc).
  unfold eval_cell, outcome, final. cbn [bind run].
  change (set_grad_enabled torch false w) with (set_grad_mode false w).
  rewrite Hrun. cbv beta iota. cbn [bind fst snd Nat.add].
  unfold true_div. fold (class_index (total_labels testloader)).
  rewrite (class_index_nonzero _ Htotal). cbn [bind trigger run].
  change (handle torch ?c0 ?w1) with (torch_handle c0 w1). cbn [torch_handle].
  cbv beta iota. cbn [fst snd].
  eexists. split; [reflexivity |]. split; [reflexivity |].
  rewrite Hc. cbn [fst]. unfold class_index. field.
  intros H. apply (Qeq_bool_neq _ _ (class_index_nonzero _ Htotal)). exact H.
Qed.

End EvalRun.

Lemma shape_eqb_eq (a b : list nat) : shape_eqb a b = true -> a = b.
Proof.
  revert b. induction a as [| x a IH]; intros [| y b] H; cbn in H; try discriminate.
  - reflexivity.
  - apply andb_true_iff in H. destruct H as (Hxy & Hab).
    apply Nat.eqb_eq in Hxy. rewrite Hxy, (IH b Hab). reflexivity.
Qed.

Lemma dtype_eqb_eq (a b : dtype) : dtype_eqb a b = true -> a = b.
Proof. destruct a, b; cbn; congruence. Qed.

Lemma class_indices_data (data : list Q) :
  forallb (fun q => (Qnum q =? Z.of_nat (Z.to_nat (Qfloor q)))%Z
                    && (Qden q =? 1)%positive) data = true ->
  data = map class_index (map (fun q => Z.to_nat (Qfloor q)) data).
Proof.
  induction data as [| q data IH]; cbn [forallb map]; intros H; [reflexivity |].
  apply andb_true_iff in H. destruct H as (Hq & Hrest).
  apply andb_true_iff in Hq. destruct Hq as (Hnum & Hden).
  apply Z.eqb_eq in Hnum. apply Pos.eqb_eq in Hden.
  rewrite <- (IH Hrest). f_equal.
  destruct q as [num den]. cbn [Qnum Qden] in *. subst den.
  unfold class_index, inject_Z. rewrite <- Hnum. reflexivity.
Qed.

Lemma labelled_batchb_labelled (d : device) (b : batch) :
  labelled_batchb d b = true -> labelled_batch d b.
Proof.
  unfold labelled_batchb. rewrite !andb_true_iff.
  intros (((((Hd & Ht) & Hs) & Hdl) & Hsl) & Hdata).
  exists (length (t_data (snd b))), (labels_of (snd b)).
  repeat split.
  - apply device_eqb_eq; assumption.
  - apply dtype_eqb_eq; assumption.
  - apply shape_eqb_eq; assumption.
  - apply device_eqb_eq; assumption.
  - apply shape_eqb_eq; assumption.
  - apply class_indices_data; assumption.
  - unfold labels_of. apply length_map.
Qed.

Lemma labelled_loader (d : device) (loader : list batch) :
  forallb (labelled_batchb d) loader = true -> Forall (labelled_batch d) loader.
Proof.
  rewrite forallb_forall, Forall_forall. intros H b Hb.
  apply labelled_batchb_labelled, H, Hb.
Qed.

Lemma evaluation_accuracy_witness :
  exists acc : Q,
    outcome (run toy_torch (eval_cell ex_net (snd ex_loaders)) ex_ready) = Ok tt /\
    w_stdout (final (run toy_torch (eval_cell ex_net (snd ex_loaders)) ex_ready))
    = w_stdout ex_ready ++
      [("Accuracy of the network on the 10000 test images: %d %%"%string, [PFloat acc])] /\
    (acc == 100 * inject_Z (Z.of_nat (@total_hits toy_kernels ex_ready ex_net (snd ex_loaders)))
            / inject_Z (Z.of_nat (total_labels (snd ex_loaders))))%Q.
Proof.
  apply (@evaluation_accuracy toy_kernels ex_world ex_ready ex_net (snd ex_loaders) CUDA).
  - vm_compute. reflexivity.
  - apply residentb_resident. vm_compute. reflexivity.
  - apply labelled_loader. vm_compute. reflexivity.
  - vm_compute. discriminate.
Defined.

Example ex_accuracy :
  @total_hits toy_kernels ex_ready ex_net (snd ex_loaders) = 3 /\
  total_labels (snd ex_loaders) = 4.
Proof. vm_compute. split; reflexivity. Qed.

End Accuracy.

(** * The reports of the training *)

Section Reports.
Variable period : nat.
Hypothesis period_pos : 0 < period.

Lemma reports_from_windows (epoch : nat) (items : list Q) :
  forall (k0 : nat) (pre : list Q),
    length pre < period ->
    reports_from period epoch (period * k0 + length pre) (fold_left Qplus pre 0%Q) items
    = map (fun k => loss_line epoch (period * (k0 + k) + (period - 1))
                      (fold_left Qplus (window period k (pre ++ items)) 0%Q))
          (seq 0 ((length pre + length items) / period)).
Proof.
  induction items as [| x rest IH]; intros k0 pre Hpre.
  - cbn [reports_from length]. rewrite Nat.add_0_r, Nat.div_small by assumption.
    reflexivity.
  - cbn [reports_from].
    replace ((period * k0 + length pre) mod period) with (length pre).
    2:{ rewrite Nat.add_comm, Nat.mul_comm, Nat.Div0.mod_add.
        symmetry. apply Nat.mod_small. assumption. }
    replace (fold_left Qplus pre 0 + x)%Q with (fold_left Qplus (pre ++ [x]) 0%Q)
      by (rewrite fold_left_app; reflexivity).
    destruct (Nat.eqb_spec (length pre) (period - 1)) as [Hlast | Hnot].
    + assert (Hlen : length (pre ++ [x]) = period)
        by (rewrite length_app; cbn [length]; lia).
      replace (S (period * k0 + length pre)) with (period * (k0 + 1) + @length Q [])
        by (cbn [length]; lia).
      change 0%Q with (fold_left Qplus (@nil Q) 0%Q) at 2.
      rewrite (IH (k0 + 1) []) by (cbn [length]; lia).
      cbn [length app Nat.add].
      replace ((length pre + S (length rest)) / period) with (S (length rest / period)).
      2:{ replace (length pre + S (length rest)) with (1 * period + length rest) by lia.
          rewrite Nat.div_add_l by lia. reflexivity. }
      cbn [seq map]. f_equal.
      * unfold window. rewrite Nat.mul_0_r. cbn [skipn].
        rewrite Hlast, Nat.add_0_r.
        replace (pre ++ x :: rest) with ((pre ++ [x]) ++ rest)
          by (rewrite <- app_assoc; reflexivity).
        rewrite firstn_app, Hlen, Nat.sub_diag, firstn_all2 by lia.
        cbn [firstn]. rewrite app_nil_r. reflexivity.
      * rewrite <- seq_shift, map_map. apply map_ext. intros k.
        replace (k0 + 1 + k) with (k0 + S k) by lia.
        f_equal. unfold window. f_equal.
        replace (pre ++ x :: rest) with ((pre ++ [x]) ++ rest)
          by (rewrite <- app_assoc; reflexivity).
        rewrite skipn_app, Hlen.
        replace (period * S k - period) with (period * k) by lia.
        rewrite (skipn_all2 (n := period * S k) (pre ++ [x])) by (rewrite Hlen; nia).
        reflexivity.
    + replace (S (period * k0 + length pre)) with (period * k0 + length (pre ++ [x]))
        by (rewrite length_app; cbn [length]; lia).
      rewrite (IH k0 (pre ++ [x])) by (rewrite length_app; cbn [length]; lia).
      rewrite <- app_assoc, length_app. cbn [app length].
      replace (length pre + 1 + length rest) with (length pre + S (length rest)) by lia.
      reflexivity.
Qed.

Lemma reports_from_start (epoch : nat) (items : list Q) :
  reports_from period epoch 0 0%Q items = epoch_report period epoch items.
Proof.
  pose proof (reports_from_windows epoch items 0 [] period_pos) as H.
  cbn [length app fold_left Nat.add] in H. rewrite Nat.mul_0_r in H.
  exact H.
Qed.

End Reports.

Section TrainingReports.
Import TrainingNotebook.
Context {S : Type} (h : handler S).

Lemma printed_app (t1 t2 : list entry) : printed (t1 ++ t2) = printed t1 ++ printed t2.
Proof. apply flat_map_app. Qed.

Lemma losses_read_app (t1 t2 : list entry) :
  losses_read (t1 ++ t2) = losses_read t1 ++ losses_read t2.
Proof. apply flat_map_app. Qed.

Lemma forward_calls_silent (net : Net) (x out : tensor) (tr : list entry) :
  forward_calls net x out tr -> printed tr = [] /\ losses_read tr = [].
Proof.
  intros (a1 & a2 & a3 & a4 & a5 & a6 & a7 & a8 & a9 & a10 & a11 & ->).
  split; reflexivity.
Qed.

Lemma run_training_step_report (net : Net) (opt : SGD) (epoch i : nat) (b : batch)
    (running_loss : Q) (s : S) :
  match run h (training_step net opt epoch (i, b) running_loss) s with
  | (Ok rl', _, tr) =>
      exists x : Q,
        losses_read tr = [x] /\
        printed tr = (if i mod 2000 =? 1999
                      then [loss_line epoch i (running_loss + x)] else []) /\
        rl' = (if i mod 2000 =? 1999 then 0%Q else (running_loss + x)%Q)
  | (Err _, _, _) => True
  end.
Proof.
  unfold training_step. cbn [fst snd].
  rewrite run_bind, run_trigger.
  destruct (handle h (ZeroGrad opt) s) as [[[] | ?] s1]; [| exact I].
  rewrite run_bind.
  pose proof (run_forward_calls h net (fst b) s1) as Hf.
  destruct (run h (Net_forward net (fst b)) s1) as [[[outputs | ?] s2] ftr]; [| exact I].
  destruct (forward_calls_silent _ _ _ _ Hf) as (Hp & Hl).
  rewrite run_bind, run_trigger.
  destruct (handle h (CrossEntropy outputs (snd b)) s2) as [[loss | ?] s3]; [| exact I].
  rewrite run_bind, run_trigger.
  destruct (handle h (Backward loss) s3) as [[[] | ?] s4]; [| exact I].
  rewrite run_bind, run_trigger.
  destruct (handle h (OptStep opt) s4) as [[[] | ?] s5]; [| exact I].
  rewrite run_bind, run_trigger.
  destruct (handle h (Item loss) s5) as [[x | ?] s6]; [| exact I].
  destruct (i mod 2000 =? 1999).
  - rewrite run_bind, run_trigger.
    match goal with
    | |- context [handle h ?c ?s0] => destruct (handle h c s0) as [[[] | ?] s7]; [| exact I]
    end.
    cbn [run app]. exists x.
    change (Called (ZeroGrad opt) (Ok tt) :: ftr ++ ?l)
      with ([Called (ZeroGrad opt) (Ok tt)] ++ ftr ++ l).
    rewrite !printed_app, !losses_read_app, Hp, Hl. repeat split.
  - cbn [run app]. exists x.
    change (Called (ZeroGrad opt) (Ok tt) :: ftr ++ ?l)
      with ([Called (ZeroGrad opt) (Ok tt)] ++ ftr ++ l).
    rewrite !printed_app, !losses_read_app, Hp, Hl. repeat split.
Qed.

Lemma run_training_batches_report (net : Net) (opt : SGD) (epoch : nat)
    (loader : list batch) :
  forall (i : nat) (running_loss : Q) (s : S),
    match run h (for_each (enumerate_from i loader)
                   (training_step net opt epoch) running_loss) s with
    | (Ok _, _, tr) =>
        exists items : list Q,
          length items = length loader /\
          losses_read tr = items /\
          printed tr = reports_from 2000 epoch i running_loss items
    | (Err _, _, _) => True
    end.
Proof.
  induction loader as [| b loader IH]; intros i running_loss s.
  - cbn [enumerate_from for_each run]. exists []. repeat split.
  - cbn [enumerate_from for_each]. rewrite run_bind.
    pose proof (run_training_step_report net opt epoch i b running_loss s) as Hb.
    destruct (run h (training_step net opt epoch (i, b) running_loss) s)
      as [[[rl | ?] s1] t1]; [| exact I].
    destruct Hb as (x & Hl1 & Hp1 & Hrl).
    specialize (IH (Datatypes.S i) rl s1).
    destruct (run h (for_each (enumerate_from (Datatypes.S i) loader)
                       (training_step net opt epoch) rl) s1)
      as [[[rl' | ?] s2] t2]; [| exact I].
    destruct IH as (items & Hlen & Hl2 & Hp2).
    exists (x :: items). split; [cbn [length]; congruence |]. split.
    + rewrite losses_read_app, Hl1, Hl2. reflexivity.
    + rewrite printed_app, Hp1, Hp2, Hrl. cbn [reports_from].
      change (2000 - 1) with 1999.
      destruct (i mod 2000 =? 1999); reflexivity.
Qed.

Lemma run_training_epoch_report (net : Net) (opt : SGD) (loader : list batch)
    (epoch : nat) (s : S) :
  match run h (training_epoch net opt loader epoch tt) s with
  | (Ok _, _, tr) =>
      exists items : list Q,
        length items = length loader /\
        losses_read tr = items /\
        printed tr = epoch_report 2000 epoch items
  | (Err _, _, _) => True
  end.
Proof.
  unfold training_epoch. rewrite run_bind.
  pose proof (run_training_batches_report net opt epoch loader 0 0%Q s) as H.
  destruct (run h (for_each (enumerate_from 0 loader) (training_step net opt epoch) 0%Q) s)
    as [[[rl | ?] s1] t1]; [| exact I].
  destruct H as (items & Hlen & Hl & Hp).
  cbn [run]. rewrite app_nil_r. exists items. repeat split; try assumption.
  rewrite Hp. apply reports_from_start. lia.
Qed.

Lemma run_training_cell_report (net : Net) (opt : SGD) (loader : list batch) (s : S) :
  match run h (training_cell net opt loader) s with
  | (Ok _, _, tr) =>
      exists items0 items1 : list Q,
        length items0 = length loader /\ length items1 = length loader /\
        losses_read tr = items0 ++ items1 /\
        printed tr = epoch_report 2000 0 items0 ++ epoch_report 2000 1 items1
                     ++ [("Finished Training"%string, [])]
  | (Err _, _, _) => True
  end.
Proof.
  unfold training_cell. cbn [seq for_each]. rewrite !run_bind.
  pose proof (run_training_epoch_report net opt loader 0 s) as H0.
  destruct (run h (training_epoch net opt loader 0 tt) s) as [[[[] | ?] s1] t1];
    [| exact I].
  destruct H0 as (items0 & Hlen0 & Hl0 & Hp0).
  rewrite run_bind.
  pose proof (run_training_epoch_report net opt loader 1 s1) as H1.
  destruct (run h (training_epoch net opt loader 1 tt) s1) as [[[[] | ?] s2] t2];
    [| exact I].
  destruct H1 as (items1 & Hlen1 & Hl1 & Hp1).
  cbn [run trigger].
  destruct (handle h (Print "Finished Training" []) s2) as [[[] | ?] s3]; [| exact I].
  exists items0, items1.
  rewrite !printed_app, !losses_read_app, Hl0, Hl1, Hp0, Hp1.
  cbn. rewrite !app_nil_r. repeat split; try assumption.
  rewrite <- app_assoc. reflexivity.
Qed.

(** X1: what a completed training prints.  Each epoch reads one loss per
    batch; after every 2000th batch of an epoch it prints the epoch, the
    number of the batch and the sum of the last 2000 losses divided by
    2000, and starts the sum again.  The losses of the batches after the
    last full window of an epoch are never reported.  The last line is
    Finished Training. *)
Theorem training_reports_every_2000_batches :
  forall (s : S) (net : Net) (opt : SGD) (loader : list batch),
    outcome (run h (training_cell net opt loader) s) = Ok tt ->
    exists items0 items1 : list Q,
      length items0 = length loader /\ length items1 = length loader /\
      losses_read (trace (run h (training_cell net opt loader) s)) = items0 ++ items1 /\
      printed (trace (run h (training_cell net opt loader) s))
      = epoch_report 2000 0 items0 ++ epoch_report 2000 1 items1
        ++ [("Finished Training"%string, [])].
Proof.
  intros s net opt loader. unfold outcome, trace.
  pose proof (run_training_cell_report net opt loader s) as H.
  destruct (run h (training_cell net opt loader) s) as [[[[] | ?] s1] tr];
    [| discriminate].
  intros _. exact H.
Qed.

(** X2: a training over fewer than 2000 batches reports no loss at all: all
    it prints is Finished Training. *)
Theorem short_loader_reports_nothing :
  forall (s : S) (net : Net) (opt : SGD) (loader : list batch),
    length loader < 2000 ->
    outcome (run h (training_cell net opt loader) s) = Ok tt ->
    printed (trace (run h (training_cell net opt loader) s))
    = [("Finished Training"%string, [])].
Proof.
  intros s net opt loader Hshort. unfold outcome, trace.
  pose proof (run_training_cell_report net opt loader s) as H.
  destruct (run h (training_cell net opt loader) s) as [[[[] | ?] s1] tr];
    [| discriminate].
  intros _. cbn [fst snd]. destruct H as (items0 & items1 & H0 & H1 & _ & ->).
  unfold epoch_report. rewrite H0, H1, Nat.div_small by assumption. reflexivity.
Qed.

(** X3: with no batch to evaluate the evaluation cell divides by zero:
    100 * correct / total raises ZeroDivisionError after the no_grad
    block was entered and left, and nothing is printed. *)
Theorem evaluation_of_no_batches_divides_by_zero :
  forall (s : S) (net : Net),
    outcome (run h (eval_cell net []) s) = Err ZeroDivisionError /\
    trace (run h (eval_cell net []) s) = [EnterNoGrad; ExitNoGrad].
Proof. intros s net. split; reflexivity. Qed.

End TrainingReports.

Lemma training_reports_every_2000_batches_witness :
  exists items0 items1 : list Q,
    length items0 = length ex_long_loader /\ length items1 = length ex_long_loader /\
    losses_read (trace (run stub (TrainingNotebook.training_cell ex_net ex_opt ex_long_loader) tt))
    = items0 ++ items1 /\
    printed (trace (run stub (TrainingNotebook.training_cell ex_net ex_opt ex_long_loader) tt))
    = epoch_report 2000 0 items0 ++ epoch_report 2000 1 items1
      ++ [("Finished Training"%string, [])].
Proof.
  apply (training_reports_every_2000_batches stub tt ex_net ex_opt ex_long_loader).
  vm_compute. reflexivity.
Defined.

Lemma short_loader_reports_nothing_witness :
  printed (trace (run toy_torch
                    (TrainingNotebook.training_cell ex_net ex_opt (fst ex_loaders)) ex_ready))
  = [("Finished Training"%string, [])].
Proof.
  apply (short_loader_reports_nothing toy_torch ex_ready ex_net ex_opt (fst ex_loaders)).
  - vm_compute. lia.
  - vm_compute. reflexivity.
Defined.

(** With 2000 batches each epoch reports once. *)
Example long_run_prints :
  map (fun line => (fst line, firstn 2 (snd line)))
      (printed (trace (run stub (TrainingNotebook.training_cell ex_net ex_opt ex_long_loader) tt)))
  = [("[%d, %5d] loss: %.3f"%string, [PInt 1; PInt 2000]);
     ("[%d, %5d] loss: %.3f"%string, [PInt 2; PInt 2000]);
     ("Finished Training"%string, [])].
Proof. vm_compute. reflexivity. Qed.

(** ** The parameter store *)

Lemma map_update_slot {X : Type} (g : slot -> X) (f : slot -> slot) (h : nat)
    (st : list slot) :
  (forall s, g (f s) = g s) -> map g (update_slot h f st) = map g st.
Proof.
  intros Hf. revert h. induction st as [| s st IH]; intros [| h]; cbn [update_slot map];
    try reflexivity.
  - rewrite Hf. reflexivity.
  - rewrite IH. reflexivity.
Qed.

Lemma map_update_slots {X : Type} (g : slot -> X) (f : slot -> slot) (hs : list nat)
    (st : list slot) :
  (forall s, g (f s) = g s) -> map g (update_slots hs f st) = map g st.
Proof.
  intros Hf. unfold update_slots. revert st.
  induction hs as [| h hs IH]; intros st; cbn [fold_left]; [reflexivity |].
  rewrite IH, map_update_slot by assumption. reflexivity.
Qed.

Lemma map_mapi_from {X : Type} (g : slot -> X) (f : nat -> slot -> slot) (st : list slot) :
  (forall i s, g (f i s) = g s) -> forall i, map g (mapi_from i f st) = map g st.
Proof.
  intros Hf. induction st as [| s st IH]; intros i; cbn [mapi_from map]; [reflexivity |].
  rewrite Hf, IH. reflexivity.
Qed.

Lemma param_of_values (w w' : world) :
  map p_value (w_store w') = map p_value (w_store w) ->
  forall hd, param w' hd = param w hd.
Proof.
  intros H hd. unfold param. rewrite <- !nth_error_map, H. reflexivity.
Qed.

Section Stores.
Import TrainingNotebook.
Context {K : Kernels}.

Lemma resident_of_layout (w w' : world) (net : Net) (d : device) :
  store_layout w' = store_layout w -> resident w net d -> resident w' net d.
Proof.
  unfold resident, store_layout. intros Hl Hres.
  eapply Forall_impl; [| exact Hres]. intros hd (t & Ht & Hd).
  unfold param in *.
  assert (Hn : nth_error (map slot_layout (w_store w')) hd
               = nth_error (map slot_layout (w_store w)) hd) by (rewrite Hl; reflexivity).
  rewrite !nth_error_map in Hn.
  destruct (nth_error (w_store w) hd) as [s |]; [| discriminate].
  destruct (nth_error (w_store w') hd) as [s' |]; [| discriminate].
  cbn in *. injection Ht as <-. injection Hn as Hdev _ _.
  exists (p_value s'). split; [reflexivity | congruence].
Qed.

Lemma sgd_update_layout (opt : SGD) (s : slot) : slot_layout (sgd_update opt s) = slot_layout s.
Proof. unfold sgd_update. destruct (p_grad s); reflexivity. Qed.

Lemma training_call_keeps_layout (c : call) (w : world) :
  is_training_call c = true -> store_layout (snd (torch_handle c w)) = store_layout w.
Proof.
  unfold store_layout.
  destruct c; cbn [is_training_call is_forward_call]; intros H; try discriminate H;
    cbn [torch_handle pure_call snd]; try reflexivity.
  - destruct (negb (t_requires_grad loss)); [reflexivity |].
    destruct (negb (numel (t_shape loss) =? 1)); [reflexivity |].
    cbn [snd set_store w_store]. unfold accumulate_grads, mapi.
    apply map_mapi_from. reflexivity.
  - cbn [snd set_store w_store]. apply map_update_slots. reflexivity.
  - cbn [snd set_store w_store]. apply map_update_slots. apply sgd_update_layout.
Qed.

Lemma torch_run_keeps_layout {A : Type} (p : prog A) :
  only_calls (fun c => is_training_call c = true) p ->
  forall w, store_layout (final (run torch p w)) = store_layout w.
Proof.
  intros Hp. unfold final.
  induction Hp as [A a | A e | A c k Hc Hk IH | A B body k Hbody IHbody Hk IH];
    intros w; cbn [run].
  - reflexivity.
  - reflexivity.
  - change (handle torch c w) with (torch_handle c w).
    pose proof (training_call_keeps_layout c w Hc) as Hs.
    destruct (torch_handle c w) as [[v | e] w1]; cbn [fst snd] in *; [| assumption].
    specialize (IH v w1). destruct (run torch (k v) w1) as [[r w2] tr]; cbn [fst snd] in *.
    congruence.
  - change (set_grad_enabled torch false w) with (set_grad_mode false w).
    change (grad_enabled torch w) with (w_grad_mode w).
    specialize (IHbody (set_grad_mode false w)).
    destruct (run torch body (set_grad_mode false w)) as [[[b | e] w1] t1];
      cbn [fst snd] in *.
    + change (set_grad_enabled torch (w_grad_mode w) w1)
        with (set_grad_mode (w_grad_mode w) w1).
      specialize (IH b (set_grad_mode (w_grad_mode w) w1)).
      destruct (run torch (k b) (set_grad_mode (w_grad_mode w) w1)) as [[r w3] t2];
        cbn [fst snd] in *.
      rewrite IH. exact IHbody.
    + exact IHbody.
Qed.

Lemma training_step_calls (net : Net) (opt : SGD) (epoch : nat) (ib : nat * batch)
    (running_loss : Q) :
  only_calls (fun c => is_training_call c = true) (training_step net opt epoch ib running_loss).
Proof.
  unfold training_step.
  apply only_calls_bind; [apply only_calls_trigger; reflexivity | intros ?].
  apply only_calls_bind.
  - apply (only_calls_weaken (fun c => is_forward_call c = true)).
    + intros c Hc. destruct c; cbn in *; congruence.
    + apply forward_reads_only.
  - intros ?.
    repeat (apply only_calls_bind; [apply only_calls_trigger; reflexivity | intros ?]).
    destruct (fst ib mod 2000 =? 1999).
    + apply only_calls_bind; [| intros ?; constructor].
      exact (only_calls_trigger _ (Print _ _) eq_refl).
    + constructor.
Qed.

Lemma training_cell_calls (net : Net) (opt : SGD) (loader : list batch) :
  only_calls (fun c => is_training_call c = true) (training_cell net opt loader).
Proof.
  unfold training_cell.
  apply only_calls_bind.
  - apply only_calls_for_each. intros epoch []. unfold training_epoch.
    apply only_calls_bind; [| intros ?; constructor].
    apply only_calls_for_each. intros; apply training_step_calls.
  - intros ?. exact (only_calls_trigger _ (Print _ _) eq_refl).
Qed.

(** X5: training changes the values of the parameters and nothing else about
    them: whatever the outcome of the training cell, every parameter in
    the store keeps its device, its type and its shape, so a network that
    was on a device before the training is on it afterwards. *)
Theorem training_keeps_the_network_in_place :
  forall (w : world) (net : Net) (opt : SGD) (loader : list batch) (d : device),
    resident w net d ->
    store_layout (final (run torch (training_cell net opt loader) w)) = store_layout w /\
    resident (final (run torch (training_cell net opt loader) w)) net d.
Proof.
  intros w net opt loader d Hres.
  pose proof (torch_run_keeps_layout _ (training_cell_calls net opt loader) w) as Hl.
  split; [exact Hl |]. exact (resident_of_layout _ _ net d Hl Hres).
Qed.

End Stores.

Lemma training_keeps_the_network_in_place_witness :
  store_layout (final (run toy_torch
                         (TrainingNotebook.training_cell ex_net ex_opt (fst ex_loaders)) ex_ready))
  = store_layout ex_ready /\
  TrainingNotebook.resident
    (final (run toy_torch
              (TrainingNotebook.training_cell ex_net ex_opt (fst ex_loaders)) ex_ready))
    ex_net CUDA.
Proof.
  apply (@training_keeps_the_network_in_place toy_kernels).
  apply residentb_resident. vm_compute. reflexivity.
Defined.

(** * The grad mode during the evaluation *)

Section GradMode.
Import TrainingNotebook.
Context {K : Kernels}.

Lemma torch_handle_keeps_grad_mode (c : call) (w : world) :
  w_grad_mode (snd (torch_handle c w)) = w_grad_mode w.
Proof.
  destruct c; cbn [torch_handle pure_call snd]; try reflexivity;
    unfold new_param, advance_rng;
    repeat match goal with
           | |- context [match ?x with _ => _ end] => destruct x; cbn [snd]
           | |- context [if ?x then _ else _] => destruct x; cbn [snd]
           end; reflexivity.
Qed.

Lemma torch_run_keeps_grad_mode {A : Type} (p : prog A) :
  forall w, w_grad_mode (final (run torch p w)) = w_grad_mode w.
Proof.
  unfold final.
  induction p as [A a | A e | A c k IH | A B body IHbody k IH
                  | A B body IHbody on_error IHerr k IH]; intros w; cbn [run].
  - reflexivity.
  - reflexivity.
  - change (handle torch c w) with (torch_handle c w).
    pose proof (torch_handle_keeps_grad_mode c w) as Hs.
    destruct (torch_handle c w) as [[v | e] w1]; cbn [fst snd] in *; [| assumption].
    specialize (IH v w1). destruct (run torch (k v) w1) as [[r w2] tr]; cbn [fst snd] in *.
    congruence.
  - change (set_grad_enabled torch false w) with (set_grad_mode false w).
    change (grad_enabled torch w) with (w_grad_mode w).
    destruct (run torch body (set_grad_mode false w)) as [[[b | e] w1] t1];
      cbn [fst snd] in *.
    + change (set_grad_enabled torch (w_grad_mode w) w1)
        with (set_grad_mode (w_grad_mode w) w1).
      specialize (IH b (set_grad_mode (w_grad_mode w) w1)).
      destruct (run torch (k b) (set_grad_mode (w_grad_mode w) w1)) as [[r w3] t2];
        cbn [fst snd] in *.
      rewrite IH. reflexivity.
    + reflexivity.
  - specialize (IHbody w).
    destruct (run torch body w) as [[[b | e] w1] t1]; cbn [fst snd] in *.
    + specialize (IH b w1). destruct (run torch (k b) w1) as [[r w2] t2];
        cbn [fst snd] in *. congruence.
    + specialize (IHerr e w1).
      destruct (run torch (on_error e) w1) as [[[b | e'] w2] t2]; cbn [fst snd] in *.
      * specialize (IH b w2). destruct (run torch (k b) w2) as [[r w3] t3];
          cbn [fst snd] in *. congruence.
      * congruence.
Qed.

Lemma torch_answers_without_grad (c : call) (w : world) :
  w_grad_mode w = false -> answers_without_grad (Called c (fst (torch_handle c w))).
Proof.
  intros Hg.
  destruct c; cbn [answers_without_grad torch_handle pure_call fst]; try exact I;
    try match goal with
        | |- match ?r with Ok _ => _ | Err _ => True end =>
            destruct r as [y |] eqn:E; [| exact I];
            unfold layer_call, cross_entropy in E;
            repeat match type of E with
                   | context [match ?x with _ => _ end] => destruct x; try discriminate E
                   end;
            injection E as <-
        end;
    cbn [track t_requires_grad]; rewrite Hg; reflexivity.
Qed.

Lemma torch_trace_without_grad {A : Type} (p : prog A) :
  forall w, w_grad_mode w = false -> Forall answers_without_grad (trace (run torch p w)).
Proof.
  unfold trace.
  induction p as [A a | A e | A c k IH | A B body IHbody k IH
                  | A B body IHbody on_error IHerr k IH]; intros w Hg; cbn [run].
  - constructor.
  - constructor.
  - change (handle torch c w) with (torch_handle c w).
    pose proof (torch_handle_keeps_grad_mode c w) as Hs.
    pose proof (torch_answers_without_grad c w Hg) as Ha.
    destruct (torch_handle c w) as [[v | e] w1]; cbn [fst snd] in *.
    + specialize (IH v w1 (eq_trans Hs Hg)).
      destruct (run torch (k v) w1) as [[r w2] tr]; cbn [fst snd] in *.
      constructor; assumption.
    + constructor; [assumption | constructor].
  - change (set_grad_enabled torch false w) with (set_grad_mode false w).
    change (grad_enabled torch w) with (w_grad_mode w).
    specialize (IHbody (set_grad_mode false w) eq_refl).
    destruct (run torch body (set_grad_mode false w)) as [[[b | e] w1] t1];
      cbn [fst snd] in *.
    + change (set_grad_enabled torch (w_grad_mode w) w1)
        with (set_grad_mode (w_grad_mode w) w1).
      specialize (IH b (set_grad_mode (w_grad_mode w) w1) Hg).
      destruct (run torch (k b) (set_grad_mode (w_grad_mode w) w1)) as [[r w3] t2];
        cbn [fst snd] in *.
      constructor; [exact I |]. apply Forall_app. split; [assumption |].
      constructor; [exact I | assumption].
    + constructor; [exact I |]. apply Forall_app. split; [assumption |].
      repeat constructor.
  - specialize (IHbody w Hg).
    pose proof (torch_run_keeps_grad_mode body w) as Hb. unfold final in Hb.
    destruct (run torch body w) as [[[b | e] w1] t1]; cbn [fst snd] in *.
    + specialize (IH b w1 (eq_trans Hb Hg)).
      destruct (run torch (k b) w1) as [[r w2] t2]; cbn [fst snd] in *.
      apply Forall_app. split; assumption.
    + specialize (IHerr e w1 (eq_trans Hb Hg)).
      pose proof (torch_run_keeps_grad_mode (on_error e) w1) as He. unfold final in He.
      destruct (run torch (on_error e) w1) as [[[b | e'] w2] t2]; cbn [fst snd] in *.
      * specialize (IH b w2 (eq_trans He (eq_trans Hb Hg))).
        destruct (run torch (k b) w2) as [[r w3] t3]; cbn [fst snd] in *.
        apply Forall_app. split; [assumption |].
        apply Forall_app. split; assumption.
      * apply Forall_app. split; assumption.
Qed.

(** X6: the evaluation runs outside autograd and puts the grad mode back: after
    the cell the grad mode is what it was before, and every tensor a
    layer, a pooling or an activation answered during the cell does not
    require grad. *)
Theorem evaluation_records_no_graph :
  forall (w : world) (net : Net) (testloader : list batch),
    w_grad_mode (final (run torch (eval_cell net testloader) w)) = w_grad_mode w /\
    Forall answers_without_grad (trace (run torch (eval_cell net testloader) w)).
Proof.
  intros w net testloader. split; [apply torch_run_keeps_grad_mode |].
  unfold eval_cell, trace. cbn [bind run].
  change (set_grad_enabled torch false w) with (set_grad_mode false w).
  change (grad_enabled torch w) with (w_grad_mode w).
  pose proof (torch_trace_without_grad (for_each testloader (eval_step net) (0%Q, 0))
                (set_grad_mode false w) eq_refl) as Hb.
  unfold trace in Hb.
  destruct (run torch (for_each testloader (eval_step net) (0%Q, 0)) (set_grad_mode false w))
    as [[[ct | e] w1] t1]; cbn [fst snd] in *.
  - unfold true_div.
    destruct (Qeq_bool (inject_Z (Z.of_nat (snd ct))) 0); cbn [bind run trigger].
    + constructor; [exact I |]. apply Forall_app. split; [assumption |].
      repeat constructor.
    + match goal with
      | |- context [handle torch ?c ?s0] => destruct (handle torch c s0) as [[[] | ?] ?]
      end; cbn [snd];
        (constructor; [exact I |]; apply Forall_app; split; [assumption |];
         repeat constructor).
  - constructor; [exact I |]. apply Forall_app. split; [assumption |].
    repeat constructor.
Qed.

End GradMode.

(** * The cell that builds the network *)

Lemma update_slot_appended (f : slot -> slot) (st l : list slot) (i : nat) :
  update_slot (length st + i) f (st ++ l) = st ++ update_slot i f l.
Proof.
  induction st as [| s st IH]; cbn [length Nat.add app update_slot].
  - destruct l; reflexivity.
  - rewrite IH. reflexivity.
Qed.

Lemma update_slots_appended (f : slot -> slot) (st : list slot) (hs : list nat) :
  forall l, update_slots (map (Nat.add (length st)) hs) f (st ++ l)
            = st ++ update_slots hs f l.
Proof.
  unfold update_slots.
  induction hs as [| i hs IH]; intros l; cbn [map fold_left]; [reflexivity |].
  rewrite update_slot_appended. apply IH.
Qed.

Section NetCell.
Import TrainingNotebook.
Context {K : Kernels}.

Lemma torch_new_conv2d (w : world) (cin cout k : nat) :
  exists (w' : world) (sw sb : slot),
    torch_handle (NewConv2d cin cout k) w
    = (Ok (mkConv2d cin cout k (length (w_store w)) (Datatypes.S (length (w_store w)))), w') /\
    w_store w' = w_store w ++ [sw; sb] /\
    slot_layout sw = (CPU, Float32, [cout; cin; k; k]) /\
    slot_layout sb = (CPU, Float32, [cout]) /\
    w_cuda w' = w_cuda w /\
    t_requires_grad (p_value sw) = true /\ t_requires_grad (p_value sb) = true.
Proof.
  cbn [torch_handle]. unfold new_param. cbn [w_store set_store set_rng w_rng].
  rewrite last_length, <- app_assoc. cbn [app].
  do 3 eexists. repeat split.
Qed.

Lemma torch_new_linear (w : world) (fin fout : nat) :
  exists (w' : world) (sw sb : slot),
    torch_handle (NewLinear fin fout) w
    = (Ok (mkLinear fin fout (length (w_store w)) (Datatypes.S (length (w_store w)))), w') /\
    w_store w' = w_store w ++ [sw; sb] /\
    slot_layout sw = (CPU, Float32, [fout; fin]) /\
    slot_layout sb = (CPU, Float32, [fout]) /\
    w_cuda w' = w_cuda w /\
    t_requires_grad (p_value sw) = true /\ t_requires_grad (p_value sb) = true.
Proof.
  cbn [torch_handle]. unfold new_param. cbn [w_store set_store set_rng w_rng].
  rewrite last_length, <- app_assoc. cbn [app].
  do 3 eexists. repeat split.
Qed.

Ltac torch_new E :=
  rewrite run_bind, run_trigger;
  change (handle torch ?c ?w0) with (torch_handle c w0);
  rewrite E; cbv beta iota.

Lemma torch_net_init (w : world) :
  exists (net : Net) (w' : world) (tr : list entry) (new : list slot),
    run torch Net_init w = (Ok net, w', tr) /\
    Net_layout net /\
    Net_parameters net = map (Nat.add (length (w_store w))) (seq 0 10) /\
    w_store w' = w_store w ++ new /\
    map slot_layout new = net_layouts CPU /\
    w_cuda w' = w_cuda w /\
    Forall (fun s => t_requires_grad (p_value s) = true) new.
Proof.
  destruct (torch_new_conv2d w 3 6 5)
    as (w1 & a0 & a1 & E1 & S1 & La0 & La1 & C1 & Ga0 & Ga1).
  destruct (torch_new_conv2d w1 6 16 5)
    as (w2 & a2 & a3 & E2 & S2 & La2 & La3 & C2 & Ga2 & Ga3).
  destruct (torch_new_linear w2 (16 * 5 * 5) 120)
    as (w3 & a4 & a5 & E3 & S3 & La4 & La5 & C3 & Ga4 & Ga5).
  destruct (torch_new_linear w3 120 84)
    as (w4 & a6 & a7 & E4 & S4 & La6 & La7 & C4 & Ga6 & Ga7).
  destruct (torch_new_linear w4 84 10)
    as (w5 & a8 & a9 & E5 & S5 & La8 & La9 & C5 & Ga8 & Ga9).
  eexists. exists w5. eexists. exists [a0; a1; a2; a3; a4; a5; a6; a7; a8; a9].
  split; [| split; [| split; [| split; [| split; [| split]]]]].
  - unfold Net_init. torch_new E1.
    rewrite run_bind, run_trigger.
    change (handle torch ?c ?w0) with (torch_handle c w0). cbn [torch_handle].
    cbv beta iota.
    torch_new E2. torch_new E3. torch_new E4. torch_new E5.
    cbn [run app]. reflexivity.
  - reflexivity.
  - unfold Net_parameters.
    cbn [conv1 conv2 fc1 fc2 fc3 conv_weight conv_bias lin_weight lin_bias].
    rewrite S4, S3, S2, S1, !length_app. cbn [length map seq].
    repeat (apply f_equal2; [lia |]). reflexivity.
  - rewrite S5, S4, S3, S2, S1, <- !app_assoc. reflexivity.
  - cbn [map]. rewrite La0, La1, La2, La3, La4, La5, La6, La7, La8, La9. reflexivity.
  - congruence.
  - repeat constructor; assumption.
Qed.

Lemma torch_net_cell :
  forall w : world,
    w_cuda w = true ->
    exists (net : Net) (w' : world) (tr : list entry) (new : list slot),
      run torch net_cell w = (Ok net, w', tr) /\
      Net_layout net /\
      Net_parameters net = map (Nat.add (length (w_store w))) (seq 0 10) /\
      w_store w' = w_store w ++ new /\
      map slot_layout new = net_layouts CUDA /\
      trainable w' net CUDA.
Proof.
  intros w Hcuda.
  destruct (torch_net_init w)
    as (net & w1 & tr & new & Hrun & Hlay & Hpar & Hst & Hnew & Hc & Hg).
  assert (Hlen : length new = 10).
  { rewrite <- (length_map slot_layout), Hnew. reflexivity. }
  unfold net_cell. rewrite run_bind, Hrun. cbv beta iota.
  rewrite run_bind, run_trigger.
  change (handle torch ?c ?w0) with (torch_handle c w0). cbn [torch_handle].
  rewrite Hc, Hcuda, Hpar, Hst, update_slots_appended. cbv beta iota. cbn [run app].
  destruct new as [| s0 [| s1 [| s2 [| s3 [| s4 [| s5 [| s6 [| s7 [| s8 [| s9 [| ? ?]]]]]]]]]]];
    try discriminate Hlen.
  exists net. do 2 eexists. exists (map (move_param CUDA) [s0; s1; s2; s3; s4; s5; s6; s7; s8; s9]).
  split; [reflexivity |]. split; [assumption |]. split; [exact Hpar |].
  split; [reflexivity |]. split.
  - cbn [map] in *. injection Hnew as H0 H1 H2 H3 H4 H5 H6 H7 H8 H9.
    unfold slot_layout in *. cbn [move_param p_value t_device t_dtype t_shape].
    unfold net_layouts. cbn [map].
    repeat match goal with
           | H : (_, _, _) = (_, _, _) |- _ => injection H as _ ? ?
           end.
    repeat f_equal; congruence.
  - unfold trainable. rewrite Hpar. apply Forall_forall. intros hd Hin.
    apply in_map_iff in Hin. destruct Hin as (i & <- & Hi). apply in_seq in Hi.
    unfold param. cbn [w_store set_store].
    rewrite nth_error_app2 by lia.
    replace (length (w_store w) + i - length (w_store w)) with i by lia.
    repeat match goal with
           | H : Forall _ (_ :: _) |- _ =>
               pose proof (Forall_inv H); apply Forall_inv_tail in H
           end.
    do 10 (destruct i as [| i];
           [eexists; split; [reflexivity |]; split; [reflexivity | assumption] |]).
    lia.
Qed.

Lemma trainable_resident (w : world) (net : Net) (d : device) :
  trainable w net d -> resident w net d.
Proof.
  unfold trainable, resident. intros H. eapply Forall_impl; [| exact H].
  intros hd (t & Ht & Hd & _). exists t. split; assumption.
Qed.

(** X7: on a machine with an accelerator the cell that builds the network
    completes: it adds ten parameters to the store (the weights and biases
    of conv1, conv2, fc1, fc2 and fc3, in the order of net.parameters()),
    the parameters already there stay as they are, and every parameter of
    the network is on the accelerator. *)
Theorem net_cell_builds_resident_network :
  forall w : world,
    w_cuda w = true ->
    exists (net : Net) (w' : world) (tr : list entry) (new : list slot),
      run torch net_cell w = (Ok net, w', tr) /\
      Net_layout net /\
      Net_parameters net = map (Nat.add (length (w_store w))) (seq 0 10) /\
      w_store w' = w_store w ++ new /\
      map slot_layout new = net_layouts CUDA /\
      resident w' net CUDA.
Proof.
  intros w Hcuda.
  destruct (torch_net_cell w Hcuda)
    as (net & w' & tr & new & Hrun & Hlay & Hpar & Hst & Hnew & Htr).
  exists net, w', tr, new. repeat split; try assumption.
  apply trainable_resident. exact Htr.
Qed.

(** X8: the network the cell builds accepts a batch of pictures that is on the
    accelerator: its forward pass answers one row of ten logits per
    picture, on the accelerator. *)
Theorem network_on_accelerator_accepts_accelerator_images :
  forall (w : world) (x : tensor) (n : nat),
    w_cuda w = true ->
    float_on CUDA [n; 3; 32; 32] x ->
    exists y : tensor,
      outcome (run torch (bind net_cell (fun net => Net_forward net x)) w) = Ok y /\
      float_on CUDA [n; 10] y.
Proof.
  intros w x n Hcuda Hx.
  destruct (torch_net_cell w Hcuda)
    as (net & w' & tr & new & Hrun & Hlay & _ & _ & _ & Htr).
  destruct (torch_forward w' net x CUDA n Hlay (trainable_resident _ _ _ Htr) Hx)
    as (y & ftr & Hf & Hy & _).
  exists y. unfold outcome. rewrite run_bind, Hrun. cbv beta iota. rewrite Hf.
  split; [reflexivity | assumption].
Qed.

End NetCell.

Lemma net_cell_builds_resident_network_witness :
  exists (net : TrainingNotebook.Net) (w' : world) (tr : list entry) (new : list slot),
    run toy_torch TrainingNotebook.net_cell ex_world = (Ok net, w', tr) /\
    TrainingNotebook.Net_layout net /\
    TrainingNotebook.Net_parameters net = map (Nat.add (length (w_store ex_world))) (seq 0 10) /\
    w_store w' = w_store ex_world ++ new /\
    map slot_layout new = net_layouts CUDA /\
    TrainingNotebook.resident w' net CUDA.
Proof.
  apply (@net_cell_builds_resident_network toy_kernels ex_world). reflexivity.
Defined.

Lemma network_on_accelerator_accepts_accelerator_images_witness :
  exists y : tensor,
    outcome (run toy_torch
               (bind TrainingNotebook.net_cell
                  (fun net => TrainingNotebook.Net_forward net ex_images)) ex_world) = Ok y /\
    TrainingNotebook.float_on CUDA [2; 10] y.
Proof.
  apply (@network_on_accelerator_accepts_accelerator_images toy_kernels ex_world ex_images 2).
  - reflexivity.
  - repeat split.
Defined.

(** * Batches on another device *)

Section DeviceMismatch.
Import TrainingNotebook.
Context {K : Kernels}.

Lemma device_eqb_neq (a b : device) : a <> b -> device_eqb a b = false.
Proof. destruct a, b; cbn; congruence. Qed.

Lemma conv1_rejects_other_device (w : world) (net : Net) (x : tensor) (d : device) :
  resident w net d -> t_dtype x = Float32 -> t_device x <> d ->
  torch_handle (Conv2dCall (conv1 net) x) w = (Err conv_type_error, w).
Proof.
  intros Hres Ht Hd. unfold resident, Net_parameters in Hres.
  destruct (Forall_inv Hres) as (wt & Hwt & Hdw).
  destruct (Forall_inv (Forall_inv_tail Hres)) as (bs & Hbs & Hdb).
  cbn [torch_handle]. unfold layer_call.
  rewrite Hwt, Hbs, Ht, Hdw. cbn [dtype_eqb negb].
  rewrite (device_eqb_neq _ _ Hd). reflexivity.
Qed.

(** X9: the training loop moves nothing itself: a first batch of float
    pictures of the right shape that are not on the device of the network
    stops the training at the first layer.  The gradients were zeroed,
    conv1 raises the RuntimeError a convolution has for an input that is
    not of the type of its weight, no other call is made and no parameter
    has changed its value. *)
Theorem training_rejects_batches_on_another_device :
  forall (w : world) (net : Net) (opt : SGD) (b : batch) (rest : list batch)
         (d d' : device) (n : nat),
    Net_layout net ->
    resident w net d ->
    float_on d' [n; 3; 32; 32] (fst b) ->
    d' <> d ->
    outcome (run torch (training_cell net opt (b :: rest)) w)
    = Err (RuntimeError "Input type and weight type should be the same") /\
    trace (run torch (training_cell net opt (b :: rest)) w)
    = [Called (ZeroGrad opt) (Ok tt);
       Called (Conv2dCall (conv1 net) (fst b))
         (Err (RuntimeError "Input type and weight type should be the same"))] /\
    map p_value (w_store (final (run torch (training_cell net opt (b :: rest)) w)))
    = map p_value (w_store w).
Proof.
  intros w net opt b rest d d' n _ Hres (Hdev & Ht & _) Hd.
  rewrite <- Hdev in Hd.
  set (w1 := set_store (update_slots (sgd_params opt)
                          (fun s => mkSlot (p_value s) None (p_buf s)) (w_store w)) w).
  assert (Hval : map p_value (w_store w1) = map p_value (w_store w))
    by (apply map_update_slots; reflexivity).
  assert (Hres1 : resident w1 net d).
  { unfold resident in *. eapply Forall_impl; [| exact Hres].
    intros hd H. rewrite (param_of_values w w1 Hval hd). exact H. }
  pose proof (conv1_rejects_other_device w1 net (fst b) d Hres1 Ht Hd) as Hconv.
  assert (Hrun : run torch (training_cell net opt (b :: rest)) w
                 = (Err conv_type_error, w1,
                    [Called (ZeroGrad opt) (Ok tt);
                     Called (Conv2dCall (conv1 net) (fst b)) (Err conv_type_error)])).
  { unfold training_cell, training_epoch.
    cbn [seq for_each enumerate_from]. unfold training_step at 1. cbn [fst snd].
    unfold Net_forward.
    rewrite !run_bind, run_trigger.
    change (handle torch ?c ?w0) with (torch_handle c w0). cbn [torch_handle].
    fold w1. cbv beta iota.
    rewrite !run_bind, run_trigger.
    change (handle torch ?c ?w0) with (torch_handle c w0).
    rewrite Hconv. reflexivity. }
  unfold outcome, trace, final. rewrite Hrun. cbn [fst snd].
  repeat split. exact Hval.
Qed.

End DeviceMismatch.

Lemma training_rejects_batches_on_another_device_witness :
  outcome (run toy_torch
             (TrainingNotebook.training_cell ex_net ex_opt [(ex_host_images, blank)]) ex_ready)
  = Err (RuntimeError "Input type and weight type should be the same") /\
  trace (run toy_torch
           (TrainingNotebook.training_cell ex_net ex_opt [(ex_host_images, blank)]) ex_ready)
  = [Called (ZeroGrad ex_opt) (Ok tt);
     Called (Conv2dCall (TrainingNotebook.conv1 ex_net) ex_host_images)
       (Err (RuntimeError "Input type and weight type should be the same"))] /\
  map p_value
    (w_store (final (run toy_torch
                       (TrainingNotebook.training_cell ex_net ex_opt
                          [(ex_host_images, blank)])
                       ex_ready)))
  = map p_value (w_store ex_ready).
Proof.
  apply (@training_rejects_batches_on_another_device toy_kernels ex_ready ex_net ex_opt
           (ex_host_images, blank) [] CUDA CPU 2).
  - reflexivity.
  - apply residentb_resident. vm_compute. reflexivity.
  - repeat split.
  - discriminate.
Defined.

(** * Machines without accelerator *)

Section NoAccelerator.
Import TrainingNotebook.
Context {K : Kernels}.

Lemma torch_handle_keeps_fault (c : call) (w : world) :
  w_cuda_fault (snd (torch_handle c w)) = w_cuda_fault w.
Proof.
  destruct c; cbn [torch_handle pure_call snd]; try reflexivity;
    unfold new_param, advance_rng;
    repeat match goal with
           | |- context [match ?x with _ => _ end] => destruct x; cbn [snd]
           | |- context [if ?x then _ else _] => destruct x; cbn [snd]
           end; reflexivity.
Qed.

Lemma torch_run_keeps_fault {A : Type} (p : prog A) :
  only_calls (fun _ => True) p ->
  forall (w w' : world) (r : result A) (tr : list entry),
    run torch p w = (r, w', tr) -> w_cuda_fault w' = w_cuda_fault w.
Proof.
  intros Hp.
  induction Hp as [A a | A e | A c k Hc Hk IH | A B body k Hbody IHbody Hk IH];
    intros w w' r tr; cbn [run].
  - intros H. injection H as _ <- _. reflexivity.
  - intros H. injection H as _ <- _. reflexivity.
  - change (handle torch c w) with (torch_handle c w).
    pose proof (torch_handle_keeps_fault c w) as Hs.
    destruct (torch_handle c w) as [[v | e] w1]; cbn [fst snd] in *.
    + specialize (IH v w1). destruct (run torch (k v) w1) as [[r2 w2] t2].
      intros H. injection H as _ <- _. rewrite (IH w2 r2 t2 eq_refl). exact Hs.
    + intros H. injection H as _ <- _. exact Hs.
  - change (set_grad_enabled torch false w) with (set_grad_mode false w).
    change (grad_enabled torch w) with (w_grad_mode w).
    specialize (IHbody (set_grad_mode false w)).
    destruct (run torch body (set_grad_mode false w)) as [[[b | e] w1] t1].
    + change (set_grad_enabled torch (w_grad_mode w) w1)
        with (set_grad_mode (w_grad_mode w) w1).
      specialize (IH b (set_grad_mode (w_grad_mode w) w1)).
      destruct (run torch (k b) (set_grad_mode (w_grad_mode w) w1)) as [[r2 w3] t2].
      intros H. injection H as _ <- _.
      rewrite (IH w3 r2 t2 eq_refl). cbn [set_grad_mode w_cuda_fault].
      rewrite (IHbody w1 (Ok b) t1 eq_refl). reflexivity.
    + intros H. injection H as _ <- _.
      change (set_grad_enabled torch (w_grad_mode w) w1)
        with (set_grad_mode (w_grad_mode w) w1).
      cbn [set_grad_mode w_cuda_fault].
      rewrite (IHbody w1 (Err e) t1 eq_refl). reflexivity.
Qed.

Lemma Net_init_calls : only_calls (fun _ => True) Net_init.
Proof.
  unfold Net_init.
  repeat (apply only_calls_bind; [apply only_calls_trigger; exact I | intros ?]).
  constructor.
Qed.

(** X10: the notebook names the device 'cuda' without asking whether there
    is one.  On a machine without accelerator the device cell still
    completes, and [Net()] builds the network on the host; the move
    [.to('cuda')] is the call that raises, and what it raises is the
    outcome of the cell: the AssertionError of a torch built without CUDA,
    or the RuntimeError of a torch that finds no driver or no device. *)
Theorem cells_need_an_accelerator :
  forall w : world,
    w_cuda w = false ->
    outcome (run torch device_cell w) = Ok CUDA /\
    exists net : Net,
      outcome (run torch Net_init w) = Ok net /\
      trace (run torch net_cell w)
      = trace (run torch Net_init w)
        ++ [Called (ModuleTo (Net_parameters net) CUDA) (Err (no_cuda (w_cuda_fault w)))] /\
      outcome (run torch net_cell w) = Err (no_cuda (w_cuda_fault w)).
Proof.
  intros w Hcuda.
  split; [reflexivity |].
  destruct (torch_net_init w)
    as (net & w1 & tr & new & Hrun & _ & _ & _ & _ & Hc & _).
  pose proof (torch_run_keeps_fault Net_init Net_init_calls w w1 (Ok net) tr Hrun)
    as Hfault.
  exists net. unfold outcome, trace, net_cell.
  rewrite run_bind, Hrun. cbv beta iota.
  rewrite run_bind, run_trigger.
  change (handle torch ?c ?w0) with (torch_handle c w0). cbn [torch_handle].
  rewrite Hc, Hcuda, Hfault. repeat split.
Qed.

End NoAccelerator.

Lemma cells_need_an_accelerator_witness :
  outcome (run toy_torch TrainingNotebook.device_cell ex_small_world) = Ok CUDA /\
  exists net : TrainingNotebook.Net,
    outcome (run toy_torch TrainingNotebook.Net_init ex_small_world) = Ok net /\
    trace (run toy_torch TrainingNotebook.net_cell ex_small_world)
    = trace (run toy_torch TrainingNotebook.Net_init ex_small_world)
      ++ [Called (ModuleTo (TrainingNotebook.Net_parameters net) CUDA)
            (Err (AssertionError "Torch not compiled with CUDA enabled"))] /\
    outcome (run toy_torch TrainingNotebook.net_cell ex_small_world)
    = Err (AssertionError "Torch not compiled with CUDA enabled").
Proof.
  apply (@cells_need_an_accelerator toy_kernels ex_small_world). reflexivity.
Defined.

(** * Training a network the cells built *)

Lemma class_index_in_range (l : nat) :
  l < 10 ->
  Qle_bool 0 (class_index l) && negb (Qle_bool (inject_Z (Z.of_nat 10)) (class_index l))
  = true.
Proof.
  intros Hl. unfold class_index, Qle_bool. cbn [Qnum Qden inject_Z].
  rewrite !Z.mul_1_r.
  destruct (Z.leb_spec 0 (Z.of_nat l)); [| lia].
  destruct (Z.leb_spec (Z.of_nat 10) (Z.of_nat l)); [lia | reflexivity].
Qed.

Lemma trainableb_trainable (w : world) (net : TrainingNotebook.Net) (d : device) :
  trainableb w net d = true -> trainable w net d.
Proof.
  unfold trainableb, trainable. rewrite forallb_forall, Forall_forall.
  intros H hd Hin. specialize (H hd Hin).
  destruct (param w hd) as [t |]; [| discriminate].
  apply andb_true_iff in H. destruct H as [Hd Hg].
  exists t. split; [reflexivity |]. split; [apply device_eqb_eq; exact Hd | exact Hg].
Qed.

Section TrainingRuns.
Import TrainingNotebook.
Context {K : Kernels}.

Lemma trainable_of_tracking (w w' : world) (net : Net) (d : device) :
  map slot_tracking (w_store w') = map slot_tracking (w_store w) ->
  trainable w net d -> trainable w' net d.
Proof.
  unfold trainable. intros Hl Htr.
  eapply Forall_impl; [| exact Htr]. intros hd (t & Ht & Hd & Hg).
  unfold param in *.
  assert (Hn : nth_error (map slot_tracking (w_store w')) hd
               = nth_error (map slot_tracking (w_store w)) hd) by (rewrite Hl; reflexivity).
  rewrite !nth_error_map in Hn.
  destruct (nth_error (w_store w) hd) as [s |]; [| discriminate].
  destruct (nth_error (w_store w') hd) as [s' |]; [| discriminate].
  cbn in *. injection Ht as <-. injection Hn as Hdev Hgrad.
  exists (p_value s'). split; [reflexivity |]. split; congruence.
Qed.

Lemma sgd_update_tracking (opt : SGD) (s : slot) :
  slot_tracking (sgd_update opt s) = slot_tracking s.
Proof. unfold sgd_update. destruct (p_grad s); reflexivity. Qed.

(** The last layer of a trainable network answers logits that autograd
    follows. *)
Lemma linear_call_tracked (w : world) (l : Linear) (x : tensor) (d : device) (n f : nat) :
  w_grad_mode w = true ->
  (exists t, param w (lin_weight l) = Some t /\ t_device t = d /\ t_requires_grad t = true) ->
  (exists t, param w (lin_bias l) = Some t /\ t_device t = d /\ t_requires_grad t = true) ->
  float_on d [n; f] x ->
  f = lin_in l ->
  exists y, torch_handle (LinearCall l x) w = (Ok y, w) /\ float_on d [n; lin_out l] y /\
            t_requires_grad y = true.
Proof.
  intros Hg (wt & Hwt & Hdw & Hgw) (bs & Hbs & Hdb & Hgb) (Hd & Ht & Hs) Hf.
  cbn [torch_handle]. unfold layer_call, linear_shape.
  rewrite Hwt, Hbs, Ht, Hdw, Hdb, Hd, Hs, device_eqb_refl, Hg, Hgw. subst f.
  cbn [rev app dtype_eqb negb andb orb]. rewrite Nat.eqb_refl.
  eexists. split; [reflexivity |]. repeat split.
Qed.

Ltac torch_step E :=
  rewrite run_bind, run_trigger;
  change (handle torch ?c ?w0) with (torch_handle c w0);
  rewrite E; cbv beta iota.

Ltac torch_call :=
  rewrite run_bind, run_trigger;
  change (handle torch ?c ?w0) with (torch_handle c w0);
  cbn [torch_handle pure_call]; cbv beta iota.

Lemma torch_forward_tracked (w : world) (net : Net) (x : tensor) (d : device) (n : nat) :
  Net_layout net -> w_grad_mode w = true -> trainable w net d ->
  float_on d [n; 3; 32; 32] x ->
  exists (y : tensor) (tr : list entry),
    run torch (Net_forward net x) w = (Ok y, w, tr) /\
    float_on d [n; 10] y /\ t_requires_grad y = true.
Proof.
  intros Hlay Hg Htr Hx.
  pose proof (trainable_resident _ _ _ Htr) as Hres.
  unfold Net_layout, layer_sizes in Hlay.
  injection Hlay as Hci1 Hco1 Hck1 Hpk Hps Hci2 Hco2 Hck2 Hfi1 Hfo1 Hfi2 Hfo2 Hfi3 Hfo3.
  unfold trainable, Net_parameters in Htr.
  pose proof (Forall_inv (Forall_inv_tail (Forall_inv_tail (Forall_inv_tail
                (Forall_inv_tail (Forall_inv_tail (Forall_inv_tail
                (Forall_inv_tail (Forall_inv_tail Htr))))))))) as Hw3.
  pose proof (Forall_inv (Forall_inv_tail (Forall_inv_tail (Forall_inv_tail
                (Forall_inv_tail (Forall_inv_tail (Forall_inv_tail
                (Forall_inv_tail (Forall_inv_tail (Forall_inv_tail Htr)))))))))) as Hb3.
  unfold resident, Net_parameters in Hres.
  repeat match goal with
         | H : Forall _ (_ :: _) |- _ => inversion H; subst; clear H
         end.
  destruct (conv_call_float w (conv1 net) x d n 3 32 32)
    as (a1 & E1 & G1); try assumption; try (symmetry; assumption);
    try (rewrite Hck1; lia).
  rewrite Hco1, Hck1 in G1. change (float_on d [n; 6; 28; 28] a1) in G1.
  destruct (relu_call_float w a1 d _ G1) as (a2 & E2 & G2).
  destruct (pool_call_float w (pool net) a2 d _ _ _ _ G2)
    as (a3 & E3 & G3); try assumption; try lia.
  change (float_on d [n; 6; 14; 14] a3) in G3.
  destruct (conv_call_float w (conv2 net) a3 d n 6 14 14)
    as (a4 & E4 & G4); try assumption; try (symmetry; assumption);
    try (rewrite Hck2; lia).
  rewrite Hco2, Hck2 in G4. change (float_on d [n; 16; 10; 10] a4) in G4.
  destruct (relu_call_float w a4 d _ G4) as (a5 & E5 & G5).
  destruct (pool_call_float w (pool net) a5 d _ _ _ _ G5)
    as (a6 & E6 & G6); try assumption; try lia.
  change (float_on d [n; 16; 5; 5] a6) in G6.
  destruct (view_call_float w a6 d n G6) as (a7 & E7 & G7).
  destruct (linear_call_float w (fc1 net) a7 d n 400)
    as (a8 & E8 & G8); try assumption; try (symmetry; assumption).
  rewrite Hfo1 in G8.
  destruct (relu_call_float w a8 d _ G8) as (a9 & E9 & G9).
  destruct (linear_call_float w (fc2 net) a9 d n 120)
    as (a10 & E10 & G10); try assumption; try (symmetry; assumption).
  rewrite Hfo2 in G10.
  destruct (relu_call_float w a10 d _ G10) as (a11 & E11 & G11).
  destruct (linear_call_tracked w (fc3 net) a11 d n 84 Hg Hw3 Hb3 G11)
    as (y & E12 & G12 & R12); [symmetry; assumption |].
  rewrite Hfo3 in G12.
  exists y. eexists. split; [| split; [exact G12 | exact R12]].
  unfold Net_forward.
  torch_step E1. torch_step E2. torch_step E3. torch_step E4.
  torch_step E5. torch_step E6. torch_step E7. torch_step E8.
  torch_step E9. torch_step E10. torch_step E11. torch_step E12.
  cbn [run app]. reflexivity.
Qed.

(** The loss of logits against class labels. *)
Lemma cross_entropy_of_logits (w : world) (y labels : tensor) (d : device) (n : nat)
    (ls : list nat) :
  float_on d [n; 10] y -> t_device labels = d -> t_dtype labels = Int64 ->
  t_shape labels = [n] -> t_data labels = map class_index ls -> length ls = n ->
  Forall (fun l => l < 10) ls ->
  cross_entropy w y labels
  = Ok (mkTensor d Float32 [] [cross_entropy_kernel y labels]
          (w_grad_mode w && t_requires_grad y)).
Proof.
  intros (Hd & Ht & Hs) Hdl Htl Hsl Hdata Hlen Hls.
  unfold cross_entropy.
  rewrite Hd, Hdl, Ht, Htl, Hs, Hsl, device_eqb_refl, Nat.eqb_refl, Hdata.
  cbn [dtype_eqb negb andb].
  rewrite firstn_all2 by (rewrite length_map; lia).
  replace (forallb _ (map class_index ls)) with true; [reflexivity |].
  symmetry. apply forallb_forall. intros q Hq.
  apply in_map_iff in Hq. destruct Hq as (l & <- & Hl).
  rewrite Forall_forall in Hls. apply class_index_in_range. apply Hls. exact Hl.
Qed.

(** One batch of the training on a trainable network completes, and the
    network stays trainable. *)
Lemma torch_training_step (w : world) (net : Net) (opt : SGD) (epoch i : nat) (b : batch)
    (running_loss : Q) (d : device) :
  Net_layout net -> w_grad_mode w = true -> trainable w net d ->
  labelled_batch d b -> class_labels b = true ->
  exists (rl : Q) (w' : world) (tr : list entry),
    run torch (training_step net opt epoch (i, b) running_loss) w = (Ok rl, w', tr) /\
    w_grad_mode w' = true /\ trainable w' net d.
Proof.
  intros Hlay Hg Htr (n & ls & Hx & Hdl & Hsl & Hdata & Hlen) Hcl.
  apply andb_true_iff in Hcl. destruct Hcl as [Htl Hls].
  apply dtype_eqb_eq in Htl.
  rewrite (labels_of_class_indices _ _ Hdata) in Hls.
  assert (Hls' : Forall (fun l => l < 10) ls).
  { apply Forall_forall. intros l Hl. rewrite forallb_forall in Hls.
    apply Nat.ltb_lt. apply Hls. exact Hl. }
  unfold training_step. cbn [fst snd].
  torch_call.
  set (w1 := set_store (update_slots (sgd_params opt)
                          (fun s => mkSlot (p_value s) None (p_buf s)) (w_store w)) w).
  assert (Htr1 : trainable w1 net d).
  { apply (trainable_of_tracking w); [| exact Htr].
    apply map_update_slots. reflexivity. }
  destruct (torch_forward_tracked w1 net (fst b) d n Hlay Hg Htr1 Hx)
    as (y & ftr & Hrun & Hy & Hry).
  rewrite run_bind, Hrun. cbv beta iota.
  torch_call.
  rewrite (cross_entropy_of_logits w1 y (snd b) d n ls Hy Hdl Htl Hsl Hdata Hlen Hls').
  cbv beta iota.
  change (w_grad_mode w1) with (w_grad_mode w). rewrite Hg, Hry. cbn [andb].
  torch_call. cbn [t_requires_grad t_shape negb numel fold_right Nat.eqb]. cbv beta iota.
  set (loss := mkTensor d Float32 [] [cross_entropy_kernel y (snd b)] true).
  set (w2 := set_store (accumulate_grads w1 loss) w1).
  torch_call.
  set (w3 := set_store (update_slots (sgd_params opt) (sgd_update opt) (w_store w2)) w2).
  assert (Htr3 : trainable w3 net d).
  { apply (trainable_of_tracking w1); [| exact Htr1].
    subst w3. cbn [w_store set_store].
    rewrite (map_update_slots slot_tracking) by apply sgd_update_tracking.
    subst w2. cbn [w_store set_store]. unfold accumulate_grads, mapi.
    apply map_mapi_from. reflexivity. }
  torch_call. unfold t_item.
  change (numel (t_shape loss) =? 1) with true. cbv beta iota.
  destruct (i mod 2000 =? 1999); cbv beta iota.
  - torch_call. cbn [run app].
    do 3 eexists. split; [reflexivity |]. split; [exact Hg | exact Htr3].
  - cbn [run app].
    do 3 eexists. split; [reflexivity |]. split; [exact Hg | exact Htr3].
Qed.

Lemma torch_training_batches (net : Net) (opt : SGD) (epoch : nat) (d : device)
    (loader : list batch) :
  Net_layout net ->
  Forall (labelled_batch d) loader -> forallb class_labels loader = true ->
  forall (i : nat) (running_loss : Q) (w : world),
    w_grad_mode w = true -> trainable w net d ->
    exists (rl : Q) (w' : world) (tr : list entry),
      run torch (for_each (enumerate_from i loader) (training_step net opt epoch)
                   running_loss) w = (Ok rl, w', tr) /\
      w_grad_mode w' = true /\ trainable w' net d.
Proof.
  intros Hlay Hall Hcl.
  induction Hall as [| b loader Hb Hall IH]; intros i running_loss w Hg Htr.
  - cbn [enumerate_from for_each run]. do 3 eexists. split; [reflexivity |].
    split; assumption.
  - cbn [forallb] in Hcl. apply andb_true_iff in Hcl. destruct Hcl as [Hcb Hcl].
    cbn [enumerate_from for_each]. rewrite run_bind.
    destruct (torch_training_step w net opt epoch i b running_loss d Hlay Hg Htr Hb Hcb)
      as (rl & w1 & t1 & Hrun & Hg1 & Htr1).
    rewrite Hrun. cbv beta iota.
    destruct (IH Hcl (Datatypes.S i) rl w1 Hg1 Htr1) as (rl' & w2 & t2 & Hrun2 & Hg2 & Htr2).
    rewrite Hrun2. do 3 eexists. split; [reflexivity |]. split; assumption.
Qed.

Lemma torch_training_cell (w : world) (net : Net) (opt : SGD) (loader : list batch)
    (d : device) :
  Net_layout net -> w_grad_mode w = true -> trainable w net d ->
  Forall (labelled_batch d) loader -> forallb class_labels loader = true ->
  exists (w' : world) (tr : list entry),
    run torch (training_cell net opt loader) w = (Ok tt, w', tr) /\
    trainable w' net d.
Proof.
  intros Hlay Hg Htr Hall Hcl.
  unfold training_cell. cbn [seq for_each]. unfold training_epoch.
  destruct (torch_training_batches net opt 0 d loader Hlay Hall Hcl 0 0%Q w Hg Htr)
    as (rl1 & w1 & t1 & Hrun1 & Hg1 & Htr1).
  destruct (torch_training_batches net opt 1 d loader Hlay Hall Hcl 0 0%Q w1 Hg1 Htr1)
    as (rl2 & w2 & t2 & Hrun2 & Hg2 & Htr2).
  rewrite !run_bind, Hrun1. cbv beta iota. cbn [run].
  rewrite !run_bind, Hrun2. cbv beta iota. cbn [run trigger].
  change (handle torch ?c ?w0) with (torch_handle c w0). cbn [torch_handle].
  do 2 eexists. split; [reflexivity |].
  apply (trainable_of_tracking w2); [reflexivity | exact Htr2].
Qed.

(** X11: on a trainable network the training completes: with autograd recording,
    the network and its parameters on one device, and batches of 3 x 32 x 32
    float pictures with their class labels on the same device, no call of
    the two epochs raises, and the network is still trainable afterwards. *)
Theorem training_completes :
  forall (w : world) (net : Net) (opt : SGD) (loader : list batch) (d : device),
    Net_layout net -> w_grad_mode w = true -> trainable w net d ->
    Forall (labelled_batch d) loader -> forallb class_labels loader = true ->
    outcome (run torch (training_cell net opt loader) w) = Ok tt /\
    trainable (final (run torch (training_cell net opt loader) w)) net d.
Proof.
  intros w net opt loader d Hlay Hg Htr Hall Hcl.
  destruct (torch_training_cell w net opt loader d Hlay Hg Htr Hall Hcl)
    as (w' & tr & Hrun & Htr').
  unfold outcome, final. rewrite Hrun. split; [reflexivity | exact Htr'].
Qed.

Lemma run_optimizer_cell (w : world) (net : Net) :
  run torch (optimizer_cell net) w
  = (Ok (mkSGD (Net_parameters net) 0.001 0.9), w,
     [Called (NewSGD (Net_parameters net) 0.001 0.9)
        (Ok (mkSGD (Net_parameters net) 0.001 0.9))]).
Proof. reflexivity. Qed.

Lemma run_keeps_grad_mode {A : Type} (p : prog A) (w w' : world) (r : result A)
    (tr : list entry) :
  run torch p w = (r, w', tr) -> w_grad_mode w' = w_grad_mode w.
Proof.
  intros H. pose proof (torch_run_keeps_grad_mode p w) as G.
  rewrite H in G. exact G.
Qed.

(** X12: the cells compose: on a machine with an accelerator, the cell that
    builds the network, the cell that builds the optimizer and the
    training cell, run one after the other on batches that are on the
    accelerator, complete. *)
Theorem network_optimizer_and_training_compose :
  forall (w : world) (loader : list batch),
    w_cuda w = true -> w_grad_mode w = true ->
    Forall (labelled_batch CUDA) loader -> forallb class_labels loader = true ->
    outcome (run torch (net <- net_cell ;;
                        opt <- optimizer_cell net ;;
                        training_cell net opt loader) w) = Ok tt.
Proof.
  intros w loader Hcuda Hg Hall Hcl.
  destruct (torch_net_cell w Hcuda)
    as (net & w1 & tr & new & Hrun & Hlay & _ & _ & _ & Htr).
  assert (Hg1 : w_grad_mode w1 = true).
  { rewrite (run_keeps_grad_mode _ _ _ _ _ Hrun). exact Hg. }
  destruct (torch_training_cell w1 net
              (mkSGD (Net_parameters net) 0.001 0.9) loader CUDA Hlay Hg1 Htr Hall Hcl)
    as (w2 & tr2 & Hrun2 & _).
  unfold outcome.
  rewrite (run_bind torch net_cell _ w), Hrun. cbv beta iota.
  rewrite (run_bind torch (optimizer_cell net) _ w1), run_optimizer_cell. cbv beta iota.
  rewrite Hrun2. reflexivity.
Qed.

End TrainingRuns.

Lemma training_completes_witness :
  outcome (run toy_torch
             (TrainingNotebook.training_cell ex_net ex_opt (fst ex_loaders)) ex_ready)
  = Ok tt /\
  trainable
    (final (run toy_torch
              (TrainingNotebook.training_cell ex_net ex_opt (fst ex_loaders)) ex_ready))
    ex_net CUDA.
Proof.
  apply (@training_completes toy_kernels ex_ready ex_net ex_opt (fst ex_loaders) CUDA).
  - reflexivity.
  - vm_compute. reflexivity.
  - apply trainableb_trainable. vm_compute. reflexivity.
  - apply labelled_loader. vm_compute. reflexivity.
  - vm_compute. reflexivity.
Defined.

Lemma network_optimizer_and_training_compose_witness :
  outcome (run toy_torch
             (net <- TrainingNotebook.net_cell ;;
              opt <- TrainingNotebook.optimizer_cell net ;;
              TrainingNotebook.training_cell net opt (fst ex_loaders)) ex_world) = Ok tt.
Proof.
  apply (@network_optimizer_and_training_compose toy_kernels ex_world (fst ex_loaders)).
  - reflexivity.
  - reflexivity.
  - apply labelled_loader. vm_compute. reflexivity.
  - vm_compute. reflexivity.
Defined.

(** * Showing host batches *)

Lemma nth_first_of_skipn {A : Type} (l : list A) (d : A) :
  forall j, nth 0 (firstn 1 (skipn j l)) d = nth j l d.
Proof.
  induction l as [| a l IH]; intros [| j]; cbn [skipn firstn nth]; try reflexivity.
  apply IH.
Qed.

Section HostBatches.
Import DatasetNotebook.
Context {K : Kernels}.

Ltac torch_call :=
  rewrite run_bind, run_trigger;
  change (handle torch ?c ?w0) with (torch_handle c w0);
  cbn [torch_handle pure_call]; cbv beta iota.

Lemma numpy_of_unnormalized (w : world) (g : tensor) :
  t_device g = CPU -> t_requires_grad g = false ->
  t_numpy (track w (t_add_scalar (track w (t_div_scalar g 2)) 0.5))
  = Ok (mkArray (t_shape g)
          (map (fun x => x + 0.5)%Q (map (fun x => x / 2)%Q (t_data g)))).
Proof.
  intros Hd Hr. unfold t_numpy, track, t_add_scalar, t_div_scalar.
  cbn [t_device t_requires_grad t_shape t_data].
  rewrite Hd, Hr, !andb_false_r. reflexivity.
Qed.

Lemma np_transpose_to_hwc (a : ndarray) (c h w : nat) :
  a_shape a = [c; h; w] ->
  np_transpose a [1; 2; 0]
  = Ok (mkArray [h; w; c] (permute_data [c; h; w] [1; 2; 0] (a_data a))).
Proof.
  intros Hs. unfold np_transpose. rewrite Hs. reflexivity.
Qed.

(** [imshow] displays a grid that is on the host. *)
Lemma run_imshow_host (w : world) (grid : tensor) (gh gw : nat) :
  t_device grid = CPU -> t_requires_grad grid = false -> t_shape grid = [3; gh; gw] ->
  exists (a : ndarray) (tr : list entry),
    run torch (imshow grid) w = (Ok tt, show_figure a w, tr) /\
    a_shape a = [gh; gw; 3].
Proof.
  intros Hd Hr Hs.
  unfold imshow. torch_call. torch_call.
  rewrite run_bind, run_trigger.
  change (handle torch ?c ?w0) with (torch_handle c w0).
  cbn [torch_handle pure_call].
  rewrite numpy_of_unnormalized by assumption.
  cbv beta iota.
  rewrite run_bind, run_trigger.
  change (handle torch ?c ?w0) with (torch_handle c w0).
  cbn [torch_handle pure_call].
  rewrite (np_transpose_to_hwc _ 3 gh gw) by exact Hs.
  cbv beta iota.
  cbn [run trigger].
  change (handle torch ?c ?w0) with (torch_handle c w0).
  cbn [torch_handle imshow_accepts a_shape Nat.eqb orb]. cbv beta iota.
  eexists. eexists. split; reflexivity.
Qed.

Lemma make_grid_of_batch (n hh ww : nat) :
  1 <= n ->
  exists gh gw : nat, make_grid_shape [n; 3; hh; ww] = Ok [3; gh; gw].
Proof.
  intros Hn. unfold make_grid_shape. cbn [Nat.eqb].
  destruct (Nat.eqb_spec n 1); [do 2 eexists; reflexivity |].
  destruct (Nat.eqb_spec n 0); [lia |]. do 2 eexists; reflexivity.
Qed.

(** The grid of a host batch is displayed. *)
Lemma run_show_images (w : world) (images : tensor) (n hh ww : nat) (k : prog unit) :
  t_device images = CPU -> t_shape images = [n; 3; hh; ww] -> 1 <= n ->
  exists (a : ndarray) (tr : list entry) (gh gw : nat),
    run torch (grid <- trigger (MakeGrid images) ;; imshow grid ;; k) w
    = (let '(r, s2, t2) := run torch k (show_figure a w) in (r, s2, tr ++ t2)) /\
    a_shape a = [gh; gw; 3].
Proof.
  intros Hd Hs Hn.
  destruct (make_grid_of_batch n hh ww Hn) as (gh & gw & Hg).
  torch_call. rewrite Hs, Hg. cbv beta iota.
  rewrite run_bind.
  edestruct (run_imshow_host w) as (a & tr & Hrun & Ha);
    [| | | rewrite Hrun]; [exact Hd | reflexivity | reflexivity |].
  exists a. eexists (_ :: tr). exists gh, gw. split; [| exact Ha].
  destruct (run torch k (show_figure a w)) as [[r s2] t2].
  reflexivity.
Qed.

Lemma run_label_name (w : world) (labels : tensor) (ls : list nat) (n j : nat) :
  t_dtype labels = Int64 -> t_shape labels = [n] ->
  t_data labels = map class_index ls -> length ls = n ->
  j < n -> nth j ls 0 < 10 ->
  exists tr : list entry,
    run torch (label_name labels j) w
    = (Ok (percent_5s (nth (nth j ls 0) classes EmptyString)), w, tr).
Proof.
  intros Ht Hs Hdata Hlen Hj Hl.
  unfold label_name. torch_call.
  unfold t_getitem. rewrite Hs.
  destruct (Nat.ltb_spec j n) as [_ | ?]; [| lia]. cbv beta iota.
  torch_call. unfold t_index.
  cbn [with_data t_dtype t_shape t_data numel fold_right Nat.eqb].
  rewrite Ht. cbv beta iota.
  rewrite Nat.mul_1_r. unfold qnth. rewrite nth_first_of_skipn, Hdata.
  change (nth j (map class_index ls) 0%Q) with (qnth (map class_index ls) j).
  rewrite nth_class_index by lia.
  unfold class_index at 1. rewrite Qfloor_Z.
  rewrite run_bind. unfold tuple_getitem.
  change (Z.of_nat (length classes)) with 10%Z.
  destruct (Z.ltb_spec (Z.of_nat (nth j ls 0)) 0) as [? | _]; [lia |].
  destruct (Z.leb_spec 0 (Z.of_nat (nth j ls 0))) as [_ | ?]; [| lia].
  destruct (Z.ltb_spec (Z.of_nat (nth j ls 0)) 10) as [_ | ?]; [| lia].
  cbn [andb run app]. rewrite Nat2Z.id.
  eexists. reflexivity.
Qed.

Lemma run_label_out_of_bounds (w : world) (labels : tensor) (n j : nat) :
  t_shape labels = [n] -> n <= j ->
  run torch (label_name labels j) w
  = (Err (IndexError "index is out of bounds for dimension 0"), w,
     [Called (GetItem labels j) (Err (IndexError "index is out of bounds for dimension 0"))]).
Proof.
  intros Hs Hj. unfold label_name. torch_call.
  unfold t_getitem. rewrite Hs.
  destruct (Nat.ltb_spec j n) as [? | _]; [lia |]. reflexivity.
Qed.

Lemma run_label_names (w : world) (labels : tensor) (ls : list nat) (n : nat)
    (js : list nat) :
  t_dtype labels = Int64 -> t_shape labels = [n] ->
  t_data labels = map class_index ls -> length ls = n ->
  Forall (fun j => j < n /\ nth j ls 0 < 10) js ->
  exists tr : list entry,
    run torch (comprehension js (label_name labels)) w
    = (Ok (map (fun j => percent_5s (nth (nth j ls 0) classes EmptyString)) js), w, tr).
Proof.
  intros Ht Hs Hdata Hlen Hjs.
  induction Hjs as [| j js [Hj Hl] _ [tr IH]]; cbn [comprehension map].
  - eexists. reflexivity.
  - destruct (run_label_name w labels ls n j Ht Hs Hdata Hlen Hj Hl) as [tr0 H0].
    rewrite run_bind, H0. cbv beta iota.
    rewrite run_bind, IH. cbn [run]. eexists. reflexivity.
Qed.

Lemma run_label_names_short (w : world) (labels : tensor) (ls : list nat) (n j : nat)
    (pre post : list nat) :
  t_dtype labels = Int64 -> t_shape labels = [n] ->
  t_data labels = map class_index ls -> length ls = n ->
  Forall (fun j => j < n /\ nth j ls 0 < 10) pre -> n <= j ->
  exists tr : list entry,
    run torch (comprehension (pre ++ j :: post) (label_name labels)) w
    = (Err (IndexError "index is out of bounds for dimension 0"), w, tr).
Proof.
  intros Ht Hs Hdata Hlen Hpre Hj.
  induction Hpre as [| i pre [Hi Hl] _ [tr IH]]; cbn [comprehension app].
  - rewrite run_bind, (run_label_out_of_bounds w labels n j Hs Hj).
    eexists. reflexivity.
  - destruct (run_label_name w labels ls n i Ht Hs Hdata Hlen Hi Hl) as [tr0 H0].
    rewrite run_bind, H0. cbv beta iota.
    rewrite run_bind, IH. eexists. reflexivity.
Qed.

Lemma first_batch_world (dl : dataloader) (w : world) :
  handle torch (LoaderFirst dl) w
  = (fst (handle torch (LoaderFirst dl) w), advance_rng dl w).
Proof. reflexivity. Qed.

Lemma advance_rng_output (dl : dataloader) (w : world) :
  w_stdout (advance_rng dl w) = w_stdout w /\ w_figure (advance_rng dl w) = w_figure w.
Proof. unfold advance_rng. destruct (dl_shuffle dl); split; reflexivity. Qed.

(** X13: on a first batch of at least four host pictures with class labels the
    cell displays the grid of the pictures and prints the names of the
    first four labels, each right-aligned in five columns. *)
Theorem show_cell_prints_first_four_labels
    (dl : dataloader) (w : world) (images labels : tensor) (ls : list nat)
    (n hh ww : nat) :
  fst (handle torch (LoaderFirst dl) w) = Ok (images, labels) ->
  t_device images = CPU -> t_shape images = [n; 3; hh; ww] ->
  t_dtype labels = Int64 -> t_shape labels = [n] ->
  t_data labels = map class_index ls -> length ls = n ->
  4 <= n -> (forall j, j < 4 -> nth j ls 0 < 10) ->
  let r := run torch (show_cell dl) w in
  outcome r = Ok tt /\
  w_stdout (final r)
  = w_stdout w ++
    [("%s"%string,
      [PStr (String.concat " "
               (map (fun l => percent_5s (nth l classes EmptyString)) (firstn 4 ls)))])] /\
  exists (a : ndarray) (gh gw : nat),
    w_figure (final r) = w_figure w ++ [a] /\ a_shape a = [gh; gw; 3].
Proof.
  intros Hfirst Hd Hsh Ht Hs Hdata Hlen Hn Hl r. subst r.
  unfold show_cell. rewrite run_bind, run_trigger, first_batch_world, Hfirst.
  cbv beta iota zeta. cbn [fst snd].
  destruct (run_show_images (advance_rng dl w) images n hh ww
              (names <- generator (seq 0 4) (label_name labels) ;;
               trigger (Print "%s" [PStr (String.concat " " names)]))
              Hd Hsh ltac:(lia)) as (a & tr & gh & gw & Hrun & Ha).
  rewrite Hrun. clear Hrun.
  destruct (run_label_names (show_figure a (advance_rng dl w)) labels ls n (seq 0 4)
              Ht Hs Hdata Hlen) as [tr1 Hnames].
  { apply Forall_forall. intros j Hj. apply in_seq in Hj. split; [lia | apply Hl; lia]. }
  rewrite run_bind, run_generator, Hnames. cbv beta iota.
  cbn [run trigger handle torch torch_handle].
  unfold outcome, final. cbn [fst snd write_stdout show_figure w_stdout w_figure].
  destruct (advance_rng_output dl w) as [-> ->].
  split; [reflexivity |]. split.
  - do 4 (destruct ls as [| ? ls]; [cbn [length] in Hlen; lia |]). reflexivity.
  - exists a, gh, gw. split; [reflexivity | exact Ha].
Qed.

(** X14: on a first batch of fewer than four pictures the cell displays the
    grid and then fails with an IndexError at the first label the batch
    does not have; nothing is printed. *)
Theorem show_cell_needs_four_pictures
    (dl : dataloader) (w : world) (images labels : tensor) (ls : list nat)
    (n hh ww : nat) :
  fst (handle torch (LoaderFirst dl) w) = Ok (images, labels) ->
  t_device images = CPU -> t_shape images = [n; 3; hh; ww] ->
  t_dtype labels = Int64 -> t_shape labels = [n] ->
  t_data labels = map class_index ls -> length ls = n ->
  1 <= n -> n < 4 -> (forall j, j < n -> nth j ls 0 < 10) ->
  let r := run torch (show_cell dl) w in
  outcome r = Err (IndexError "index is out of bounds for dimension 0") /\
  w_stdout (final r) = w_stdout w /\
  exists (a : ndarray) (gh gw : nat),
    w_figure (final r) = w_figure w ++ [a] /\ a_shape a = [gh; gw; 3].
Proof.
  intros Hfirst Hd Hsh Ht Hs Hdata Hlen Hn Hn4 Hl r. subst r.
  unfold show_cell. rewrite run_bind, run_trigger, first_batch_world, Hfirst.
  cbv beta iota zeta. cbn [fst snd].
  destruct (run_show_images (advance_rng dl w) images n hh ww
              (names <- generator (seq 0 4) (label_name labels) ;;
               trigger (Print "%s" [PStr (String.concat " " names)]))
              Hd Hsh Hn) as (a & tr & gh & gw & Hrun & Ha).
  rewrite Hrun. clear Hrun.
  assert (Hseq : seq 0 4 = seq 0 n ++ n :: seq (S n) (3 - n)).
  { replace 4 with (n + S (3 - n)) by lia. rewrite seq_app. reflexivity. }
  destruct (run_label_names_short (show_figure a (advance_rng dl w)) labels ls n n
              (seq 0 n) (seq (S n) (3 - n)) Ht Hs Hdata Hlen) as [tr1 Hnames];
    [| lia |].
  { apply Forall_forall. intros j Hj. apply in_seq in Hj. split; [lia | apply Hl; lia]. }
  rewrite Hseq, run_bind, run_generator, Hnames. cbv beta iota. cbn [pep479].
  unfold outcome, final. cbn [fst snd show_figure w_stdout w_figure].
  destruct (advance_rng_output dl w) as [-> ->].
  split; [reflexivity |]. split; [reflexivity |].
  exists a, gh, gw. split; [reflexivity | exact Ha].
Qed.

End HostBatches.

Lemma show_cell_prints_first_four_labels_witness :
  let r := run toy_torch (DatasetNotebook.show_cell ex_small_loader) ex_small_world in
  outcome r = Ok tt /\
  w_stdout (final r)
  = w_stdout ex_small_world ++
    [("%s"%string,
      [PStr (String.concat " "
               (map (fun l => percent_5s (nth l DatasetNotebook.classes EmptyString))
                    (firstn 4 [2; 3; 4; 1])))])] /\
  exists (a : ndarray) (gh gw : nat),
    w_figure (final r) = w_figure ex_small_world ++ [a] /\ a_shape a = [gh; gw; 3].
Proof.
  apply (@show_cell_prints_first_four_labels toy_kernels ex_small_loader ex_small_world
           (fst (@first_batch toy_kernels ex_small_loader ex_small_world))
           (snd (@first_batch toy_kernels ex_small_loader ex_small_world))
           [2; 3; 4; 1] 4 1 1).
  - vm_compute. reflexivity.
  - vm_compute. reflexivity.
  - vm_compute. reflexivity.
  - vm_compute. reflexivity.
  - vm_compute. reflexivity.
  - vm_compute. reflexivity.
  - reflexivity.
  - lia.
  - intros j Hj. do 4 (destruct j as [| j]; [simpl; lia |]). lia.
Defined.

Lemma show_cell_needs_four_pictures_witness :
  let r := run toy_torch (DatasetNotebook.show_cell ex_pair_loader) ex_small_world in
  outcome r = Err (IndexError "index is out of bounds for dimension 0") /\
  w_stdout (final r) = w_stdout ex_small_world /\
  exists (a : ndarray) (gh gw : nat),
    w_figure (final r) = w_figure ex_small_world ++ [a] /\ a_shape a = [gh; gw; 3].
Proof.
  apply (@show_cell_needs_four_pictures toy_kernels ex_pair_loader ex_small_world
           (fst (@first_batch toy_kernels ex_pair_loader ex_small_world))
           (snd (@first_batch toy_kernels ex_pair_loader ex_small_world))
           [4; 1] 2 1 1).
  - vm_compute. reflexivity.
  - vm_compute. reflexivity.
  - vm_compute. reflexivity.
  - vm_compute. reflexivity.
  - vm_compute. reflexivity.
  - vm_compute. reflexivity.
  - reflexivity.
  - lia.
  - lia.
  - intros j Hj. do 2 (destruct j as [| j]; [simpl; lia |]). lia.
Defined.
